(** * Two-factor authentication, device trust and login throttle

    A shallow embedding of the route handlers that make up the
    authentication core of the application:

    - [LoginAttempt]  : [src/app/api/auth/login-attempt/route.ts]
    - [TwoFaVerify]   : [src/app/api/dashboard/2fa/verify/route.ts] (enrollment)
    - [TwoFaDisable]  : the disable route (second document of the same file)
    - [VerifyLogin]   : the login-time challenge route ([src/unnamed/part_007])
    - [Profile]       : the profile route ([src/unnamed/part_013])
    - [Settings]      : [src/app/api/dashboard/settings/route.ts]
    - [Refresh]       : [src/app/api/dashboard/trusted-devices/refresh/route.ts]

    and of what surrounds it:

    - [ProfileUpdate]  : the profile route, [POST] ([src/unnamed/part_013])
    - [SettingsUpdate] : the settings route, [POST]
    - [TrustedDevices] : the revoke route ([src/unnamed/part_010])
    - [UsernameCheck]  : the username availability route ([src/unnamed/part_007])
    - [AvatarUpload]   : the avatar-sharp route ([src/unnamed/part_008])
    - [Sanitizer], [Forum] : [src/unnamed/part_000] and the fields the forum
      routes store ([src/unnamed/part_014])
    - [LoginForm]      : [onSubmit] of [src/components/auth/login-form.tsx]

    Handlers are functions from an environment (what the runtime and the
    external collaborators answer during one request), the shared state and
    the request to the new state and the response.  Code that can raise is
    given an [outcome]; every [try]/[catch] of the source is a [match] on it. *)

From Stdlib Require Import ZArith String Ascii List Bool Lia.
From stdpp Require Import base option gmap strings list pretty.

Set Default Proof Using "Type".
Set Warnings "-register-all".

(* ===================================================================== *)
(** ** JavaScript values and string helpers *)
(* ===================================================================== *)

Module Js.

(** JavaScript values as [JSON.parse] yields them and [NextResponse.json]
    serialises them, with [undefined] for what is not there.  Objects keep
    their keys in insertion order.  Numbers are restricted to integers, the
    only ones the handlers produce. *)
Inductive json : Type :=
  | JUndefined
  | JNull
  | JBool (b : bool)
  | JNum (z : Z)
  | JStr (s : string)
  | JArr (items : list json)
  | JObj (fields : list (string * json)).

Definition truthy (v : json) : bool :=
  match v with
  | JUndefined | JNull => false
  | JBool b => b
  | JNum z => negb (z =? 0)%Z
  | JStr s => negb (String.eqb s "")
  | JArr _ | JObj _ => true
  end.

Fixpoint obj_get (k : string) (fs : list (string * json)) : option json :=
  match fs with
  | [] => None
  | (k', v) :: fs' => if String.eqb k k' then Some v else obj_get k fs'
  end.

(** [{ ...fs, k: v }]: an existing key keeps its place, a new one goes last. *)
Fixpoint obj_set (k : string) (v : json) (fs : list (string * json))
  : list (string * json) :=
  match fs with
  | [] => [(k, v)]
  | (k', v') :: fs' =>
      if String.eqb k k' then (k, v) :: fs' else (k', v') :: obj_set k v fs'
  end.

(** [delete obj[k]] *)
Fixpoint obj_delete (k : string) (fs : list (string * json))
  : list (string * json) :=
  match fs with
  | [] => []
  | (k', v') :: fs' =>
      if String.eqb k k' then obj_delete k fs' else (k', v') :: obj_delete k fs'
  end.

(** Property access [v.k] / [v?.k] on a parsed value: only objects carry
    own properties here, and a missing one reads as [undefined]. *)
Definition prop (k : string) (v : json) : json :=
  match v with
  | JObj fs => default JUndefined (obj_get k fs)
  | _ => JUndefined
  end.

(** [String(v)] for the values of the model; an array joins its items with
    commas, [null] and [undefined] items giving the empty text. *)
Fixpoint to_String (v : json) : string :=
  match v with
  | JUndefined => "undefined"
  | JNull => "null"
  | JBool true => "true"
  | JBool false => "false"
  | JNum z => pretty z
  | JStr s => s
  | JArr items =>
      let item x :=
        match x with
        | JUndefined | JNull => ""
        | _ => to_String x
        end in
      (fix join (l : list json) : string :=
         match l with
         | [] => ""
         | [x] => item x
         | x :: l' => item x +:+ "," +:+ join l'
         end) items
  | JObj _ => "[object Object]"
  end.

(** All string leaves of a value, at any depth. *)
Fixpoint strings_of (v : json) : list string :=
  match v with
  | JStr s => [s]
  | JArr items => flat_map strings_of items
  | JObj fs => flat_map (fun kv => strings_of (snd kv)) fs
  | _ => []
  end.

(** The string [s] occurs as a value somewhere in the body [v]. *)
Definition appears (s : string) (v : json) : Prop := In s (strings_of v).

(** *** Strings.  Strings are byte strings; case folding and white space
    are those of ASCII. *)

Definition lower_ascii (c : ascii) : ascii :=
  let n := nat_of_ascii c in
  if (65 <=? n)%nat && (n <=? 90)%nat then ascii_of_nat (n + 32) else c.

Fixpoint toLowerCase (s : string) : string :=
  match s with
  | EmptyString => EmptyString
  | String c s' => String (lower_ascii c) (toLowerCase s')
  end.

Definition is_space (c : ascii) : bool :=
  let n := nat_of_ascii c in
  ((9 <=? n)%nat && (n <=? 13)%nat) || (n =? 32)%nat.

Fixpoint trimStart (s : string) : string :=
  match s with
  | String c s' => if is_space c then trimStart s' else s
  | EmptyString => EmptyString
  end.

Fixpoint trimEnd (s : string) : string :=
  match s with
  | EmptyString => EmptyString
  | String c s' =>
      match trimEnd s' with
      | EmptyString => if is_space c then EmptyString else String c EmptyString
      | t => String c t
      end
  end.

Definition trim (s : string) : string := trimEnd (trimStart s).

(** Text in ASCII.  On such text the byte string is the JavaScript string,
    unit for unit, and [toLowerCase], [trim], [length] and [slice] here are
    JavaScript's; what is proved of a route that trims, folds, measures or
    cuts a text it received is proved for texts in ASCII. *)
Definition is_ascii (c : ascii) : bool := (nat_of_ascii c <? 128)%nat.

Fixpoint ascii_text (s : string) : bool :=
  match s with
  | EmptyString => true
  | String c s' => is_ascii c && ascii_text s'
  end.

(** A value that is not a string, or a string in ASCII. *)
Definition ascii_value (v : json) : bool :=
  match v with
  | JStr s => ascii_text s
  | _ => true
  end.

Definition startsWith (s p : string) : bool := String.prefix p s.

(** [hay.includes(needle)] *)
Fixpoint includes (hay needle : string) : bool :=
  String.prefix needle hay ||
  match hay with
  | EmptyString => false
  | String _ hay' => includes hay' needle
  end.

(** [s.split(sep)[0]] *)
Fixpoint split_head (sep : ascii) (s : string) : string :=
  match s with
  | EmptyString => EmptyString
  | String c s' =>
      if Ascii.eqb c sep then EmptyString else String c (split_head sep s')
  end.

(** [s.split(sep)[1]], [undefined] when there is no separator. *)
Fixpoint split_second (sep : ascii) (s : string) : option string :=
  match s with
  | EmptyString => None
  | String c s' =>
      if Ascii.eqb c sep then Some (split_head sep s') else split_second sep s'
  end.

(** [s.slice(0, n)] *)
Definition slice0 (n : nat) (s : string) : string := String.substring 0 n s.

(** [a || b] on strings that may be [null]. *)
Definition or_else (a : option string) (b : string) : string :=
  match a with
  | Some s => if String.eqb s "" then b else s
  | None => b
  end.

Definition nonempty (a : option string) : option string :=
  match a with
  | Some s => if String.eqb s "" then None else Some s
  | None => None
  end.

(** Code that may raise: [Thrown] is an exception on its way to the nearest
    [catch]. *)
Inductive outcome (A : Type) : Type :=
  | Returned (a : A)
  | Thrown.
Arguments Returned {A} a.
Arguments Thrown {A}.

End Js.
Import Js.

(* ===================================================================== *)
(** ** HTTP responses *)
(* ===================================================================== *)

Record cookie := {
  c_name : string;
  c_value : string;
  c_httpOnly : bool;
  c_secure : bool;
  c_sameSite : string;
  c_path : string;
  c_maxAge : Z;
}.

Record response := {
  status : Z;
  body : json;
  headers : list (string * string);
  cookies : list cookie;
}.

(** [NextResponse.json(j)] and [NextResponse.json(j, { status })] *)
Definition json_response (st : Z) (j : json) : response :=
  {| status := st; body := j; headers := []; cookies := [] |}.

Definition isoError (msg : string) : response :=
  json_response 500 (JObj [("error", JStr msg)]).

Definition isoError_default : response := isoError "Internal server error".

(** [res.cookies.set(...)] *)
Definition set_cookie (c : cookie) (r : response) : response :=
  {| status := status r; body := body r; headers := headers r;
     cookies := cookies r ++ [c] |}.

(* ===================================================================== *)
(** ** HTTP requests *)
(* ===================================================================== *)

(** What the request body turns out to be when it is read. *)
Inductive payload : Type :=
  | NoBody
  | Malformed
  | Parsed (j : json).

(** A request: the query string of its URL, its body, its cookies and its
    headers (by lower-case name). *)
Record request := {
  req_query : gmap string string;
  req_payload : payload;
  req_cookies : gmap string string;
  req_headers : gmap string string;
}.

(** [await req.json()] rejects on an empty or malformed body. *)
Definition req_json (req : request) : outcome json :=
  match req_payload req with
  | Parsed j => Returned j
  | NoBody | Malformed => Thrown
  end.

(** [parseJsonOrEmpty]: an empty text is [{}], a malformed one raises
    ['Invalid JSON']. *)
Definition parseJsonOrEmpty (req : request) : outcome json :=
  match req_payload req with
  | NoBody => Returned (JObj [])
  | Malformed => Thrown
  | Parsed j => Returned j
  end.

(* ===================================================================== *)
(** ** Login throttle: [login-attempt/route.ts] *)
(* ===================================================================== *)

Module LoginAttempt.
Local Open Scope Z_scope.

Record Entry := { count : Z; windowStart : Z }.

Definition EMAIL_WINDOW_MS : Z := 15 * 60 * 1000.
Definition EMAIL_MAX : Z := 5.
Definition IP_WINDOW_MS : Z := 60 * 60 * 1000.
Definition IP_MAX : Z := 200.

(** The two module-level maps. *)
Record limiter := {
  emailAttempts : gmap string Entry;
  ipAttempts : gmap string Entry;
}.

Definition empty_limiter : limiter :=
  {| emailAttempts := ∅; ipAttempts := ∅ |}.

(** [incrMap]; [n] is what [now()] returned.  The function returns the map
    after its [map.set] and the entry it hands back. *)
Definition incrMap (map : gmap string Entry) (key : string) (windowMs n : Z)
  : gmap string Entry * Entry :=
  match map !! key with
  | Some existing =>
      if windowStart existing + windowMs <=? n then
        (<[key := {| count := 1; windowStart := n |}]> map,
         {| count := 1; windowStart := n |})
      else
        let existing' :=
          {| count := count existing + 1;
             windowStart := windowStart existing |} in
        (<[key := existing']> map, existing')
  | None =>
      (<[key := {| count := 1; windowStart := n |}]> map,
       {| count := 1; windowStart := n |})
  end.

Record Remaining := { remaining : Z; retryAfter : Z }.

(** [Math.ceil(x / d)] for a positive [d]. *)
Definition ceil_div (x d : Z) : Z := - ((- x) / d).

(** [getRemaining]; [n] is what its own [now()] returned. *)
Definition getRemaining (map : gmap string Entry) (key : string)
    (max windowMs n : Z) : Remaining :=
  match map !! key with
  | None => {| remaining := max; retryAfter := 0 |}
  | Some e =>
      let elapsed := n - windowStart e in
      if elapsed >=? windowMs then {| remaining := max; retryAfter := 0 |}
      else {| remaining := Z.max 0 (max - count e);
              retryAfter := ceil_div (windowMs - elapsed) 1000 |}
  end.

(** [const body = await req.json().catch(() => ({}))] *)
Definition body_of (req : request) : json :=
  match req_json req with
  | Returned j => j
  | Thrown => JObj []
  end.

(** [typeof body?.email === 'string' ? body.email.toLowerCase().trim() : null] *)
Definition email_of (req : request) : option string :=
  match prop "email" (body_of req) with
  | JStr s => Some (trim (toLowerCase s))
  | _ => None
  end.

(** [xff.split(',')[0].trim() || 'unknown'] *)
Definition ip_of (req : request) : string :=
  let xff :=
    or_else (req_headers req !! "x-forwarded-for")
      (or_else (req_headers req !! "x-real-ip") "") in
  or_else (Some (trim (split_head "," xff))) "unknown".

Definition too_many (msg : string) (retry : Z) : response :=
  {| status := 429;
     body := JObj [("error", JStr msg); ("retryAfter", JNum retry)];
     headers := [("Retry-After", pretty retry)];
     cookies := [] |}.

Definition ip_denied (retry : Z) : response :=
  too_many "Too many requests from this IP" retry.

Definition email_denied (retry : Z) : response :=
  too_many "Too many login attempts for this account" retry.

Definition admitted (ipRem emailRem : Z) : response :=
  json_response 200
    (JObj [("ok", JBool true);
           ("remaining", JObj [("ip", JNum ipRem); ("email", JNum emailRem)])]).

(** [POST] from line 51 on, the throttle proper, run on its two keys:
    [email] is what line 45 computed ([None] for [null]) and [ip] what
    line 49 computed.  [clk k] is the value of the [k]-th call of
    [Date.now()] made while the request is served: one per [incrMap], and
    one per [getRemaining], which finds the entry just written. *)
Definition throttle (clk : nat -> Z) (st : limiter) (email : option string)
    (ip : string) : limiter * response :=
  let '(ipMap, ipEntry) := incrMap (ipAttempts st) ip IP_WINDOW_MS (clk 0%nat) in
  if count ipEntry >? IP_MAX then
    let retry :=
      retryAfter (getRemaining ipMap ip IP_MAX IP_WINDOW_MS (clk 1%nat)) in
    ({| emailAttempts := emailAttempts st; ipAttempts := ipMap |},
     ip_denied retry)
  else
    match nonempty email with
    | Some e =>
        let '(emMap, emailEntry) :=
          incrMap (emailAttempts st) e EMAIL_WINDOW_MS (clk 1%nat) in
        let st' := {| emailAttempts := emMap; ipAttempts := ipMap |} in
        if count emailEntry >? EMAIL_MAX then
          let retry :=
            retryAfter
              (getRemaining emMap e EMAIL_MAX EMAIL_WINDOW_MS (clk 2%nat)) in
          (st', email_denied retry)
        else
          let ipRemaining :=
            getRemaining ipMap ip IP_MAX IP_WINDOW_MS (clk 2%nat) in
          let emailRemaining :=
            getRemaining emMap e EMAIL_MAX EMAIL_WINDOW_MS (clk 3%nat) in
          (st', admitted (remaining ipRemaining) (remaining emailRemaining))
    | None =>
        let ipRemaining :=
          getRemaining ipMap ip IP_MAX IP_WINDOW_MS (clk 1%nat) in
        ({| emailAttempts := emailAttempts st; ipAttempts := ipMap |},
         admitted (remaining ipRemaining) EMAIL_MAX)
    end.

(** [POST]: the two keys are computed from the request (lines 44 to 49),
    then the counters are run on them.  Nothing in the body raises
    ([req.json()] has its own [.catch], [req.url] is an absolute URL), so
    the outer [catch] is not reached. *)
Definition POST (clk : nat -> Z) (st : limiter) (req : request)
  : limiter * response :=
  throttle clk st (email_of req) (ip_of req).

(** A call: the clock readings of the request and the request. *)
Definition call : Type := (nat -> Z) * request.

Definition POST_call (st : limiter) (c : call) : limiter * response :=
  POST (fst c) st (snd c).

(** Serving a sequence of calls, oldest first: the final state, and each
    call with its response. *)
Fixpoint serve (st : limiter) (cs : list call) : limiter :=
  match cs with
  | [] => st
  | c :: cs' => serve (fst (POST_call st c)) cs'
  end.

Fixpoint serve_log (st : limiter) (cs : list call) : list (call * response) :=
  match cs with
  | [] => []
  | c :: cs' =>
      (c, snd (POST_call st c)) :: serve_log (fst (POST_call st c)) cs'
  end.

(** The call carries the account key [e]. *)
Definition carries (e : string) (c : call) : bool :=
  match nonempty (email_of (snd c)) with
  | Some e' => String.eqb e' e
  | None => false
  end.

(** The response is the denial of the per-origin counter. *)
Definition origin_denied (r : response) : bool :=
  match prop "error" (body r) with
  | JStr m => String.eqb m "Too many requests from this IP"
  | _ => false
  end.

Definition retry_of (r : response) : option Z :=
  match prop "retryAfter" (body r) with
  | JNum z => Some z
  | _ => None
  end.

(** The calls of a trace that carry [e], with their responses. *)
Definition account_log (e : string) (st : limiter) (cs : list call)
  : list (call * response) :=
  List.filter (fun cr => carries e (fst cr)) (serve_log st cs).

(** The retryAfter the account counter reports at time [n] in the window that
    began at [ws]. *)
Definition account_retry (ws n : Z) : Z :=
  if n - ws >=? EMAIL_WINDOW_MS then 0
  else ceil_div (EMAIL_WINDOW_MS - (n - ws)) 1000.

(** Counters never hold less than one attempt. *)
Definition well_formed (st : limiter) : Prop :=
  forall k en, emailAttempts st !! k = Some en -> 1 <= count en.

(** The same traffic seen from line 51 on: a call is its clock readings, its
    account key (what line 45 left in [email]) and its origin key (what
    line 49 left in [ip]). *)
Definition key_call : Type := (nat -> Z) * (option string * string).

Definition account_key (c : key_call) : option string := fst (snd c).
Definition origin_key (c : key_call) : string := snd (snd c).

Definition throttle_call (st : limiter) (c : key_call) : limiter * response :=
  throttle (fst c) st (account_key c) (origin_key c).

(** The keys of a request, as [POST] computes them. *)
Definition keys_of (c : call) : key_call :=
  (fst c, (email_of (snd c), ip_of (snd c))).

Fixpoint throttle_all (st : limiter) (cs : list key_call) : limiter :=
  match cs with
  | [] => st
  | c :: cs' => throttle_all (fst (throttle_call st c)) cs'
  end.

Fixpoint throttle_log (st : limiter) (cs : list key_call)
  : list (key_call * response) :=
  match cs with
  | [] => []
  | c :: cs' =>
      (c, snd (throttle_call st c))
      :: throttle_log (fst (throttle_call st c)) cs'
  end.

(** The call is made for the account [e]: [if (email)] holds and [email]
    is [e]. *)
Definition made_for (e : string) (c : key_call) : bool :=
  match nonempty (account_key c) with
  | Some e' => String.eqb e' e
  | None => false
  end.

(** The calls of a trace made for [e], with their responses. *)
Definition account_trace (e : string) (st : limiter) (cs : list key_call)
  : list (key_call * response) :=
  List.filter (fun cr => made_for e (fst cr)) (throttle_log st cs).

(** How many of the logged calls got past the per-origin check. *)
Definition counted (log : list (key_call * response)) : nat :=
  length (List.filter (fun cr => negb (origin_denied (snd cr))) log).

End LoginAttempt.

(* ===================================================================== *)
(** ** The hosted backend, as the handlers see it *)
(* ===================================================================== *)

(** A row of [profiles].  A null column is [None]; the JSONB column
    [preferences] holds [JNull] when it is null. *)
Record profile_row := {
  full_name : option string;
  username : option string;
  avatar_path : option string;
  preferences : json;
}.

(** A row of [trusted_devices] ([001_create_trusted_devices_table.sql]);
    [token_hash] is indexed but not unique. *)
Record device := {
  d_id : string;
  d_user_id : string;
  d_token_hash : string;
  d_user_agent : string;
  d_created_at : string;
  d_last_seen : string;
}.

(** [profiles] by primary key, and [trusted_devices] in insertion order. *)
Record store := {
  profiles : gmap string profile_row;
  trusted_devices : list device;
}.

(** What can go wrong with a call to the backend: it resolves with
    [{ error: { message } }], or it raises. *)
Inductive fault : Type :=
  | Fails (message : string)
  | Rejects.

(** [{ data, error }]; [error] is the message. *)
Record result (A : Type) := { data : option A; error : option string }.
Arguments data {A} r.
Arguments error {A} r.
Arguments Build_result {A} data error.

(** [.maybeSingle()]: no row is [data: null], several rows are an error. *)
Definition maybeSingle {A : Type} (rows : list A) : result A :=
  match rows with
  | [] => {| data := None; error := None |}
  | [r] => {| data := Some r; error := None |}
  | _ :: _ :: _ =>
      {| data := None;
         error := Some "JSON object requested, multiple (or no) rows returned" |}
  end.

(** A call to the backend: a fault, when there is one, replaces it and
    leaves the tables as they are. *)
Definition query {A : Type} (f : option fault) (st : store)
    (run : store -> store * result A) : outcome (store * result A) :=
  match f with
  | Some Rejects => Thrown
  | Some (Fails m) => Returned (st, {| data := None; error := Some m |})
  | None => Returned (run st)
  end.

(** [.from('profiles').select(...).eq('id', id).maybeSingle()] *)
Definition select_profile (id : string) (st : store)
  : store * result profile_row :=
  (st, maybeSingle (option_list (profiles st !! id))).

Definition with_preferences (prefs : json) (row : profile_row) : profile_row :=
  {| full_name := full_name row; username := username row;
     avatar_path := avatar_path row; preferences := prefs |}.

(** [.from('profiles').update({ preferences }).eq('id', id).select(...)
    .maybeSingle()] *)
Definition update_preferences (id : string) (prefs : json) (st : store)
  : store * result profile_row :=
  match profiles st !! id with
  | Some row =>
      ({| profiles := <[id := with_preferences prefs row]> (profiles st);
          trusted_devices := trusted_devices st |},
       {| data := Some (with_preferences prefs row); error := None |})
  | None => (st, {| data := None; error := None |})
  end.

(** [.from('trusted_devices').insert([d])] *)
Definition insert_device (d : device) (st : store) : store * result unit :=
  ({| profiles := profiles st; trusted_devices := trusted_devices st ++ [d] |},
   {| data := None; error := None |}).

Definition owned_by (uid : string) (d : device) : bool :=
  String.eqb (d_user_id d) uid.

Definition has_hash (h : string) (d : device) : bool :=
  String.eqb (d_token_hash d) h.

(** [.from('trusted_devices').delete().eq('user_id', uid)] *)
Definition delete_devices (uid : string) (st : store) : store * result unit :=
  ({| profiles := profiles st;
      trusted_devices :=
        List.filter (fun d => negb (owned_by uid d)) (trusted_devices st) |},
   {| data := None; error := None |}).

(** [.from('trusted_devices').select('id').eq('user_id', uid)
    .eq('token_hash', h).maybeSingle()] *)
Definition select_device (uid h : string) (st : store) : store * result device :=
  (st, maybeSingle
         (List.filter (fun d => owned_by uid d && has_hash h d)
            (trusted_devices st))).

Definition seen_at (now : string) (d : device) : device :=
  {| d_id := d_id d; d_user_id := d_user_id d; d_token_hash := d_token_hash d;
     d_user_agent := d_user_agent d; d_created_at := d_created_at d;
     d_last_seen := now |}.

(** [.from('trusted_devices').update({ last_seen: now }).eq('token_hash', h)
    .select('id,user_id').maybeSingle()]: a statement that would return several
    rows is refused as a whole. *)
Definition touch_devices (h now : string) (st : store) : store * result device :=
  let res :=
    maybeSingle
      (List.map (seen_at now) (List.filter (has_hash h) (trusted_devices st))) in
  match error res with
  | Some _ => (st, res)
  | None =>
      ({| profiles := profiles st;
          trusted_devices :=
            List.map (fun d => if has_hash h d then seen_at now d else d)
              (trusted_devices st) |},
       res)
  end.

(** What the runtime and the collaborators answer while one request is
    served. *)
Record env := {
  (** [process.env.NODE_ENV === 'production'] *)
  production : bool;
  (** a service role key is configured: [createAdminClient()] does not raise *)
  service_role_key : bool;
  (** [serverSupabase.auth.getUser()]: the user of the session cookies *)
  session_user : gmap string string -> outcome (option string);
  (** [admin.auth.getUser(token)]: the user of a bearer token *)
  bearer_user : string -> outcome (option string);
  (** [authenticator.check(code, secret)] *)
  totp_check : string -> string -> outcome bool;
  (** [await import('crypto')] resolves *)
  crypto_module : bool;
  (** [crypto.createHash('sha256').update(s).digest('hex')] *)
  sha256_hex : string -> string;
  (** [crypto.randomBytes(32).toString('hex')] *)
  random_hex : string;
  (** the [k]-th [new Date().toISOString()] of the request *)
  now_iso : nat -> string;
  (** the [id] the table gives a new row *)
  new_uuid : string;
  (** the fault, if any, of the [k]-th backend call site of the handler *)
  db_fault : nat -> option fault;
  (** avatar storage: bucket visibility and URL generation *)
  avatar_public : bool;
  public_url : string -> outcome (option string);
  signed_url : string -> outcome (result string);
}.

(** The two tests the handlers run on an error message. *)
Definition preferences_column_missing (message : string) : bool :=
  let msg := toLowerCase message in
  includes msg "column" && includes msg "preferences"
  && includes msg "does not exist".

Definition relation_missing (message : string) : bool :=
  let msg := toLowerCase message in
  includes msg "relation" && includes msg "does not exist".

Definition error_body (m : string) : json := JObj [("error", JStr m)].

Definition ONE_YEAR : Z := 60 * 60 * 24 * 365.

(** The options every handler passes to [cookies.set('trusted_device', ...)]. *)
Definition trust_cookie (e : env) (value : string) (maxAge : Z) : cookie :=
  {| c_name := "trusted_device"; c_value := value; c_httpOnly := true;
     c_secure := production e; c_sameSite := "lax"; c_path := "/";
     c_maxAge := maxAge |}.

(** [verifyUserFromRequest]: the same function in every route file. *)
Inductive verified : Type :=
  | Verified (user_id : string) (via : string)
  | Refused (status : Z) (reason : string).

(** [user.id === expectedUserId] *)
Definition id_is (id : string) (expected : json) : bool :=
  match expected with
  | JStr s => String.eqb id s
  | _ => false
  end.

Definition verifyUserFromRequest (e : env) (req : request)
    (expectedUserId : json) : verified :=
  let by_cookie :=
    match session_user e (req_cookies req) with
    | Returned (Some id) =>
        if negb (truthy expectedUserId) || id_is id expectedUserId
        then Some id else None
    | Returned None => None
    | Thrown => None
    end in
  match by_cookie with
  | Some id => Verified id "cookie"
  | None =>
      match nonempty (req_headers req !! "authorization") with
      | None => Refused 401 "missing authorization"
      | Some authHeader =>
          if negb (startsWith authHeader "Bearer ") then
            Refused 401 "missing authorization"
          else
            let token := default "" (split_second " " authHeader) in
            if negb (service_role_key e) then Refused 401 "invalid token"
            else
              match bearer_user e token with
              | Thrown => Refused 401 "invalid token"
              | Returned None => Refused 401 "invalid token"
              | Returned (Some id) =>
                  if truthy expectedUserId && negb (id_is id expectedUserId)
                  then Refused 403 "forbidden"
                  else Verified id "token"
              end
      end
  end.

(** The verification step of both 2FA routes:
    [let ok = false; try { ok = authenticator.check(...) } catch { ok = false }] *)
Definition totp_ok (e : env) (token secret : json) : bool :=
  match totp_check e (to_String token) (to_String secret) with
  | Returned b => b
  | Thrown => false
  end.

(** [x || {}] on a JSON value, then the own properties that [{ ...x }] copies. *)
Definition or_empty (v : json) : json := if truthy v then v else JObj [].

Fixpoint chars_from (i : nat) (s : string) : list (string * json) :=
  match s with
  | EmptyString => []
  | String c s' => (pretty i, JStr (String c EmptyString)) :: chars_from (S i) s'
  end.

Definition spread (v : json) : list (string * json) :=
  match v with
  | JObj fs => fs
  | JArr items => imap (fun i x => (pretty i, x)) items
  | JStr s => chars_from 0 s
  | _ => []
  end.

(** [s || null] in a response body. *)
Definition str_or_null (s : option string) : json :=
  match nonempty s with
  | Some t => JStr t
  | None => JNull
  end.

(* ===================================================================== *)
(** ** Enrollment completion: [2fa/verify/route.ts], [POST] *)
(* ===================================================================== *)

Module TwoFaVerify.

(** Backend call sites, in source order. *)
Definition SELECT_PREFERENCES : nat := 0.
Definition UPDATE_PREFERENCES : nat := 1.
Definition INSERT_DEVICE : nat := 2.

Definition not_persisted : response :=
  json_response 200
    (JObj [("success", JBool true);
           ("warning", JStr "preferences column missing; totp not persisted")]).

Definition enrolled (now : string) : response :=
  json_response 200
    (JObj [("success", JBool true);
           ("totp", JObj [("enabled", JBool true); ("createdAt", JStr now)])]).

(** The last [try] of the handler: create a trusted-device token, persist its
    hash and set the cookie. *)
Definition issue (e : env) (st : store) (req : request) (userId : json)
    (now : string) : store * response :=
  if negb (crypto_module e) then (st, enrolled now)
  else
    let rawToken := random_hex e in
    let hash := sha256_hex e rawToken in
    if negb (service_role_key e) then (st, enrolled now)
    else
      let ua := slice0 1000 (or_else (req_headers req !! "user-agent") "") in
      let nowIso := now_iso e 1 in
      let outRes := set_cookie (trust_cookie e rawToken ONE_YEAR) (enrolled now) in
      match
        query (db_fault e INSERT_DEVICE) st
          (insert_device
             {| d_id := new_uuid e; d_user_id := to_String userId;
                d_token_hash := hash; d_user_agent := ua;
                d_created_at := nowIso; d_last_seen := nowIso |})
      with
      | Thrown => (st, outRes)
      | Returned (st', ins) =>
          match error ins with
          | Some m =>
              if relation_missing m then (st', outRes) else (st', outRes)
          | None => (st', outRes)
          end
      end.

(** What follows a successful verification: persist the configuration, then
    [issue]. *)
Definition persist (e : env) (st : store) (req : request)
    (userId secret : json) : store * response :=
  if negb (service_role_key e) then (st, isoError_default)
  else
    match
      query (db_fault e SELECT_PREFERENCES) st
        (select_profile (to_String userId))
    with
    | Thrown => (st, isoError_default)
    | Returned (st1, existing) =>
        match error existing with
        | Some m =>
            if preferences_column_missing m then (st1, not_persisted)
            else (st1, isoError m)
        | None =>
            let prefs :=
              or_empty
                (match data existing with
                 | Some row => preferences row
                 | None => JNull
                 end) in
            let now := now_iso e 0 in
            let totp :=
              JObj [("enabled", JBool true);
                    ("secret", JStr (to_String secret));
                    ("createdAt", JStr now)] in
            let merged := JObj (obj_set "totp" totp (spread prefs)) in
            match
              query (db_fault e UPDATE_PREFERENCES) st1
                (update_preferences (to_String userId) merged)
            with
            | Thrown => (st1, isoError_default)
            | Returned (st2, upd) =>
                match error upd with
                | Some m =>
                    if preferences_column_missing m then (st2, not_persisted)
                    else (st2, isoError m)
                | None => issue e st2 req userId now
                end
            end
        end
    end.

Definition POST (e : env) (st : store) (req : request) : store * response :=
  match parseJsonOrEmpty req with
  | Thrown => (st, json_response 400 (error_body "Invalid JSON body"))
  | Returned body =>
      let userId := prop "userId" (or_empty body) in
      let secret := prop "secret" (or_empty body) in
      let token := prop "token" (or_empty body) in
      if negb (truthy userId) then
        (st, json_response 400 (error_body "missing userId"))
      else if negb (truthy secret) then
        (st, json_response 400 (error_body "missing secret"))
      else if negb (truthy token) then
        (st, json_response 400 (error_body "missing token"))
      else
        match verifyUserFromRequest e req userId with
        | Refused status reason =>
            (st, json_response status (error_body reason))
        | Verified _ _ =>
            if negb (totp_ok e token secret) then
              (st, json_response 400 (error_body "invalid token"))
            else persist e st req userId secret
        end
  end.

End TwoFaVerify.

(* ===================================================================== *)
(** ** Disabling 2FA: the disable route, [POST] *)
(* ===================================================================== *)

Module TwoFaDisable.

Definition SELECT_PREFERENCES : nat := 0.
Definition UPDATE_PREFERENCES : nat := 1.
Definition DELETE_DEVICES : nat := 2.

Definition success : response :=
  json_response 200 (JObj [("success", JBool true)]).

Definition success_warning (w : string) : response :=
  json_response 200 (JObj [("success", JBool true); ("warning", JStr w)]).

(** The last [try]: remove the user's trusted devices when possible, then
    expire the cookie. *)
Definition revoke (e : env) (st : store) (userId : json) : store * response :=
  if negb (service_role_key e) then (st, success)
  else
    let res := set_cookie (trust_cookie e "" 0) success in
    match
      query (db_fault e DELETE_DEVICES) st (delete_devices (to_String userId))
    with
    | Thrown => (st, res)
    | Returned (st', del) =>
        match error del with
        | Some m => if relation_missing m then (st', res) else (st', res)
        | None => (st', res)
        end
    end.

Definition POST (e : env) (st : store) (req : request) : store * response :=
  match req_json req with
  | Thrown => (st, isoError_default)
  | Returned body =>
      let userId := prop "userId" (or_empty body) in
      if negb (truthy userId) then
        (st, json_response 400 (error_body "missing userId"))
      else
        match verifyUserFromRequest e req userId with
        | Refused status reason =>
            (st, json_response status (error_body reason))
        | Verified _ _ =>
            if negb (service_role_key e) then (st, isoError_default)
            else
              match
                query (db_fault e SELECT_PREFERENCES) st
                  (select_profile (to_String userId))
              with
              | Thrown => (st, isoError_default)
              | Returned (st1, existing) =>
                  match error existing with
                  | Some m =>
                      if preferences_column_missing m then
                        (st1,
                         success_warning
                           "preferences column missing; nothing to update")
                      else (st1, isoError m)
                  | None =>
                      let prefs :=
                        or_empty
                          (match data existing with
                           | Some row => preferences row
                           | None => JNull
                           end) in
                      if truthy (prop "totp" prefs) then
                        let merged := JObj (obj_delete "totp" (spread prefs)) in
                        match
                          query (db_fault e UPDATE_PREFERENCES) st1
                            (update_preferences (to_String userId) merged)
                        with
                        | Thrown => (st1, isoError_default)
                        | Returned (st2, upd) =>
                            match error upd with
                            | Some m =>
                                if preferences_column_missing m then
                                  (st2,
                                   success_warning
                                     "preferences column missing; not persisted")
                                else (st2, isoError m)
                            | None => revoke e st2 userId
                            end
                        end
                      else revoke e st1 userId
                  end
              end
        end
  end.

End TwoFaDisable.

(* ===================================================================== *)
(** ** Login-time challenge: the verify-login route, [POST] *)
(* ===================================================================== *)

Module VerifyLogin.

Definition SELECT_PREFERENCES : nat := 0.
Definition INSERT_DEVICE : nat := 1.

Definition success : response :=
  json_response 200 (JObj [("success", JBool true)]).

Definition cookie_only : response :=
  json_response 200
    (JObj [("success", JBool true);
           ("warning", JStr "trusted_devices table missing; cookie set only")]).

(** The last [try]: create the trusted-device token, persist its hash and
    set the cookie.  Anything raised inside ends in plain success. *)
Definition issue (e : env) (st : store) (req : request) (userId : json)
  : store * response :=
  if negb (crypto_module e) then (st, success)
  else
    let rawToken := random_hex e in
    let hash := sha256_hex e rawToken in
    let ua := slice0 1000 (or_else (req_headers req !! "user-agent") "") in
    let nowIso := now_iso e 0 in
    match
      query (db_fault e INSERT_DEVICE) st
        (insert_device
           {| d_id := new_uuid e; d_user_id := to_String userId;
              d_token_hash := hash; d_user_agent := ua;
              d_created_at := nowIso; d_last_seen := nowIso |})
    with
    | Thrown => (st, success)
    | Returned (st', ins) =>
        match error ins with
        | Some m =>
            if relation_missing m then
              (st', set_cookie (trust_cookie e rawToken ONE_YEAR) cookie_only)
            else (st', set_cookie (trust_cookie e rawToken ONE_YEAR) success)
        | None => (st', set_cookie (trust_cookie e rawToken ONE_YEAR) success)
        end
    end.

Definition POST (e : env) (st : store) (req : request) : store * response :=
  match parseJsonOrEmpty req with
  | Thrown => (st, json_response 400 (error_body "Invalid JSON body"))
  | Returned body =>
      let userId := prop "userId" (or_empty body) in
      let token := prop "token" (or_empty body) in
      if negb (truthy userId) then
        (st, json_response 400 (error_body "missing userId"))
      else if negb (truthy token) then
        (st, json_response 400 (error_body "missing token"))
      else if negb (service_role_key e) then (st, isoError_default)
      else
        match
          query (db_fault e SELECT_PREFERENCES) st
            (select_profile (to_String userId))
        with
        | Thrown => (st, isoError_default)
        | Returned (st1, profile) =>
            match error profile with
            | Some m => (st1, isoError m)
            | None =>
                let prefs :=
                  or_empty
                    (match data profile with
                     | Some row => preferences row
                     | None => JNull
                     end) in
                let totp := prop "totp" prefs in
                if negb (truthy totp) || negb (truthy (prop "secret" totp)) then
                  (st1, json_response 400 (error_body "totp not configured"))
                else if negb (totp_ok e token (prop "secret" totp)) then
                  (st1, json_response 400 (error_body "invalid token"))
                else issue e st1 req userId
            end
        end
  end.

End VerifyLogin.

(* ===================================================================== *)
(** ** Profile: the profile route, [GET] *)
(* ===================================================================== *)

Module Profile.

Definition SELECT_PROFILE : nat := 0.
Definition SELECT_DEVICE : nat := 1.

(** The public or signed URL of the avatar; failures leave it [null]. *)
Definition avatar_url (e : env) (path : option string) : json :=
  match nonempty path with
  | None => JNull
  | Some p =>
      if avatar_public e then
        match public_url e p with
        | Returned u => str_or_null u
        | Thrown => JNull
        end
      else
        match signed_url e p with
        | Returned r =>
            match error r with
            | None => str_or_null (data r)
            | Some _ => JNull
            end
        | Thrown => JNull
        end
  end.

(** The legacy test: [raw.startsWith(`${userId}:`)] *)
Definition legacy_prefix (userId raw : string) : bool :=
  startsWith raw (userId +:+ ":").

(** The validation of the [trusted_device] cookie ([let trustedDevice = false;
    try { ... } catch { }]). *)
Definition trustedDevice (e : env) (st : store) (req : request)
    (userId : string) : bool :=
  match nonempty (req_cookies req !! "trusted_device") with
  | None => false
  | Some raw =>
      if negb (crypto_module e) then legacy_prefix userId raw
      else
        let hash := sha256_hex e raw in
        if negb (service_role_key e) then legacy_prefix userId raw
        else
          match
            query (db_fault e SELECT_DEVICE) st (select_device userId hash)
          with
          | Thrown => legacy_prefix userId raw
          | Returned (_, res) =>
              match error res with
              | Some m =>
                  if relation_missing m then legacy_prefix userId raw
                  else false
              | None =>
                  match data res with
                  | Some _ => true
                  | None => legacy_prefix userId raw
                  end
              end
          end
  end.

(** [(profileData?.preferences && profileData.preferences.totp) || null] *)
Definition totp_of (row : option profile_row) : json :=
  match row with
  | Some r =>
      if truthy (preferences r) && truthy (prop "totp" (preferences r))
      then prop "totp" (preferences r)
      else JNull
  | None => JNull
  end.

Definition GET (e : env) (st : store) (req : request) : response :=
  match nonempty (req_query req !! "userId") with
  | None => json_response 400 (error_body "missing userId")
  | Some userId =>
      match verifyUserFromRequest e req (JStr userId) with
      | Refused status reason => json_response status (error_body reason)
      | Verified _ _ =>
          if negb (service_role_key e) then isoError_default
          else
            match query (db_fault e SELECT_PROFILE) st (select_profile userId) with
            | Thrown => isoError_default
            | Returned (_, res) =>
                match error res with
                | Some m => isoError m
                | None =>
                    let profileData := data res in
                    let path := from_option avatar_path None profileData in
                    json_response 200
                      (JObj
                         [("profile",
                           JObj
                             [("full_name",
                               str_or_null
                                 (from_option full_name None profileData));
                              ("username",
                               str_or_null
                                 (from_option username None profileData));
                              ("avatar", avatar_url e path);
                              ("avatar_path", str_or_null path);
                              ("totp", totp_of profileData);
                              ("trustedDevice",
                               JBool (trustedDevice e st req userId))])])
                end
            end
      end
  end.

End Profile.

(* ===================================================================== *)
(** ** Settings: [settings/route.ts], [GET] *)
(* ===================================================================== *)

Module Settings.

Definition SELECT_PREFERENCES : nat := 0.

Definition GET (e : env) (st : store) (req : request) : response :=
  match nonempty (req_query req !! "userId") with
  | None => json_response 400 (error_body "missing userId")
  | Some userId =>
      match verifyUserFromRequest e req (JStr userId) with
      | Refused status reason => json_response status (error_body reason)
      | Verified _ _ =>
          if negb (service_role_key e) then isoError_default
          else
            match
              query (db_fault e SELECT_PREFERENCES) st (select_profile userId)
            with
            | Thrown => isoError_default
            | Returned (_, res) =>
                match error res with
                | Some m =>
                    if preferences_column_missing m then
                      json_response 200 (JObj [("preferences", JNull)])
                    else isoError m
                | None =>
                    let prefs :=
                      match data res with
                      | Some row => preferences row
                      | None => JNull
                      end in
                    json_response 200
                      (JObj
                         [("preferences",
                           if truthy prefs then prefs else JNull)])
                end
            end
      end
  end.

End Settings.

(* ===================================================================== *)
(** ** Trusted-device refresh: [trusted-devices/refresh/route.ts], [POST] *)
(* ===================================================================== *)

Module Refresh.

Definition UPDATE_LAST_SEEN : nat := 0.

Definition not_updated (key reason : string) : response :=
  json_response 200 (JObj [("updated", JBool false); (key, JStr reason)]).

(** The handler, with what it lets escape: [Thrown] would be an exception
    reaching the framework. *)
Definition POST_outcome (e : env) (st : store) (req : request)
  : outcome (store * response) :=
  match nonempty (req_cookies req !! "trusted_device") with
  | None => Returned (st, not_updated "reason" "no cookie")
  | Some raw =>
      let inner : outcome (store * response) :=
        if negb (crypto_module e) then Thrown
        else
          let hash := sha256_hex e raw in
          if negb (service_role_key e) then Thrown
          else
            let now := now_iso e 0 in
            match
              query (db_fault e UPDATE_LAST_SEEN) st (touch_devices hash now)
            with
            | Thrown => Thrown
            | Returned (st', res) =>
                match error res with
                | Some m =>
                    if relation_missing m then
                      Returned
                        (st', not_updated "warning" "trusted_devices table missing")
                    else Returned (st', isoError m)
                | None =>
                    match data res with
                    | None => Returned (st', not_updated "reason" "no match")
                    | Some d =>
                        Returned
                          (st',
                           json_response 200
                             (JObj [("updated", JBool true);
                                    ("id", JStr (d_id d));
                                    ("userId", JStr (d_user_id d))]))
                    end
                end
            end in
      match inner with
      | Returned out => Returned out
      | Thrown => Returned (st, not_updated "reason" "internal")
      end
  end.

Definition POST (e : env) (st : store) (req : request) : store * response :=
  match POST_outcome e st req with
  | Returned out => out
  | Thrown => (st, isoError_default)
  end.

End Refresh.

(* ===================================================================== *)
(** ** Sample traffic for the throttle *)
(* ===================================================================== *)

Module Traffic.
Import LoginAttempt.
Local Open Scope Z_scope.

(** A login attempt from [ip], with or without an [email] in its body. *)
Definition attempt (ip : string) (email : option string) : request :=
  {| req_query := ∅;
     req_payload :=
       Parsed
         (JObj match email with
               | Some a => [("email", JStr a)]
               | None => []
               end);
     req_cookies := ∅;
     req_headers := {["x-forwarded-for" := ip]} |}.

(** A request served within the millisecond [t]. *)
Definition at_ms (t : Z) (req : request) : call := (fun _ => t, req).

Definition office : string := "203.0.113.7".
Definition account : string := "ann@example.org".

(** Seven attempts on one account, one per second. *)
Definition first_attempt : call := at_ms 0 (attempt office (Some account)).

Definition later_attempts : list call :=
  List.map (fun t => at_ms t (attempt office (Some account)))
    [1000; 2000; 3000; 4000; 5000; 6000].

(** An origin that has used 199 of its 200 attempts of the hour, then six
    attempts on one account in the last second of that hour and the first
    of the next. *)
Definition busy_hour : list call :=
  repeat (at_ms 0 (attempt office None)) 199.

Definition six_attempts : list call :=
  List.map (fun t => at_ms t (attempt office (Some account)))
    [3599000; 3599100; 3599200; 3599300; 3599400; 3600000].

(** An origin that has used 195 attempts, then seven attempts on one
    account: five at once, one just before the origin's hour ends and one
    just after. *)
Definition busy_hour' : list call :=
  repeat (at_ms 0 (attempt office None)) 195.

Definition seven_attempts : list call :=
  List.map (fun t => at_ms t (attempt office (Some account)))
    [3000000; 3000000; 3000000; 3000000; 3000000; 3599500; 3600000].

(** One account counter three attempts into the window that began at 0. *)
Definition three_so_far : gmap string Entry :=
  {[ account := {| count := 3; windowStart := 0 |} ]}.

End Traffic.

(* ===================================================================== *)
(** ** Reading requests, responses and the tables *)
(* ===================================================================== *)

(** The field [k] of the body a 2FA route destructures
    ([const { ... } = body || {}]). *)
Definition submitted (req : request) (k : string) : json :=
  match parseJsonOrEmpty req with
  | Returned b => prop k (or_empty b)
  | Thrown => JUndefined
  end.

(** [existing?.preferences || {}] for the profile [uid] as stored. *)
Definition stored_preferences (st : store) (uid : string) : json :=
  match profiles st !! uid with
  | Some row => or_empty (preferences row)
  | None => JObj []
  end.

(** The Second-Factor Configuration of [uid]: the [totp] entry. *)
Definition stored_totp (st : store) (uid : string) : json :=
  prop "totp" (stored_preferences st uid).

Definition stored_secret (st : store) (uid : string) : json :=
  prop "secret" (stored_totp st uid).

(** The trusted-device records of [uid]. *)
Definition devices_of (uid : string) (st : store) : list device :=
  List.filter (owned_by uid) (trusted_devices st).

(** A record of [uid] whose hash is that of the raw token. *)
Definition matches (e : env) (uid raw : string) (d : device) : Prop :=
  d_user_id d = uid ∧ d_token_hash d = sha256_hex e raw.

(** The response is an error: a status of 400 or more and an [error] text. *)
Definition is_error (r : response) : Prop :=
  (400 <= status r)%Z ∧ ∃ m, body r = error_body m.

(** [profile.trustedDevice] in a profile response. *)
Definition reported_trusted (r : response) : json :=
  prop "trustedDevice" (prop "profile" (body r)).



(* ===================================================================== *)
(** ** Sample users, requests and environments *)
(* ===================================================================== *)

Module Sample.

(** What [randomBytes(32).toString('hex')] gives in the samples. *)
Definition fresh_token : string :=
  "5f1c9a0e7b2d4c68a1f3e5d7c9b0a2f4e6d8c0b1a3f5e7d9c1b3a5f7e9d0c2b4".

(** A secret on which the TOTP check raises. *)
Definition malformed : string := "not base32!".

(** A backend in working order; the code ["123456"] is right for every
    secret but the malformed one, on which the check raises. *)
Definition healthy : env :=
  {| production := true;
     service_role_key := true;
     session_user := fun cs => Returned (cs !! "sb-session");
     bearer_user := fun _ => Returned None;
     totp_check := fun code secret =>
       if String.eqb secret malformed then Thrown
       else Returned (String.eqb code "123456");
     crypto_module := true;
     sha256_hex := fun s => "sha256:" +:+ s;
     random_hex := fresh_token;
     now_iso := fun _ => "2025-11-12T09:00:00.000Z";
     new_uuid := "device-3";
     db_fault := fun _ => None;
     avatar_public := true;
     public_url := fun p => Returned (Some ("https://cdn.example/" +:+ p));
     signed_url := fun _ => Thrown |}.

(** The same backend with the given faults at its call sites. *)
Definition faulty (f : nat -> option fault) : env :=
  {| production := production healthy;
     service_role_key := service_role_key healthy;
     session_user := session_user healthy;
     bearer_user := bearer_user healthy;
     totp_check := totp_check healthy;
     crypto_module := crypto_module healthy;
     sha256_hex := sha256_hex healthy;
     random_hex := random_hex healthy;
     now_iso := now_iso healthy;
     new_uuid := new_uuid healthy;
     db_fault := f;
     avatar_public := avatar_public healthy;
     public_url := public_url healthy;
     signed_url := signed_url healthy |}.

(** The same backend on a runtime without the [crypto] module. *)
Definition no_crypto : env :=
  {| production := production healthy;
     service_role_key := service_role_key healthy;
     session_user := session_user healthy;
     bearer_user := bearer_user healthy;
     totp_check := totp_check healthy;
     crypto_module := false;
     sha256_hex := sha256_hex healthy;
     random_hex := random_hex healthy;
     now_iso := now_iso healthy;
     new_uuid := new_uuid healthy;
     db_fault := db_fault healthy;
     avatar_public := avatar_public healthy;
     public_url := public_url healthy;
     signed_url := signed_url healthy |}.

Definition only_at (k : nat) (f : fault) : nat -> option fault :=
  fun i => if Nat.eqb i k then Some f else None.

Definition ann : string := "user-ann".
Definition bob : string := "user-bob".

Definition ann_totp : json :=
  JObj [("enabled", JBool true); ("secret", JStr "JBSWY3DPEHPK3PXP");
        ("createdAt", JStr "2025-11-01T08:00:00.000Z")].

(** Ann has 2FA enabled and two trusted devices; Bob has neither. *)
Definition ann_row : profile_row :=
  {| full_name := Some "Ann"; username := Some "ann"; avatar_path := None;
     preferences := JObj [("theme", JStr "dark"); ("totp", ann_totp)] |}.

Definition bob_row : profile_row :=
  {| full_name := Some "Bob"; username := None; avatar_path := None;
     preferences := JObj [("theme", JStr "light")] |}.

Definition device_of (id uid raw : string) : device :=
  {| d_id := id; d_user_id := uid; d_token_hash := "sha256:" +:+ raw;
     d_user_agent := "Mozilla/5.0"; d_created_at := "2025-11-01T08:00:00.000Z";
     d_last_seen := "2025-11-01T08:00:00.000Z" |}.

Definition db : store :=
  {| profiles := {[ ann := ann_row; bob := bob_row ]};
     trusted_devices :=
       [device_of "device-1" ann "a1b2"; device_of "device-2" ann "c3d4"] |}.

(** Bob before any enrollment, with an empty ledger. *)
Definition db_empty : store :=
  {| profiles := {[ ann := ann_row; bob := bob_row ]}; trusted_devices := [] |}.

(** A request of the signed-in user [uid] with a JSON body. *)
Definition post_as (uid : string) (b : json) : request :=
  {| req_query := ∅; req_payload := Parsed b;
     req_cookies := {[ "sb-session" := uid ]};
     req_headers := {[ "user-agent" := "Mozilla/5.0" ]} |}.

(** A request without any session, cookie or authorization header. *)
Definition post_anonymous (b : json) : request :=
  {| req_query := ∅; req_payload := Parsed b; req_cookies := ∅;
     req_headers := ∅ |}.

(** A [GET ...?userId=uid] of the signed-in user [uid] presenting the
    [trusted_device] cookie [raw]. *)
Definition get_as (uid raw : string) : request :=
  {| req_query := {[ "userId" := uid ]}; req_payload := NoBody;
     req_cookies := {[ "sb-session" := uid; "trusted_device" := raw ]};
     req_headers := ∅ |}.

Definition enroll_body (uid secret code : string) : json :=
  JObj [("userId", JStr uid); ("secret", JStr secret); ("token", JStr code)].

Definition login_body (uid code : string) : json :=
  JObj [("userId", JStr uid); ("token", JStr code)].

Definition disable_body (uid : string) : json := JObj [("userId", JStr uid)].

(** Bob completes an enrollment with a wrong code, with the right code, and
    with a secret on which the check raises. *)
Definition enroll_wrong_code : request :=
  post_as bob (enroll_body bob "JBSWY3DPEHPK3PXP" "000000").

Definition enroll_right_code : request :=
  post_as bob (enroll_body bob "JBSWY3DPEHPK3PXP" "123456").

Definition enroll_malformed : request :=
  post_as bob (enroll_body bob malformed "123456").

(** Ann's id and a right code, from nobody in particular, and from someone
    signed in as Bob who also presents a bearer token. *)
Definition login_anonymous : request :=
  post_anonymous (login_body ann "123456").

Definition login_as_someone_else : request :=
  {| req_query := ∅;
     req_payload := Parsed (login_body ann "123456");
     req_cookies := {[ "sb-session" := bob ]};
     req_headers := {[ "authorization" := "Bearer of-someone-else" ]} |}.

(** Ann disables 2FA. *)
Definition disable_ann : request := post_as ann (disable_body ann).

(** A token that no record matches, and Ann's fresh token with her id and a
    colon put in front. *)
Definition unknown_token : string := "0dd0".

(** Backends in which one call fails. *)
Definition lookup_fails : env :=
  faulty (only_at VerifyLogin.SELECT_PREFERENCES (Fails "connection refused")).

Definition insert_raises : env :=
  faulty (only_at VerifyLogin.INSERT_DEVICE Rejects).

Definition delete_fails : env :=
  faulty
    (only_at TwoFaDisable.DELETE_DEVICES
       (Fails "permission denied for table trusted_devices")).

Definition update_column_missing : env :=
  faulty
    (only_at TwoFaDisable.UPDATE_PREFERENCES
       (Fails "column profiles.preferences does not exist")).

Definition touch_fails : env :=
  faulty
    (only_at Refresh.UPDATE_LAST_SEEN
       (Fails "permission denied for table trusted_devices")).


End Sample.

(* ===================================================================== *)
(** ** Further backend calls *)
(* ===================================================================== *)

(** The double quote, for texts that hold one. *)
Definition dquote : string := String (ascii_of_nat 34) EmptyString.

(** The columns a profile update sets ([updates] in the profile route). *)
Record profile_updates := {
  set_full_name : option string;
  set_username : option string;
  set_avatar_path : option string;
}.

(** [Object.keys(updates).length === 0] *)
Definition no_updates (u : profile_updates) : bool :=
  match set_full_name u, set_username u, set_avatar_path u with
  | None, None, None => true
  | _, _, _ => false
  end.

(** The column [new] sets, or the old value. *)
Definition updated (new old : option string) : option string :=
  match new with
  | Some v => Some v
  | None => old
  end.

Definition with_updates (u : profile_updates) (row : profile_row) : profile_row :=
  {| full_name := updated (set_full_name u) (full_name row);
     username := updated (set_username u) (username row);
     avatar_path := updated (set_avatar_path u) (avatar_path row);
     preferences := preferences row |}.

(** The row holds the username [name]. *)
Definition holds_name (name : string) (entry : string * profile_row) : bool :=
  match username (snd entry) with
  | Some n => String.eqb n name
  | None => false
  end.

(** The row is another profile than [except] and holds the username. *)
Definition holds_username (name except : string) (entry : string * profile_row)
  : bool :=
  negb (String.eqb (fst entry) except) && holds_name name entry.

(** [.from('profiles').select('id').eq('username', name).limit(1)
    .maybeSingle()]: the id of some profile with that username. *)
Definition select_holder (name : string) (st : store) : store * result string :=
  (st,
   {| data := fst <$> List.find (holds_name name) (map_to_list (profiles st));
      error := None |}).

(** [.from('profiles').select('id').eq('username', name).neq('id', except)
    .limit(1).maybeSingle()] *)
Definition select_other_holder (name except : string) (st : store)
  : store * result string :=
  (st,
   {| data := fst <$> List.find (holds_username name except)
                        (map_to_list (profiles st));
      error := None |}).

(** What the unique index on [profiles (username)]
    ([2025-11-12-add-username-to-profiles.sql]) answers to a username that
    another row holds. *)
Definition unique_violation : string :=
  "duplicate key value violates unique constraint " +:+ dquote
  +:+ "idx_profiles_username" +:+ dquote.

(** [.from('profiles').update(updates).eq('id', id).select(...)
    .maybeSingle()] *)
Definition update_profile (id : string) (u : profile_updates) (st : store)
  : store * result profile_row :=
  match profiles st !! id with
  | None => (st, {| data := None; error := None |})
  | Some row =>
      let clash :=
        match set_username u with
        | Some name =>
            List.existsb (holds_username name id) (map_to_list (profiles st))
        | None => false
        end in
      if clash then (st, {| data := None; error := Some unique_violation |})
      else
        ({| profiles := <[id := with_updates u row]> (profiles st);
            trusted_devices := trusted_devices st |},
         {| data := Some (with_updates u row); error := None |})
  end.

(** [.from('trusted_devices').delete().eq('id', id).eq('user_id', uid)] *)
Definition delete_device (id uid : string) (st : store) : store * result unit :=
  ({| profiles := profiles st;
      trusted_devices :=
        List.filter
          (fun d => negb (String.eqb (d_id d) id && owned_by uid d))
          (trusted_devices st) |},
   {| data := None; error := None |}).

(* ===================================================================== *)
(** ** Profile: the profile route, [POST] *)
(* ===================================================================== *)

Module ProfileUpdate.

(** Backend call sites, in source order. *)
Definition SELECT_USERNAME : nat := 0.
Definition UPDATE_PROFILE : nat := 1.

Definition MAX_PATH : nat := 1000.

(** [typeof v === 'string'] *)
Definition as_string (v : json) : option string :=
  match v with
  | JStr s => Some s
  | _ => None
  end.

(** [{ error: { code, message } }] *)
Definition coded_error (st : Z) (code message : string) : response :=
  json_response st
    (JObj [("error", JObj [("code", JStr code); ("message", JStr message)])]).

Definition path_too_long : response :=
  coded_error 400 "AVATAR_PATH_TOO_LONG"
    "avatar_path must be <= 1000 characters".

Definition invalid_path : response :=
  coded_error 400 "INVALID_AVATAR_PATH"
    ("avatar_path must start with " +:+ dquote +:+ "avatars/" +:+ dquote).

Definition username_taken : response :=
  coded_error 409 "USERNAME_TAKEN" "That username is already taken".

(** [s.replace(/^\//, '')] *)
Definition drop_leading_slash (s : string) : string :=
  match s with
  | String c s' => if Ascii.eqb c "/" then s' else s
  | EmptyString => s
  end.

(** The text begins with a line terminator, which [.] does not match: LF,
    CR, or U+2028 / U+2029 in their UTF-8 bytes. *)
Definition line_terminator_first (s : string) : bool :=
  match s with
  | String c s' =>
      let n := nat_of_ascii c in
      (n =? 10)%nat || (n =? 13)%nat
      || ((n =? 226)%nat
          && match s' with
             | String c1 (String c2 _) =>
                 (nat_of_ascii c1 =? 128)%nat
                 && ((nat_of_ascii c2 =? 168)%nat
                     || (nat_of_ascii c2 =? 169)%nat)
             | _ => false
             end)
  | EmptyString => false
  end.

(** What follows the first [n] characters. *)
Fixpoint drop_chars (n : nat) (s : string) : string :=
  match n, s with
  | O, _ => s
  | S n', String _ s' => drop_chars n' s'
  | S _, EmptyString => EmptyString
  end.

(** [/^avatars\/.+/.test(s)] *)
Definition avatar_pattern (s : string) : bool :=
  startsWith s "avatars/"
  && match drop_chars 8 s with
     | EmptyString => false
     | String c rest => negb (line_terminator_first (String c rest))
     end.

(** The answer to a successful update, with the avatar URL computed as in
    [GET]. *)
Definition answer (e : env) (row : option profile_row) : response :=
  let path := from_option avatar_path None row in
  json_response 200
    (JObj
       [("profile",
         JObj
           [("full_name", str_or_null (from_option full_name None row));
            ("username", str_or_null (from_option username None row));
            ("avatar", Profile.avatar_url e path);
            ("avatar_path", str_or_null path)])]).

(** The update itself, once [updates] is built. *)
Definition write (e : env) (st : store) (userId : json) (u : profile_updates)
  : store * response :=
  if no_updates u then
    (st, json_response 400 (error_body "no updatable fields provided"))
  else if negb (service_role_key e) then (st, isoError_default)
  else
    match
      query (db_fault e UPDATE_PROFILE) st (update_profile (to_String userId) u)
    with
    | Thrown => (st, isoError_default)
    | Returned (st', res) =>
        match error res with
        | Some m => (st', isoError m)
        | None => (st', answer e (data res))
        end
    end.

(** [typeof username === 'string' && username.trim()] *)
Definition checked_username (u : profile_updates) : option string :=
  match set_username u with
  | Some name => if String.eqb (trim name) "" then None else Some name
  | None => None
  end.

(** The uniqueness check of the username, then [write]. *)
Definition check_username (e : env) (st : store) (userId : json)
    (u : profile_updates) : store * response :=
  match checked_username u with
  | Some name =>
      if negb (service_role_key e) then (st, isoError_default)
      else
        match
          query (db_fault e SELECT_USERNAME) st
            (select_other_holder name (to_String userId))
        with
        | Thrown => (st, isoError_default)
        | Returned (st', existing) =>
            match error existing with
            | Some m => (st', isoError m)
            | None =>
                match data existing with
                | Some _ => (st', username_taken)
                | None => write e st' userId u
                end
            end
        end
  | None => write e st userId u
  end.

(** [updates], or the answer that refuses the avatar path. *)
Definition updates_of (body : json) : response + profile_updates :=
  let full_name := prop "full_name" (or_empty body) in
  let username := prop "username" (or_empty body) in
  let avatar_path := prop "avatar_path" (or_empty body) in
  match as_string avatar_path with
  | Some p =>
      if (MAX_PATH <? String.length p)%nat then inl path_too_long
      else
        let trimmed := drop_leading_slash (trim p) in
        if negb (avatar_pattern trimmed) then inl invalid_path
        else
          inr {| set_full_name := as_string full_name;
                 set_username := as_string username;
                 set_avatar_path := Some trimmed |}
  | None =>
      inr {| set_full_name := as_string full_name;
             set_username := as_string username;
             set_avatar_path := None |}
  end.

Definition POST (e : env) (st : store) (req : request) : store * response :=
  match req_json req with
  | Thrown => (st, isoError_default)
  | Returned body =>
      let userId := prop "userId" (or_empty body) in
      if negb (truthy userId) then
        (st, json_response 400 (error_body "missing userId"))
      else
        match verifyUserFromRequest e req userId with
        | Refused status reason =>
            (st, json_response status (error_body reason))
        | Verified _ _ =>
            match updates_of body with
            | inl refusal => (st, refusal)
            | inr u => check_username e st userId u
            end
        end
  end.

End ProfileUpdate.

(* ===================================================================== *)
(** ** Settings: [settings/route.ts], [POST] *)
(* ===================================================================== *)

Module SettingsUpdate.

Definition UPDATE_PREFERENCES : nat := 0.

(** [typeof v === 'object' && v !== null] *)
Definition is_object (v : json) : bool :=
  match v with
  | JObj _ | JArr _ => true
  | _ => false
  end.

Definition not_persisted (prefs : json) : response :=
  json_response 200
    (JObj
       [("preferences", prefs);
        ("warning",
         JStr "preferences column missing; changes not persisted to DB")]).

Definition POST (e : env) (st : store) (req : request) : store * response :=
  match parseJsonOrEmpty req with
  | Thrown => (st, json_response 400 (error_body "Invalid JSON body"))
  | Returned body =>
      let userId := prop "userId" (or_empty body) in
      let prefs := prop "preferences" (or_empty body) in
      if negb (truthy userId) then
        (st, json_response 400 (error_body "missing userId"))
      else
        match verifyUserFromRequest e req userId with
        | Refused status reason =>
            (st, json_response status (error_body reason))
        | Verified _ _ =>
            if negb (is_object prefs) then
              (st, json_response 400 (error_body "invalid preferences"))
            else if negb (service_role_key e) then (st, isoError_default)
            else
              match
                query (db_fault e UPDATE_PREFERENCES) st
                  (update_preferences (to_String userId) prefs)
              with
              | Thrown => (st, isoError_default)
              | Returned (st', res) =>
                  match error res with
                  | Some m =>
                      if preferences_column_missing m then
                        (st', not_persisted prefs)
                      else (st', isoError m)
                  | None =>
                      let stored :=
                        match data res with
                        | Some row => preferences row
                        | None => JNull
                        end in
                      (st',
                       json_response 200
                         (JObj
                            [("preferences",
                              if truthy stored then stored else JNull)]))
                  end
              end
        end
  end.

End SettingsUpdate.

(* ===================================================================== *)
(** ** Trusted devices: the revoke route, [POST] *)
(* ===================================================================== *)

Module TrustedDevices.

(** Backend call sites, in source order; a request reaches one of them. *)
Definition DELETE_DEVICE : nat := 0.
Definition DELETE_DEVICES : nat := 1.

Definition success : response :=
  json_response 200 (JObj [("success", JBool true)]).

Definition table_missing : response :=
  json_response 200
    (JObj [("success", JBool true);
           ("warning", JStr "trusted_devices table missing")]).

(** What both branches make of the result of their delete. *)
Definition answer (r : outcome (store * result unit)) (st : store)
  : store * response :=
  match r with
  | Thrown => (st, isoError_default)
  | Returned (st', res) =>
      match error res with
      | Some m =>
          if relation_missing m then (st', table_missing)
          else (st', isoError m)
      | None => (st', success)
      end
  end.

Definition POST (e : env) (st : store) (req : request) : store * response :=
  match parseJsonOrEmpty req with
  | Thrown => (st, json_response 400 (error_body "Invalid JSON body"))
  | Returned body =>
      let userId := prop "userId" (or_empty body) in
      let id := prop "id" (or_empty body) in
      if negb (truthy userId) then
        (st, json_response 400 (error_body "missing userId"))
      else
        match verifyUserFromRequest e req userId with
        | Refused status reason =>
            (st, json_response status (error_body reason))
        | Verified _ _ =>
            if negb (service_role_key e) then (st, isoError_default)
            else if truthy id then
              answer
                (query (db_fault e DELETE_DEVICE) st
                   (delete_device (to_String id) (to_String userId)))
                st
            else
              answer
                (query (db_fault e DELETE_DEVICES) st
                   (delete_devices (to_String userId)))
                st
        end
  end.

End TrustedDevices.

(* ===================================================================== *)
(** ** Username availability: the check-username route, [GET] *)
(* ===================================================================== *)

Module UsernameCheck.

Definition SELECT_USERNAME : nat := 0.

(** [{ available }] *)
Definition available (st : Z) (b : bool) : response :=
  json_response st (JObj [("available", JBool b)]).

Definition GET (e : env) (st : store) (req : request) : response :=
  match nonempty (req_query req !! "username") with
  | None => available 200 false
  | Some username =>
      if negb (service_role_key e) then available 500 false
      else
        match query (db_fault e SELECT_USERNAME) st (select_holder username) with
        | Thrown => available 500 false
        | Returned (_, res) =>
            match error res with
            | Some _ => available 500 false
            | None =>
                available 200
                  match data res with
                  | Some _ => false
                  | None => true
                  end
            end
        end
  end.

End UsernameCheck.

(* ===================================================================== *)
(** ** Sanitizer: [utils/sanitizer] and its use in the forum routes *)
(* ===================================================================== *)

Module Sanitizer.

(** [s.replace(/c/g, replacement)] for a one-character pattern. *)
Fixpoint replace_all (c : ascii) (replacement : string) (s : string) : string :=
  match s with
  | EmptyString => EmptyString
  | String a s' =>
      if Ascii.eqb a c then replacement +:+ replace_all c replacement s'
      else String a (replace_all c replacement s')
  end.

Definition single_quote : ascii := ascii_of_nat 39.
Definition double_quote : ascii := ascii_of_nat 34.

(** The chain of [replace] calls of [sanitizeText]. *)
Definition escape (s : string) : string :=
  replace_all single_quote "&#39;"
    (replace_all double_quote "&quot;"
       (replace_all ">" "&gt;"
          (replace_all "<" "&lt;" (replace_all "&" "&amp;" s)))).

(** [sanitizeText]; [None] is [null] or [undefined]. *)
Definition sanitizeText (input : option string) : string :=
  match nonempty input with
  | None => ""
  | Some s => escape (trim s)
  end.

(** [s.slice(0, max)] for an integer [max]; a negative one counts from the
    end of the text. *)
Definition slice_to (max : Z) (s : string) : string :=
  if (max <? 0)%Z then slice0 (String.length s - Z.to_nat (- max)) s
  else slice0 (Z.to_nat max) s.

(** [truncate] *)
Definition truncate (input : option string) (max : Z) : string :=
  match nonempty input with
  | None => ""
  | Some s =>
      if (Z.of_nat (String.length s) >? max)%Z then slice_to max s else s
  end.

(** The characters of a text. *)
Fixpoint chars (s : string) : list ascii :=
  match s with
  | EmptyString => []
  | String a s' => a :: chars s'
  end.

(** The characters that open or close a tag or an attribute value. *)
Definition markup : list ascii := ["<"; ">"; double_quote; single_quote]%char.

(** What the chain of replacements makes of one character, and of a text
    character by character. *)
Definition entity (a : ascii) : string :=
  if Ascii.eqb a "&" then "&amp;"
  else if Ascii.eqb a "<" then "&lt;"
  else if Ascii.eqb a ">" then "&gt;"
  else if Ascii.eqb a double_quote then "&quot;"
  else if Ascii.eqb a single_quote then "&#39;"
  else String a EmptyString.

Fixpoint entities (s : string) : string :=
  match s with
  | EmptyString => EmptyString
  | String a s' => entity a +:+ entities s'
  end.

End Sanitizer.

Module Forum.

(** [String(v || '')] for the values a JSON body holds. *)
Definition text_of (v : json) : string :=
  if truthy v then to_String v else "".

(** A field that is absent, [null], or a string in ASCII: the values on
    which [text_of] is [String(v || '')] of JavaScript with nothing left to
    the conversion of numbers, arrays and objects. *)
Definition text_field (v : json) : bool :=
  match v with
  | JUndefined | JNull => true
  | JStr s => ascii_text s
  | _ => false
  end.

(** Reading a property of [null] raises. *)
Definition has_properties (body : json) : bool :=
  match body with
  | JNull | JUndefined => false
  | _ => true
  end.

(** The title and content a new thread is stored with ([POST] of the
    threads route, between [req.json()] and the insert); [None] is the 400
    'Title required'. *)
Definition thread_fields (body : json) : outcome (option (string * string)) :=
  if negb (has_properties body) then Thrown
  else
    let title := trim (text_of (prop "title" body)) in
    let content := trim (text_of (prop "content" body)) in
    if String.eqb title "" then Returned None
    else
      let title :=
        if (300 <? String.length title)%nat then slice0 300 title
        else title in
      let content := Sanitizer.truncate (Some content) 20000 in
      Returned
        (Some (Sanitizer.sanitizeText (Some title),
               Sanitizer.sanitizeText (Some content))).

(** The content a reply is stored with ([POST] of the posts route). *)
Definition post_content (body : json) : outcome string :=
  if negb (has_properties body) then Thrown
  else
    let content := trim (text_of (prop "content" body)) in
    Returned
      (Sanitizer.sanitizeText (Some (Sanitizer.truncate (Some content) 20000))).

End Forum.

(* ===================================================================== *)
(** ** The login form: [login-form.tsx], [onSubmit] *)
(* ===================================================================== *)

Module LoginForm.

(** What a [fetch] resolves to, or the message of the error it rejects
    with. *)
Inductive fetched : Type :=
  | Answered (r : response)
  | Failed (message : string).

(** What [login(email, password)] resolves to, or the message of the error
    it rejects with ([None]: what was thrown is not an [Error]). *)
Inductive signed : Type :=
  | SignedIn (res : json)
  | Rejected (message : option string).

(** Where [onSubmit] leaves the visitor. *)
Inductive screen : Type :=
  | Stay (error : string)
  | Challenge (userId : string)
  | Dashboard (warning : option string).

(** [res.ok] *)
Definition ok (r : response) : bool :=
  ((200 <=? status r) && (status r <=? 299))%Z.

(** The throttle step: the message it raises, if any. *)
Definition throttle_error (rr : fetched) : option string :=
  match rr with
  | Failed m => Some m
  | Answered r =>
      if ok r then None
      else
        let err := prop "error" (body r) in
        Some (if truthy err then to_String err else "Too many login attempts")
  end.

(** [totp && !trustedDevice] on the answer of the profile route; anything
    that raises leaves the default flow. *)
Definition wants_challenge (profileRes : fetched) : bool :=
  match profileRes with
  | Failed _ => false
  | Answered r =>
      ok r
      && truthy (prop "totp" (prop "profile" (body r)))
      && negb (truthy (prop "trustedDevice" (prop "profile" (body r))))
  end.

(** [onSubmit], from the throttle call on.  [recaptchaWarning] is what the
    optional reCAPTCHA step left; [throttle] is the answer to
    [fetch('/api/auth/login-attempt')]; [login] what the sign-in gives;
    [profile userId token] the answer to the profile request. *)
Definition onSubmit (recaptchaWarning : option string) (throttle : fetched)
    (login : signed) (profile : json -> json -> fetched) : screen :=
  match throttle_error throttle with
  | Some m => Stay m
  | None =>
      match login with
      | Rejected m => Stay (default "Invalid email or password" m)
      | SignedIn res =>
          let userId := prop "id" (prop "user" res) in
          let token := prop "access_token" (prop "session" res) in
          if truthy userId && truthy token
             && wants_challenge (profile userId token)
          then Challenge (to_String userId)
          else Dashboard (nonempty recaptchaWarning)
      end
  end.

(** The requests the form sends from a browser with the cookies [jar]
    behind the forwarding headers [via]. *)
Definition attempt_request (jar via : gmap string string) (email : string)
  : request :=
  {| req_query := ∅;
     req_payload := Parsed (JObj [("email", JStr email)]);
     req_cookies := jar;
     req_headers := <["content-type" := "application/json"]> via |}.

Definition profile_request (jar : gmap string string) (userId token : json)
  : request :=
  {| req_query := {[ "userId" := to_String userId ]};
     req_payload := NoBody;
     req_cookies := jar;
     req_headers := {[ "authorization" := "Bearer " +:+ to_String token ]} |}.

(** The form against the two routes it calls: the throttle with its
    counters [lim] and clock readings [clk], the profile route with the
    backend [e] and the tables [st]. *)
Definition submit (e : env) (st : store) (clk : nat -> Z)
    (lim : LoginAttempt.limiter) (jar via : gmap string string)
    (recaptchaWarning : option string) (email : string) (login : signed)
  : LoginAttempt.limiter * screen :=
  let '(lim', rr) :=
    LoginAttempt.POST clk lim (attempt_request jar via email) in
  (lim',
   onSubmit recaptchaWarning (Answered rr) login
     (fun userId token =>
        Answered (Profile.GET e st (profile_request jar userId token)))).

End LoginForm.

(* ===================================================================== *)
(** ** Avatar upload: the avatar-sharp route, [POST] *)
(* ===================================================================== *)

Module AvatarUpload.

Definition UPDATE_AVATAR_PATH : nat := 0.

(** A field of the multipart form: a text, or a file with its name, its
    type and its size in bytes. *)
Inductive field : Type :=
  | Text (s : string)
  | File (name type : string) (size : Z).

(** What the route consults besides the backend: the bucket setting
    ([process.env.SUPABASE_AVATAR_BUCKET ?? 'avatars']), the [k]-th
    [Date.now()], whether [sharp] manages to process the image, and what the
    storage upload answers (the message of its error, if any). *)
Record settings := {
  AVATAR_BUCKET : string;
  date_now : nat -> Z;
  sharp_succeeds : bool;
  upload : outcome (option string);
}.

Definition MAX_BYTES : Z := 5 * 1024 * 1024.

Definition ALLOWED_MIMES : list string :=
  ["image/png"; "image/jpeg"; "image/webp"; "image/gif"; "image/svg+xml"].

(** The keys of [extToMime], and the keys that every object literal
    inherits and that [toLowerCase] can produce: reading either kind gives
    something truthy. *)
Definition own_extensions : list string :=
  ["png"; "jpg"; "jpeg"; "webp"; "gif"; "svg"].

Definition inherited_keys : list string := ["constructor"; "__proto__"].

Definition member (s : string) (l : list string) : bool :=
  List.existsb (String.eqb s) l.

(** [s.split('.').pop()] *)
Fixpoint last_segment (s : string) : string :=
  match s with
  | EmptyString => EmptyString
  | String c s' =>
      if includes s' "." then last_segment s'
      else if Ascii.eqb c "." then s'
      else s
  end.

(** [extToMime[ext] ?? null] is truthy. *)
Definition inferred (ext : string) : bool :=
  member ext own_extensions || member ext inherited_keys.

Definition internal_error : response :=
  ProfileUpdate.coded_error 500 "INTERNAL_ERROR" "Internal server error".

Definition missing_file : response :=
  ProfileUpdate.coded_error 400 "MISSING_FILE"
    ("No file was attached under the " +:+ dquote +:+ "file" +:+ dquote
     +:+ " field.").

Definition empty_file : response :=
  ProfileUpdate.coded_error 400 "EMPTY_FILE"
    "The uploaded file appears to be empty.".

Definition file_too_large : response :=
  ProfileUpdate.coded_error 413 "FILE_TOO_LARGE"
    "File is too large. Maximum allowed size is 5 MB.".

Definition unsupported_type : response :=
  ProfileUpdate.coded_error 415 "UNSUPPORTED_FILE_TYPE"
    "Unsupported or missing file type. Please upload a PNG, JPG, WEBP, GIF or SVG image.".

Definition processing_failed : response :=
  ProfileUpdate.coded_error 500 "PROCESSING_FAILED" "Image processing failed".

Definition upload_failed (message : string) : response :=
  ProfileUpdate.coded_error 500 "UPLOAD_FAILED"
    ("Upload failed: " +:+ or_else (Some message) "unknown error").

(** [(form.get('filename') as string) || file.name || fallback]; a file sent
    under [filename] is no text, and the method called on it next raises. *)
Definition filename_of (form : gmap string field) (name fallback : string)
  : outcome string :=
  match form !! "filename" with
  | Some (File _ _ _) => Thrown
  | Some (Text s) =>
      Returned (or_else (Some s) (or_else (Some name) fallback))
  | None => Returned (or_else (Some name) fallback)
  end.

(** The checks on the file, in source order: what refuses it, or its name. *)
Definition validate (form : gmap string field) : outcome (response + string) :=
  match form !! "file" with
  | None => Returned (inl missing_file)
  | Some (Text s) =>
      if String.eqb s "" then Returned (inl missing_file)
      else Returned (inl empty_file)
  | Some (File name type size) =>
      if (size =? 0)%Z then Returned (inl empty_file)
      else if (size >? MAX_BYTES)%Z then Returned (inl file_too_large)
      else if String.eqb type "" || negb (member type ALLOWED_MIMES) then
        match filename_of form name "" with
        | Thrown => Thrown
        | Returned filenameRaw =>
            if inferred (toLowerCase (last_segment filenameRaw))
            then Returned (inr name)
            else Returned (inl unsupported_type)
        end
      else Returned (inr name)
  end.

(** [[a-zA-Z0-9._-]] *)
Definition safe_char (c : ascii) : bool :=
  let n := nat_of_ascii c in
  ((97 <=? n)%nat && (n <=? 122)%nat)
  || ((65 <=? n)%nat && (n <=? 90)%nat)
  || ((48 <=? n)%nat && (n <=? 57)%nat)
  || Ascii.eqb c "." || Ascii.eqb c "_" || Ascii.eqb c "-".

(** [s.replace(/[^a-zA-Z0-9._-]/g, '_')] *)
Fixpoint underscore (s : string) : string :=
  match s with
  | EmptyString => EmptyString
  | String c s' => String (if safe_char c then c else "_"%char) (underscore s')
  end.

(** [s.replace(/\.[^.]+$/, '')]: the last dot and what follows it go, unless
    nothing follows it. *)
Fixpoint strip_extension (s : string) : string :=
  match s with
  | EmptyString => EmptyString
  | String c s' =>
      if Ascii.eqb c "." && negb (includes s' ".") && negb (String.eqb s' "")
      then EmptyString
      else String c (strip_extension s')
  end.

(** The storage path of the processed image. *)
Definition path_of (u : settings) (uid filenameRaw : string) (stamp : Z)
  : string :=
  AVATAR_BUCKET u +:+ "/" +:+ uid +:+ "/" +:+ pretty stamp +:+ "-"
  +:+ strip_extension (underscore filenameRaw) +:+ ".webp".

(** The name the path is made from, and the reading of the clock that goes
    into the path: the fallback name takes a reading of its own. *)
Definition named (u : settings) (form : gmap string field) (name : string)
  : outcome (string * Z) :=
  match form !! "filename" with
  | Some (File _ _ _) => Thrown
  | Some (Text s) =>
      if negb (String.eqb s "") then Returned (s, date_now u 0)
      else if negb (String.eqb name "") then Returned (name, date_now u 0)
      else Returned (pretty (date_now u 0) +:+ ".webp", date_now u 1)
  | None =>
      if negb (String.eqb name "") then Returned (name, date_now u 0)
      else Returned (pretty (date_now u 0) +:+ ".webp", date_now u 1)
  end.

(** [{ publicUrl, path }] *)
Definition uploaded (e : env) (path : string) : response :=
  json_response 200
    (JObj [("publicUrl", Profile.avatar_url e (Some path));
           ("path", JStr path)]).

(** The write of the path to the profile: its errors are logged and
    otherwise ignored. *)
Definition persist (e : env) (st : store) (uid path : string) : store :=
  match
    query (db_fault e UPDATE_AVATAR_PATH) st
      (update_profile uid
         {| set_full_name := None; set_username := None;
            set_avatar_path := Some path |})
  with
  | Thrown => st
  | Returned (st', _) => st'
  end.

Definition POST (e : env) (u : settings) (st : store)
    (cookies : gmap string string) (form : outcome (gmap string field))
  : store * response :=
  match session_user e cookies with
  | Thrown => (st, internal_error)
  | Returned None =>
      (st, json_response 401 (error_body "unauthenticated"))
  | Returned (Some uid) =>
      match form with
      | Thrown => (st, internal_error)
      | Returned fields =>
          match validate fields with
          | Thrown => (st, internal_error)
          | Returned (inl refusal) => (st, refusal)
          | Returned (inr name) =>
              if negb (sharp_succeeds u) then (st, processing_failed)
              else if negb (service_role_key e) then (st, internal_error)
              else
                match named u fields name with
                | Thrown => (st, internal_error)
                | Returned (filenameRaw, stamp) =>
                    let path := path_of u uid filenameRaw stamp in
                    match upload u with
                    | Thrown => (st, internal_error)
                    | Returned (Some m) => (st, upload_failed m)
                    | Returned None =>
                        (persist e st uid path, uploaded e path)
                    end
                end
          end
      end
  end.

(** The body of the request by which the dashboard then asks the profile
    route to store the path ([uploadProcessedAvatar]). *)
Definition follow_up (uid : string) (answer : response) : json :=
  JObj [("userId", JStr uid); ("avatar_path", prop "path" (body answer))].

End AvatarUpload.

(* ===================================================================== *)
(** ** Further observations *)
(* ===================================================================== *)

(** The bearer token of the [Authorization] header, as
    [verifyUserFromRequest] reads it. *)
Definition bearer_of (req : request) : option string :=
  match nonempty (req_headers req !! "authorization") with
  | Some h =>
      if startsWith h "Bearer " then Some (default "" (split_second " " h))
      else None
  | None => None
  end.

(** The routes that write to the tables on behalf of the user named in the
    body. *)
Definition writers : list (env -> store -> request -> store * response) :=
  [TwoFaVerify.POST; TwoFaDisable.POST; ProfileUpdate.POST;
   SettingsUpdate.POST; TrustedDevices.POST].

(** The tables [st'] differ from [st] at most in the name, username and
    avatar columns of the profile [uid]: no row appears or disappears, no
    preferences change, the device ledger is the same. *)
Definition profile_columns_only (uid : string) (st st' : store) : Prop :=
  trusted_devices st' = trusted_devices st
  ∧ (forall k, k <> uid -> profiles st' !! k = profiles st !! k)
  ∧ (forall k, preferences <$> profiles st' !! k
               = preferences <$> profiles st !! k).

(** A record with its [last_seen] column left out. *)
Definition but_last_seen (d : device) : device := seen_at "" d.

(** No profile holds the username [name]. *)
Definition free_username (name : string) (st : store) : Prop :=
  forall uid row, profiles st !! uid = Some row -> username row <> Some name.

(** Another profile than [uid] holds the username [name]. *)
Definition held_by_another (name uid : string) (st : store) : Prop :=
  ∃ other row, other <> uid ∧ profiles st !! other = Some row
               ∧ username row = Some name.

(* ===================================================================== *)
(** ** Further sample data *)
(* ===================================================================== *)

Module Cases.
Import Sample.

(** Bob saves his settings. *)
Definition bob_settings : json :=
  JObj [("theme", JStr "dark"); ("language", JStr "fr")].

Definition save_settings : request :=
  post_as bob (JObj [("userId", JStr bob); ("preferences", bob_settings)]).

(** A profile update that sets the username only. *)
Definition rename (uid name : string) : request :=
  post_as uid (JObj [("userId", JStr uid); ("username", JStr name)]).

(** Bob asks for Ann's username. *)
Definition bob_takes_ann : request := rename bob "ann".

(** The tables when Ann's username is two spaces, and Bob asking for the
    same. *)
Definition blank : string := "  ".

Definition db_blank : store :=
  {| profiles :=
       {[ ann := {| full_name := Some "Ann"; username := Some blank;
                    avatar_path := None;
                    preferences := preferences ann_row |};
          bob := bob_row ]};
     trusted_devices := [] |}.

Definition bob_takes_blank : request := rename bob blank.

(** Bob sets his name and an avatar path with a leading slash and white
    space around it. *)
Definition bob_avatar : request :=
  post_as bob
    (JObj [("userId", JStr bob); ("full_name", JStr "Robert");
           ("avatar_path", JStr " /avatars/bob.png ")]).

Definition bob_after_avatar : profile_row :=
  {| full_name := Some "Robert"; username := None;
     avatar_path := Some "avatars/bob.png";
     preferences := preferences bob_row |}.

(** Ann saves settings that hold a theme and nothing else. *)
Definition ann_saves_theme : request :=
  post_as ann
    (JObj [("userId", JStr ann);
           ("preferences", JObj [("theme", JStr "light")])]).


Definition ann_revokes_all : request :=
  post_as ann (JObj [("userId", JStr ann)]).

(** Is the username [carol] free?  Is [ann]? *)
Definition ask_username (name : string) : request :=
  {| req_query := {[ "username" := name ]}; req_payload := NoBody;
     req_cookies := ∅; req_headers := ∅ |}.

(** An hour of attempts from one origin, none of them naming an account:
    the first at 0, then 200 more within the second that follows. *)
Definition opening : LoginAttempt.call :=
  Traffic.at_ms 0 (Traffic.attempt Traffic.office None).

Definition flood : list LoginAttempt.call :=
  repeat (Traffic.at_ms 500 (Traffic.attempt Traffic.office None)) 200.

(** The account counter at its limit in the window that began at 0, an
    attempt 2.5 s into that window, and one 900 s into it. *)
Definition at_limit : LoginAttempt.limiter :=
  {| LoginAttempt.emailAttempts :=
       {[ Traffic.account :=
            {| LoginAttempt.count := 5; LoginAttempt.windowStart := 0 |} ]};
     LoginAttempt.ipAttempts := ∅ |}.

Definition too_early : LoginAttempt.call :=
  Traffic.at_ms 2500 (Traffic.attempt Traffic.office (Some Traffic.account)).

Definition on_time : LoginAttempt.call :=
  Traffic.at_ms 900500
    (Traffic.attempt Traffic.office (Some Traffic.account)).

(** Two hundred calls from the office within the second that began at 0,
    three of them for one account, and a call for that account that arrives
    when its window of 15 minutes has just ended. *)
Definition full_hour : list LoginAttempt.call :=
  repeat
    (Traffic.at_ms 0 (Traffic.attempt Traffic.office (Some Traffic.account)))
    3
  ++ repeat (Traffic.at_ms 0 (Traffic.attempt Traffic.office None)) 197.

Definition at_boundary : LoginAttempt.call :=
  Traffic.at_ms 900000
    (Traffic.attempt Traffic.office (Some Traffic.account)).

(** A backend in working order that also knows Ann's access token. *)
Definition ann_token : string := "ann-access-token".

Definition with_tokens : env :=
  {| production := production healthy;
     service_role_key := service_role_key healthy;
     session_user := session_user healthy;
     bearer_user := fun t =>
       Returned (if String.eqb t ann_token then Some ann else None);
     totp_check := totp_check healthy;
     crypto_module := crypto_module healthy;
     sha256_hex := sha256_hex healthy;
     random_hex := random_hex healthy;
     now_iso := now_iso healthy;
     new_uuid := new_uuid healthy;
     db_fault := db_fault healthy;
     avatar_public := avatar_public healthy;
     public_url := public_url healthy;
     signed_url := signed_url healthy |}.

(** The same backend when the profile lookup fails. *)
Definition profile_lookup_fails : env :=
  {| production := production healthy;
     service_role_key := service_role_key healthy;
     session_user := session_user healthy;
     bearer_user := bearer_user with_tokens;
     totp_check := totp_check healthy;
     crypto_module := crypto_module healthy;
     sha256_hex := sha256_hex healthy;
     random_hex := random_hex healthy;
     now_iso := now_iso healthy;
     new_uuid := new_uuid healthy;
     db_fault := only_at Profile.SELECT_PROFILE (Fails "connection refused");
     avatar_public := avatar_public healthy;
     public_url := public_url healthy;
     signed_url := signed_url healthy |}.

(** What the sign-in gives for Ann. *)
Definition ann_signed_in : json :=
  JObj [("user", JObj [("id", JStr ann)]);
        ("session", JObj [("access_token", JStr ann_token)])].

(** The forwarding headers of the office, and a browser without cookies. *)
Definition from_office : gmap string string :=
  {[ "x-forwarded-for" := Traffic.office ]}.

Definition no_cookies : gmap string string := ∅.

(** A browser that holds the trust cookie with the fresh token. *)
Definition trusted_browser : gmap string string :=
  {[ "trusted_device" := fresh_token ]}.

(** Any clock will do for one attempt. *)
Definition noon : nat -> Z := fun _ => 43200000%Z.

(** Someone without session or token refreshes the device whose token is
    [a1b2]. *)
Definition refresh_a1b2 : request :=
  {| req_query := ∅; req_payload := NoBody;
     req_cookies := {[ "trusted_device" := "a1b2" ]}; req_headers := ∅ |}.

(** Bob, who has no 2FA, asks to disable it. *)
Definition disable_bob : request := post_as bob (disable_body bob).

(** An upload of Bob's: a PNG of 1 kB under its own name, the image
    processor and the storage in working order. *)
Definition picture : gmap string AvatarUpload.field :=
  {[ "file" := AvatarUpload.File "my face.png" "image/png" 1024;
     "filename" := AvatarUpload.Text "my face.png" ]}.

Definition working : AvatarUpload.settings :=
  {| AvatarUpload.AVATAR_BUCKET := "avatars";
     AvatarUpload.date_now := fun _ => 1762938000000%Z;
     AvatarUpload.sharp_succeeds := true;
     AvatarUpload.upload := Returned None |}.

Definition bob_session : gmap string string := {[ "sb-session" := bob ]}.

(** A file of no declared type whose name ends in [.constructor]. *)
Definition odd_upload : gmap string AvatarUpload.field :=
  {[ "file" := AvatarUpload.File "notes.constructor" "" 1024 ]}.

(** The body of a new thread. *)
Definition new_thread : json :=
  JObj [("title", JStr "  Tips & tricks ");
        ("content", JStr "<b>hello</b>")].

(** The character that ends an entity. *)
Definition semicolon : ascii := ";".

End Cases.


(* ===================================================================== *)
(** ** The login throttle *)
(* ===================================================================== *)

Section Throttle.
Import LoginAttempt Traffic.
Local Open Scope Z_scope.

Lemma ceil_div_antimono (x y : Z) :
  x <= y -> ceil_div x 1000 <= ceil_div y 1000.
Proof.
  intros H. unfold ceil_div.
  assert ((- y) / 1000 <= (- x) / 1000) by (apply Z.div_le_mono; lia). lia.
Qed.

Lemma ceil_div_pos (x : Z) : 0 < x -> 0 < ceil_div x 1000.
Proof.
  intros H. unfold ceil_div.
  assert ((- x) / 1000 < 0) by (apply Z.div_lt_upper_bound; lia). lia.
Qed.

Lemma account_retry_antimono ws n1 n2 :
  n1 <= n2 -> account_retry ws n2 <= account_retry ws n1.
Proof.
  intros H. unfold account_retry.
  destruct (Z.geb_spec (n2 - ws) EMAIL_WINDOW_MS),
    (Z.geb_spec (n1 - ws) EMAIL_WINDOW_MS); try lia.
  - assert (0 < ceil_div (EMAIL_WINDOW_MS - (n1 - ws)) 1000)
      by (apply ceil_div_pos; lia).
    lia.
  - apply ceil_div_antimono. lia.
Qed.

Lemma incrMap_within map key windowMs n k ws :
  map !! key = Some {| count := k; windowStart := ws |} ->
  n < ws + windowMs ->
  incrMap map key windowMs n
  = (<[key := {| count := k + 1; windowStart := ws |}]> map,
     {| count := k + 1; windowStart := ws |}).
Proof.
  intros Hk Hn. unfold incrMap. rewrite Hk. cbn [windowStart count].
  destruct (Z.leb_spec (ws + windowMs) n); [lia|done].
Qed.

Lemma incrMap_fresh map key windowMs n :
  (forall en, map !! key = Some en -> windowStart en + windowMs <= n) ->
  incrMap map key windowMs n
  = (<[key := {| count := 1; windowStart := n |}]> map,
     {| count := 1; windowStart := n |}).
Proof.
  intros Hk. unfold incrMap. destruct (map !! key) as [en|]; [|done].
  specialize (Hk en eq_refl).
  destruct (Z.leb_spec (windowStart en + windowMs) n); [done|lia].
Qed.

(** A request is served as its keys are. *)
Lemma POST_keys (st : limiter) (c : call) :
  POST_call st c = throttle_call st (keys_of c).
Proof. reflexivity. Qed.

Lemma made_for_spec e c :
  made_for e c = true -> nonempty (account_key c) = Some e.
Proof.
  unfold made_for. destruct (nonempty _) as [e'|]; [|done].
  intros H. apply String.eqb_eq in H. by subst.
Qed.

Lemma carries_spec e c :
  carries e c = true -> nonempty (email_of (snd c)) = Some e.
Proof. apply (made_for_spec e (keys_of c)). Qed.

(** A call that is not made for [e], or that the per-origin counter stops,
    leaves the counter of [e] alone. *)
Lemma throttle_frame e st c :
  made_for e c = false ∨ origin_denied (snd (throttle_call st c)) = true ->
  emailAttempts (fst (throttle_call st c)) !! e = emailAttempts st !! e.
Proof.
  unfold throttle_call, throttle.
  destruct (incrMap (ipAttempts st) _ _ _) as [ipMap ipEntry].
  destruct (count ipEntry >? IP_MAX); [done|].
  unfold made_for.
  destruct (nonempty (account_key c)) as [e'|] eqn:He; [|done].
  destruct (incrMap (emailAttempts st) e' _ _) as [emMap emEntry] eqn:Hi.
  intros [Hc|Hd].
  - apply String.eqb_neq in Hc.
    assert (emMap !! e = emailAttempts st !! e) as Hm.
    { unfold incrMap in Hi.
      destruct (emailAttempts st !! e') as [ex|];
        [destruct (_ <=? _)|]; inversion Hi; subst; by rewrite lookup_insert_ne. }
    by destruct (count emEntry >? EMAIL_MAX).
  - destruct (count emEntry >? EMAIL_MAX); cbn in Hd; discriminate.
Qed.

(** A call made for [e] that gets past the per-origin check, served inside
    the window of [e]'s counter, is counted there; it is refused as soon as
    the count exceeds the limit. *)
Lemma throttle_counted e st c k ws :
  made_for e c = true ->
  origin_denied (snd (throttle_call st c)) = false ->
  emailAttempts st !! e = Some {| count := k; windowStart := ws |} ->
  fst c 1%nat < ws + EMAIL_WINDOW_MS ->
  emailAttempts (fst (throttle_call st c)) !! e
    = Some {| count := k + 1; windowStart := ws |}
  ∧ (EMAIL_MAX <= k ->
     snd (throttle_call st c) = email_denied (account_retry ws (fst c 2%nat))).
Proof.
  intros Hc Hd He Ht. apply made_for_spec in Hc.
  revert Hd. unfold throttle_call, throttle.
  destruct (incrMap (ipAttempts st) _ _ _) as [ipMap ipEntry].
  destruct (count ipEntry >? IP_MAX); [cbn; discriminate|].
  rewrite Hc. rewrite (incrMap_within _ _ _ _ _ _ He Ht). cbn [windowStart count].
  destruct (Z.gtb_spec (k + 1) EMAIL_MAX) as [Hgt|Hle]; cbn [fst snd emailAttempts].
  - intros _. rewrite lookup_insert_eq. split; [done|]. intros _.
    unfold getRemaining. rewrite lookup_insert_eq. cbn [windowStart count].
    unfold account_retry. by destruct (_ >=? _).
  - intros _. rewrite lookup_insert_eq. split; [done|]. lia.
Qed.

Lemma POST_counted e st c k ws :
  carries e c = true ->
  origin_denied (snd (POST_call st c)) = false ->
  emailAttempts st !! e = Some {| count := k; windowStart := ws |} ->
  fst c 1%nat < ws + EMAIL_WINDOW_MS ->
  emailAttempts (fst (POST_call st c)) !! e
    = Some {| count := k + 1; windowStart := ws |}
  ∧ (EMAIL_MAX <= k ->
     snd (POST_call st c) = email_denied (account_retry ws (fst c 2%nat))).
Proof. apply (throttle_counted e st (keys_of c)). Qed.

(** The first counted call of a window leaves an entry. *)
Lemma throttle_opens e st c :
  well_formed st ->
  made_for e c = true ->
  origin_denied (snd (throttle_call st c)) = false ->
  ∃ en, emailAttempts (fst (throttle_call st c)) !! e = Some en ∧ 1 <= count en.
Proof.
  intros Hwf Hc Hd. apply made_for_spec in Hc.
  revert Hd. unfold throttle_call, throttle.
  destruct (incrMap (ipAttempts st) _ _ _) as [ipMap ipEntry].
  destruct (count ipEntry >? IP_MAX); [cbn; discriminate|].
  rewrite Hc. intros _.
  assert (∃ en,
            fst (incrMap (emailAttempts st) e EMAIL_WINDOW_MS (fst c 1%nat))
              !! e = Some en
            ∧ 1 <= count en) as (en & H1 & H2).
  { unfold incrMap. destruct (emailAttempts st !! e) as [ex|] eqn:Hex.
    - destruct (_ <=? _); cbn; rewrite lookup_insert_eq; eexists;
        (split; [done|]); cbn; try lia.
      apply Hwf in Hex. lia.
    - cbn. rewrite lookup_insert_eq. eexists; split; [done|]. cbn. lia. }
  destruct (incrMap (emailAttempts st) e _ _) as [emMap emEntry].
  exists en. by destruct (count emEntry >? EMAIL_MAX).
Qed.

Lemma throttle_origin_denied_shape st c :
  origin_denied (snd (throttle_call st c)) = true ->
  ∃ ra, snd (throttle_call st c) = ip_denied ra.
Proof.
  unfold throttle_call, throttle.
  destruct (incrMap (ipAttempts st) _ _ _) as [ipMap ipEntry].
  destruct (count ipEntry >? IP_MAX); [by eexists|].
  destruct (nonempty _); [|cbn; discriminate].
  destruct (incrMap (emailAttempts st) _ _ _) as [emMap emEntry].
  destruct (count emEntry >? EMAIL_MAX); cbn; discriminate.
Qed.

Lemma POST_origin_denied_shape st c :
  origin_denied (snd (POST_call st c)) = true ->
  ∃ ra, snd (POST_call st c) = ip_denied ra.
Proof. apply (throttle_origin_denied_shape st (keys_of c)). Qed.

(** The handler reads the email and the origin of a request, nothing else. *)
Lemma POST_reads (clk : nat -> Z) (st : limiter) (req req' : request) :
  email_of req' = email_of req -> ip_of req' = ip_of req ->
  POST clk st req' = POST clk st req.
Proof. intros He Hip. unfold POST. by rewrite He, Hip. Qed.

(** Every counter the handler writes holds at least one attempt. *)
Lemma throttle_well_formed (st : limiter) (c : key_call) :
  well_formed st -> well_formed (fst (throttle_call st c)).
Proof.
  intros Hwf. unfold throttle_call, throttle.
  destruct (incrMap (ipAttempts st) _ _ _) as [ipMap ipEntry].
  destruct (count ipEntry >? IP_MAX); [done|].
  destruct (nonempty (account_key c)) as [e|]; [|done].
  assert (well_formed
            {| emailAttempts :=
                 fst (incrMap (emailAttempts st) e EMAIL_WINDOW_MS
                        (fst c 1%nat));
               ipAttempts := ipMap |}) as Hnew.
  { intros k en. cbn [emailAttempts]. unfold incrMap.
    destruct (emailAttempts st !! e) as [ex|] eqn:Hex;
      [destruct (_ <=? _)|]; cbn [fst];
      (destruct (decide (k = e)) as [->|Hk];
       [rewrite lookup_insert_eq; intros [= <-]; cbn;
        try (apply Hwf in Hex); lia
       |rewrite lookup_insert_ne by done; apply Hwf]). }
  destruct (incrMap (emailAttempts st) e _ _) as [emMap emEntry].
  by destruct (count emEntry >? EMAIL_MAX).
Qed.

Lemma throttle_all_well_formed (cs : list key_call) :
  forall st, well_formed st -> well_formed (throttle_all st cs).
Proof.
  induction cs as [|c cs IH]; intros st Hwf; [done|].
  cbn. by apply IH, throttle_well_formed.
Qed.

Lemma empty_well_formed : well_formed empty_limiter.
Proof. intros k en H. cbn in H. by rewrite lookup_empty in H. Qed.

(** Traces of requests are traces of their keys. *)
Lemma serve_keys (cs : list call) :
  forall st, serve st cs = throttle_all st (List.map keys_of cs).
Proof. induction cs as [|c cs IH]; intros st; [done|]. cbn. apply IH. Qed.

Lemma serve_log_keys (cs : list call) :
  forall st,
  List.map (fun cr : call * response => (keys_of (fst cr), snd cr))
    (serve_log st cs)
  = throttle_log st (List.map keys_of cs).
Proof.
  induction cs as [|c cs IH]; intros st; [done|].
  cbn [serve_log List.map throttle_log fst snd]. f_equal. apply IH.
Qed.

Lemma account_trace_cons e st c cs :
  account_trace e st (c :: cs)
  = if made_for e c
    then (c, snd (throttle_call st c))
         :: account_trace e (fst (throttle_call st c)) cs
    else account_trace e (fst (throttle_call st c)) cs.
Proof. unfold account_trace. cbn. by destruct (made_for e c). Qed.

Lemma counted_cons cr log :
  counted (cr :: log)
  = ((if origin_denied (snd cr) then 0 else 1) + counted log)%nat.
Proof. unfold counted. cbn. by destruct (origin_denied _). Qed.

Lemma counted_take_mono (log : list (key_call * response)) (i j : nat) :
  (i <= j)%nat -> (counted (take i log) <= counted (take j log))%nat.
Proof.
  revert i j. induction log as [|cr log IH]; intros i j Hij.
  - by rewrite !take_nil.
  - destruct i as [|i]; [cbn; unfold counted at 1; cbn; lia|].
    destruct j as [|j]; [lia|]. cbn [take]. rewrite !counted_cons.
    specialize (IH i j). lia.
Qed.

(** Inside one window of [e]'s counter that already holds [k] attempts:
    once [k] plus the calls counted since reaches the limit, every further
    call made for [e] is refused, by the per-origin counter or by the
    account counter with the time left in that window. *)
Lemma trace_denials e ws cs :
  forall st k,
  emailAttempts st !! e = Some {| count := k; windowStart := ws |} ->
  (forall c, c ∈ cs -> made_for e c = true ->
             fst c 1%nat < ws + EMAIL_WINDOW_MS) ->
  forall (i : nat) c r,
  account_trace e st cs !! i = Some (c, r) ->
  EMAIL_MAX <= k + Z.of_nat (counted (take i (account_trace e st cs))) ->
  (origin_denied r = true ∧ ∃ ra, r = ip_denied ra)
  ∨ (origin_denied r = false
     ∧ r = email_denied (account_retry ws (fst c 2%nat))).
Proof.
  induction cs as [|c0 cs IH]; intros st k Hen Hwin i c r Hi Hk.
  - unfold account_trace in Hi. cbn in Hi. by rewrite lookup_nil in Hi.
  - rewrite account_trace_cons in Hi, Hk.
    assert (forall c, c ∈ cs -> made_for e c = true ->
                      fst c 1%nat < ws + EMAIL_WINDOW_MS) as Hwin'
      by (intros c' Hc'; apply Hwin; apply elem_of_cons; by right).
    destruct (made_for e c0) eqn:Hc0.
    + destruct (origin_denied (snd (throttle_call st c0))) eqn:Hd.
      * (* stopped by the per-origin counter: not counted *)
        pose proof (throttle_frame e st c0 (or_intror Hd)) as Hfr.
        rewrite Hen in Hfr.
        destruct i as [|i].
        -- cbn in Hi. inversion Hi; subst. left. split; [done|].
           by apply throttle_origin_denied_shape.
        -- cbn [take] in Hk. rewrite counted_cons in Hk. cbn [snd] in Hk.
           rewrite Hd in Hk. cbn in Hi.
           eapply (IH _ k Hfr Hwin' i); [done|lia].
      * (* counted *)
        assert (fst c0 1%nat < ws + EMAIL_WINDOW_MS) as Ht
          by (apply Hwin; [apply elem_of_cons; by left|done]).
        destruct (throttle_counted e st c0 k ws Hc0 Hd Hen Ht) as [Hnew Hresp].
        destruct i as [|i].
        -- cbn in Hi. inversion Hi; subst. right. split; [done|].
           apply Hresp. cbn in Hk. unfold counted in Hk. cbn in Hk. lia.
        -- cbn [take] in Hk. rewrite counted_cons in Hk. cbn [snd] in Hk.
           rewrite Hd in Hk. cbn in Hi.
           eapply (IH _ (k + 1) Hnew Hwin' i); [done|lia].
    + pose proof (throttle_frame e st c0 (or_introl Hc0)) as Hfr.
      rewrite Hen in Hfr.
      eapply (IH _ k Hfr Hwin' i); done.
Qed.

(** C3, amended.  Calls are taken from line 51 on: the account key of a call
    is the email as line 45 left it, its origin key the address line 49
    left.  After any history of calls, let a call made for the account key
    [e] get past the per-origin check, and let [en] be the entry of [e]
    after it (the window it opened or joined).  Among the later calls made
    for [e] that are served before that window ends, every one that comes
    after four more counted calls (so the sixth call of the window, and each
    later one) is answered 429 with a retryAfter.  Of two such calls refused
    by the account counter, the later one, whose clock reading is not
    earlier, reports a retryAfter that is smaller or equal.  The handler is
    run on the two keys and nothing else of the request ([POST_keys],
    [POST_reads]): no credential enters. *)
Theorem sixth_attempt_denied (history : list key_call) (c1 : key_call)
    (cs : list key_call) (e : string) (en : Entry) :
  let st := throttle_all empty_limiter history in
  made_for e c1 = true ->
  origin_denied (snd (throttle_call st c1)) = false ->
  emailAttempts (fst (throttle_call st c1)) !! e = Some en ->
  (forall c, c ∈ cs -> made_for e c = true ->
             fst c 1%nat < windowStart en + EMAIL_WINDOW_MS) ->
  let log := account_trace e (fst (throttle_call st c1)) cs in
  (forall (i : nat) c r,
     log !! i = Some (c, r) ->
     (4 <= counted (take i log))%nat ->
     status r = 429 ∧ is_Some (retry_of r))
  ∧ (forall (i j : nat) ci ri cj rj,
       (i <= j)%nat ->
       log !! i = Some (ci, ri) ->
       log !! j = Some (cj, rj) ->
       (4 <= counted (take i log))%nat ->
       origin_denied ri = false ->
       origin_denied rj = false ->
       fst ci 2%nat <= fst cj 2%nat ->
       ∃ rai raj, retry_of ri = Some rai ∧ retry_of rj = Some raj
                  ∧ raj <= rai).
Proof.
  intros st Hc1 Hd1 Hen Hwin log.
  assert (well_formed st) as Hwf
    by apply throttle_all_well_formed, empty_well_formed.
  destruct (throttle_opens e st c1 Hwf Hc1 Hd1) as (en' & Hen' & Hcount).
  rewrite Hen in Hen'. inversion Hen'; subst en'. clear Hen'.
  destruct en as [k ws]. cbn [count windowStart] in *.
  assert (forall (i : nat) c r,
            log !! i = Some (c, r) -> (4 <= counted (take i log))%nat ->
            (origin_denied r = true ∧ ∃ ra, r = ip_denied ra)
            ∨ (origin_denied r = false
               ∧ r = email_denied (account_retry ws (fst c 2%nat)))) as Hlog.
  { intros i c r Hi Hh.
    apply (trace_denials e ws cs _ k Hen Hwin i c r Hi).
    unfold EMAIL_MAX. fold log. lia. }
  split.
  - intros i c r Hi Hh.
    destruct (Hlog i c r Hi Hh) as [[_ [ra ->]]|[_ ->]]; cbn; eauto.
  - intros i j ci ri cj rj Hij Hi Hj Hh Hdi Hdj Hclk.
    assert (4 <= counted (take j log))%nat as Hh'
      by (pose proof (counted_take_mono log i j Hij); lia).
    destruct (Hlog i ci ri Hi Hh) as [[Hx _]|[_ ->]]; [congruence|].
    destruct (Hlog j cj rj Hj Hh') as [[Hx _]|[_ ->]]; [congruence|].
    eexists _, _. cbn. split; [done|]. split; [done|].
    by apply account_retry_antimono.
Qed.

(** What the origin counter decides is read off the answer, and the origin
    counter is run on every call. *)
Lemma origin_denied_spec clk st email ip :
  origin_denied (snd (throttle clk st email ip))
  = (count (snd (incrMap (ipAttempts st) ip IP_WINDOW_MS (clk 0%nat)))
     >? IP_MAX).
Proof.
  unfold throttle.
  destruct (incrMap (ipAttempts st) _ _ _) as [ipMap ipEntry]. cbn [snd].
  destruct (count ipEntry >? IP_MAX); [done|].
  destruct (nonempty email) as [e|]; [|done].
  destruct (incrMap (emailAttempts st) e _ _) as [emMap emEntry].
  by destruct (count emEntry >? EMAIL_MAX).
Qed.

Lemma throttle_origin_counter clk st email ip :
  ipAttempts (fst (throttle clk st email ip))
  = fst (incrMap (ipAttempts st) ip IP_WINDOW_MS (clk 0%nat)).
Proof.
  unfold throttle.
  destruct (incrMap (ipAttempts st) _ _ _) as [ipMap ipEntry]. cbn [fst].
  destruct (count ipEntry >? IP_MAX); [done|].
  destruct (nonempty email) as [e|]; [|done].
  destruct (incrMap (emailAttempts st) e _ _) as [emMap emEntry].
  by destruct (count emEntry >? EMAIL_MAX).
Qed.

(** The account counter of a call that the origin counter lets through. *)
Lemma throttle_account_counter clk st email ip key :
  nonempty email = Some key ->
  origin_denied (snd (throttle clk st email ip)) = false ->
  emailAttempts (fst (throttle clk st email ip))
  = fst (incrMap (emailAttempts st) key EMAIL_WINDOW_MS (clk 1%nat))
  ∧ (count (snd (incrMap (emailAttempts st) key EMAIL_WINDOW_MS (clk 1%nat)))
     <= EMAIL_MAX ->
     status (snd (throttle clk st email ip)) = 200).
Proof.
  intros He. unfold throttle.
  destruct (incrMap (ipAttempts st) _ _ _) as [ipMap ipEntry].
  destruct (count ipEntry >? IP_MAX); [cbn; discriminate|].
  rewrite He. intros _.
  destruct (incrMap (emailAttempts st) key _ _) as [emMap emEntry].
  cbn [fst snd].
  destruct (Z.gtb_spec (count emEntry) EMAIL_MAX); cbn; split; try done; lia.
Qed.

(** C9, amended.  For every counter key with an entry: when
    [now - windowStart >= windowMs] (equality included) [incrMap] stores and
    returns a fresh entry with count 1 and [windowStart = now], a count that
    neither limit refuses; strictly before that instant it increments the
    count and keeps the window.  In the handler the origin counter is run on
    every call: a call at or after the boundary of its origin's window gets
    past the per-origin check as attempt 1 of a new window, an earlier one
    is added to the window.  The account counter is run only on the calls
    that the origin counter lets through: such a call at or after the
    boundary of its account's window is admitted as attempt 1 of a new
    window, an earlier one is added to the window; a call that the origin
    counter refuses is answered 429 and leaves the account counter as it
    was, whatever the time. *)
Theorem window_resets_at_boundary :
  (forall (map : gmap string Entry) (key : string) (windowMs n : Z)
          (existing : Entry),
     map !! key = Some existing ->
     (n - windowStart existing >= windowMs ->
        incrMap map key windowMs n
        = (<[key := {| count := 1; windowStart := n |}]> map,
           {| count := 1; windowStart := n |})
        ∧ (1 >? EMAIL_MAX) = false ∧ (1 >? IP_MAX) = false)
     ∧ (n - windowStart existing < windowMs ->
        incrMap map key windowMs n
        = (<[key := {| count := count existing + 1;
                       windowStart := windowStart existing |}]> map,
           {| count := count existing + 1;
              windowStart := windowStart existing |})))
  ∧ (forall (clk : nat -> Z) (st : limiter) (email : option string)
            (ip : string) (existing : Entry),
       ipAttempts st !! ip = Some existing ->
       (clk 0%nat - windowStart existing >= IP_WINDOW_MS ->
          ipAttempts (fst (throttle clk st email ip)) !! ip
          = Some {| count := 1; windowStart := clk 0%nat |}
          ∧ origin_denied (snd (throttle clk st email ip)) = false)
       ∧ (clk 0%nat - windowStart existing < IP_WINDOW_MS ->
          ipAttempts (fst (throttle clk st email ip)) !! ip
          = Some {| count := count existing + 1;
                    windowStart := windowStart existing |}))
  ∧ (forall (clk : nat -> Z) (st : limiter) (email : option string)
            (ip key : string) (existing : Entry),
       nonempty email = Some key ->
       emailAttempts st !! key = Some existing ->
       (origin_denied (snd (throttle clk st email ip)) = true ->
          status (snd (throttle clk st email ip)) = 429
          ∧ emailAttempts (fst (throttle clk st email ip)) !! key
            = Some existing)
       ∧ (origin_denied (snd (throttle clk st email ip)) = false ->
          (clk 1%nat - windowStart existing >= EMAIL_WINDOW_MS ->
             emailAttempts (fst (throttle clk st email ip)) !! key
             = Some {| count := 1; windowStart := clk 1%nat |}
             ∧ status (snd (throttle clk st email ip)) = 200)
          ∧ (clk 1%nat - windowStart existing < EMAIL_WINDOW_MS ->
             emailAttempts (fst (throttle clk st email ip)) !! key
             = Some {| count := count existing + 1;
                       windowStart := windowStart existing |}))).
Proof.
  assert (forall (map : gmap string Entry) key windowMs n existing,
            map !! key = Some existing ->
            (n - windowStart existing >= windowMs ->
             incrMap map key windowMs n
             = (<[key := {| count := 1; windowStart := n |}]> map,
                {| count := 1; windowStart := n |}))
            ∧ (n - windowStart existing < windowMs ->
               incrMap map key windowMs n
               = (<[key := {| count := count existing + 1;
                              windowStart := windowStart existing |}]> map,
                  {| count := count existing + 1;
                     windowStart := windowStart existing |}))) as Hincr.
  { intros map key windowMs n existing Hk. split.
    - intros Hn. apply incrMap_fresh. intros en Hen. rewrite Hk in Hen.
      inversion Hen; subst. lia.
    - intros Hn. destruct existing as [k ws]. cbn [count windowStart] in *.
      apply incrMap_within; [done|lia]. }
  split; [|split].
  - intros map key windowMs n existing Hk.
    destruct (Hincr map key windowMs n existing Hk) as [Hreset Hadd].
    split; [|exact Hadd]. intros Hn. split; [by apply Hreset|done].
  - intros clk st email ip existing Hk.
    destruct (Hincr _ _ IP_WINDOW_MS (clk 0%nat) _ Hk) as [Hreset Hadd].
    split.
    + intros Hn. rewrite origin_denied_spec, throttle_origin_counter.
      rewrite (Hreset Hn). cbn [fst snd count].
      by rewrite lookup_insert_eq.
    + intros Hn. rewrite throttle_origin_counter, (Hadd Hn). cbn [fst].
      by rewrite lookup_insert_eq.
  - intros clk st email ip key existing He Hk. split.
    + intros Hd. split.
      * change (throttle clk st email ip) with (throttle_call st (clk, (email, ip)))
          in Hd |- *.
        apply throttle_origin_denied_shape in Hd as [ra ->]. done.
      * change (throttle clk st email ip) with (throttle_call st (clk, (email, ip))).
        rewrite <- Hk. apply throttle_frame. by right.
    + intros Hd.
      destruct (throttle_account_counter clk st email ip key He Hd) as [Hmap Hok].
      destruct (Hincr _ _ EMAIL_WINDOW_MS (clk 1%nat) _ Hk) as [Hreset Hadd].
      split.
      * intros Hn. rewrite (Hreset Hn) in Hmap, Hok. cbn [fst snd count] in *.
        rewrite Hmap, lookup_insert_eq. split; [done|].
        apply Hok. unfold EMAIL_MAX. lia.
      * intros Hn. rewrite (Hadd Hn) in Hmap. cbn [fst] in Hmap.
        by rewrite Hmap, lookup_insert_eq.
Qed.

Lemma window_resets_at_boundary_witness :
  three_so_far !! account = Some {| count := 3; windowStart := 0 |}
  ∧ incrMap three_so_far account EMAIL_WINDOW_MS 900000
    = (<[account := {| count := 1; windowStart := 900000 |}]> three_so_far,
       {| count := 1; windowStart := 900000 |})
  ∧ incrMap three_so_far account EMAIL_WINDOW_MS 899999
    = (<[account := {| count := 4; windowStart := 0 |}]> three_so_far,
       {| count := 4; windowStart := 0 |})
  ∧ (emailAttempts Cases.at_limit !! account
     = Some {| count := 5; windowStart := 0 |}
     ∧ origin_denied (snd (POST_call Cases.at_limit Cases.on_time)) = false
     ∧ emailAttempts (fst (POST_call Cases.at_limit Cases.on_time)) !! account
       = Some {| count := 1; windowStart := 900500 |}
     ∧ status (snd (POST_call Cases.at_limit Cases.on_time)) = 200).
Proof.
  assert (three_so_far !! account = Some {| count := 3; windowStart := 0 |})
    as Hk by (vm_compute; reflexivity).
  destruct (proj1 window_resets_at_boundary three_so_far account
              EMAIL_WINDOW_MS 900000 _ Hk) as (Hreset & _).
  destruct (proj1 window_resets_at_boundary three_so_far account
              EMAIL_WINDOW_MS 899999 _ Hk) as (_ & Hincr).
  split; [exact Hk|]. split; [|split].
  - apply Hreset. vm_compute. discriminate.
  - apply Hincr. vm_compute. reflexivity.
  - assert (emailAttempts Cases.at_limit !! account
            = Some {| count := 5; windowStart := 0 |}) as Hen
      by (vm_compute; reflexivity).
    assert (origin_denied (snd (POST_call Cases.at_limit Cases.on_time))
            = false) as Hd by (vm_compute; reflexivity).
    destruct (proj2 (proj2 window_resets_at_boundary)
                (fst Cases.on_time) Cases.at_limit
                (email_of (snd Cases.on_time)) (ip_of (snd Cases.on_time))
                account _ eq_refl Hen) as (_ & Hcounted).
    destruct (Hcounted Hd) as (Hnew & _).
    split; [exact Hen|]. split; [exact Hd|].
    apply Hnew. vm_compute. discriminate.
Defined.

(** C9, counterexample.  One origin has made 200 calls within the second
    that began at 0, three of them for one account.  The next call for that
    account from that origin arrives at 900000, when
    [now - windowStart >= windowMs] holds of the account counter: it is
    answered 429 by the origin counter, whose hour has not ended, and the
    account counter is neither reset nor incremented. *)
Lemma boundary_call_not_counted :
  emailAttempts (serve empty_limiter Cases.full_hour) !! account
  = Some {| count := 3; windowStart := 0 |}
  ∧ ipAttempts (serve empty_limiter Cases.full_hour) !! office
    = Some {| count := 200; windowStart := 0 |}
  ∧ carries account Cases.at_boundary = true
  ∧ fst Cases.at_boundary 1%nat - 0 >= EMAIL_WINDOW_MS
  ∧ status (snd (POST_call (serve empty_limiter Cases.full_hour)
                   Cases.at_boundary)) = 429
  ∧ emailAttempts
      (fst (POST_call (serve empty_limiter Cases.full_hour)
              Cases.at_boundary)) !! account
    = Some {| count := 3; windowStart := 0 |}.
Proof. repeat split; vm_compute; (reflexivity || discriminate). Qed.

(** C3, counterexample.  An origin has used 199 of its 200
    attempts of the hour.  Six attempts on one account follow within 1000 ms,
    all inside the account window that the first of them opens: the second
    to fifth are stopped by the per-origin counter and are not counted for
    the account, the origin's hour ends, and the sixth is admitted.  In a
    second run the sixth attempt of an account window is refused by the
    per-origin counter with retryAfter 1 and the seventh by the account
    counter with retryAfter 300. *)
Lemma sixth_attempt_admitted :
  forallb (carries account) six_attempts = true
  ∧ emailAttempts (serve empty_limiter (busy_hour ++ take 1 six_attempts))
      !! account
    = Some {| count := 1; windowStart := 3599000 |}
  ∧ forallb (fun c : call =>
               (3599000 <=? fst c 0%nat)
               && (fst c 0%nat <? 3599000 + EMAIL_WINDOW_MS)) six_attempts
    = true
  ∧ List.map (fun cr : call * response => status (snd cr))
      (account_log account empty_limiter (busy_hour ++ six_attempts))
    = [200; 429; 429; 429; 429; 200]
  ∧ forallb (carries account) seven_attempts = true
  ∧ forallb (fun c : call =>
               (3000000 <=? fst c 0%nat)
               && (fst c 0%nat <? 3000000 + EMAIL_WINDOW_MS)) seven_attempts
    = true
  ∧ List.map (fun cr : call * response => (status (snd cr), retry_of (snd cr)))
      (account_log account empty_limiter (busy_hour' ++ seven_attempts))
    = [(200, None); (200, None); (200, None); (200, None); (200, None);
       (429, Some 1); (429, Some 300)].
Proof. repeat split; vm_compute; reflexivity. Qed.

Lemma sixth_attempt_denied_witness :
  made_for account (keys_of first_attempt) = true
  ∧ origin_denied
      (snd (throttle_call (throttle_all empty_limiter []) (keys_of first_attempt)))
    = false
  ∧ emailAttempts
      (fst (throttle_call (throttle_all empty_limiter []) (keys_of first_attempt)))
      !! account
    = Some {| count := 1; windowStart := 0 |}
  ∧ List.map
      (fun cr : key_call * response => (status (snd cr), retry_of (snd cr)))
      (account_trace account
         (fst (throttle_call (throttle_all empty_limiter [])
                 (keys_of first_attempt)))
         (List.map keys_of later_attempts))
    = [(200, None); (200, None); (200, None); (200, None);
       (429, Some 895); (429, Some 894)]
  ∧ (forall c r,
       account_trace account
         (fst (throttle_call (throttle_all empty_limiter [])
                 (keys_of first_attempt)))
         (List.map keys_of later_attempts) !! 4%nat = Some (c, r) ->
       status r = 429 ∧ is_Some (retry_of r)).
Proof.
  assert (made_for account (keys_of first_attempt) = true) as H2
    by (vm_compute; reflexivity).
  assert (origin_denied
            (snd (throttle_call (throttle_all empty_limiter [])
                    (keys_of first_attempt))) = false)
    as H3 by (vm_compute; reflexivity).
  assert (emailAttempts
            (fst (throttle_call (throttle_all empty_limiter [])
                    (keys_of first_attempt)))
            !! account = Some {| count := 1; windowStart := 0 |}) as H4
    by (vm_compute; reflexivity).
  assert (forall c, c ∈ List.map keys_of later_attempts ->
                    made_for account c = true ->
                    fst c 1%nat
                    < windowStart {| count := 1; windowStart := 0 |}
                      + EMAIL_WINDOW_MS) as H5.
  { intros c Hc _. unfold later_attempts in Hc. cbn [List.map] in Hc.
    repeat (apply elem_of_cons in Hc as [Hc|Hc];
            [subst c; vm_compute; reflexivity|]).
    by apply elem_of_nil in Hc. }
  destruct (sixth_attempt_denied [] (keys_of first_attempt)
              (List.map keys_of later_attempts) account
              {| count := 1; windowStart := 0 |} H2 H3 H4 H5) as [Hdenied _].
  split; [exact H2|]. split; [exact H3|]. split; [exact H4|].
  split; [vm_compute; reflexivity|].
  intros c r Hcr. apply (Hdenied 4%nat c r Hcr).
  vm_compute. lia.
Defined.

End Throttle.

(* ===================================================================== *)
(** ** Enrollment and login-time verification *)
(* ===================================================================== *)

Section Verification.
Local Open Scope Z_scope.

Lemma refused_status e req expected s reason :
  verifyUserFromRequest e req expected = Refused s reason -> 400 <= s.
Proof.
  unfold verifyUserFromRequest.
  repeat (match goal with
          | |- context [match ?x with _ => _ end] => destruct x
          end; try discriminate);
    intros H; inversion H; subst; lia.
Qed.

(** An error response that leaves the tables alone. *)
Lemma refusal_changes_nothing (st : store) (s : Z) (m : string) :
  400 <= s ->
  fst (st, json_response s (error_body m)) = st
  ∧ cookies (snd (st, json_response s (error_body m))) = []
  ∧ is_error (snd (st, json_response s (error_body m))).
Proof. intros Hs. unfold is_error. cbn. eauto. Qed.

(** C5.  An enrollment-completion request whose code does not verify against
    the submitted secret is answered with an error, and nothing is written:
    the tables are as before (no configuration persisted, no trusted device
    inserted) and no cookie is set.  Hence a call that changes the tables or
    sets a cookie is one whose code verified. *)
Theorem failed_verification_changes_nothing (e : env) (st : store)
    (req : request) :
  (totp_ok e (submitted req "token") (submitted req "secret") = false ->
   fst (TwoFaVerify.POST e st req) = st
   ∧ cookies (snd (TwoFaVerify.POST e st req)) = []
   ∧ is_error (snd (TwoFaVerify.POST e st req)))
  ∧ (fst (TwoFaVerify.POST e st req) <> st
     ∨ cookies (snd (TwoFaVerify.POST e st req)) <> [] ->
     totp_ok e (submitted req "token") (submitted req "secret") = true).
Proof.
  assert (totp_ok e (submitted req "token") (submitted req "secret") = false ->
          fst (TwoFaVerify.POST e st req) = st
          ∧ cookies (snd (TwoFaVerify.POST e st req)) = []
          ∧ is_error (snd (TwoFaVerify.POST e st req))) as Hfail.
  { unfold submitted, TwoFaVerify.POST.
    destruct (parseJsonOrEmpty req) as [b|].
    2: { intros _. by apply refusal_changes_nothing. }
    intros Hok.
    destruct (truthy (prop "userId" (or_empty b))); cbn [negb].
    2: { by apply refusal_changes_nothing. }
    destruct (truthy (prop "secret" (or_empty b))); cbn [negb].
    2: { by apply refusal_changes_nothing. }
    destruct (truthy (prop "token" (or_empty b))); cbn [negb].
    2: { by apply refusal_changes_nothing. }
    destruct (verifyUserFromRequest e req _) as [id via|s reason] eqn:Hv.
    - rewrite Hok. by apply refusal_changes_nothing.
    - apply refused_status in Hv. by apply refusal_changes_nothing. }
  split; [exact Hfail|].
  intros Hchanged.
  destruct (totp_ok e _ _) eqn:Hok; [done|].
  destruct (Hfail eq_refl) as (H1 & H2 & _).
  destruct Hchanged; contradiction.
Qed.

Lemma failed_verification_changes_nothing_witness :
  totp_ok Sample.healthy (submitted Sample.enroll_wrong_code "token")
    (submitted Sample.enroll_wrong_code "secret") = false
  ∧ fst (TwoFaVerify.POST Sample.healthy Sample.db_empty
           Sample.enroll_wrong_code) = Sample.db_empty
  ∧ cookies (snd (TwoFaVerify.POST Sample.healthy Sample.db_empty
                    Sample.enroll_wrong_code)) = []
  ∧ is_error (snd (TwoFaVerify.POST Sample.healthy Sample.db_empty
                     Sample.enroll_wrong_code)).
Proof.
  assert (totp_ok Sample.healthy (submitted Sample.enroll_wrong_code "token")
            (submitted Sample.enroll_wrong_code "secret") = false) as H
    by (vm_compute; reflexivity).
  split; [exact H|].
  exact (proj1 (failed_verification_changes_nothing Sample.healthy
                  Sample.db_empty Sample.enroll_wrong_code) H).
Defined.

(** The other side of C5, on a sample: Bob's code verifies, the backend is in
    working order, and the configuration is persisted, a trusted device
    recorded and the cookie set. *)
Example successful_enrollment_persists :
  stored_secret
    (fst (TwoFaVerify.POST Sample.healthy Sample.db_empty
            Sample.enroll_right_code)) Sample.bob
  = JStr "JBSWY3DPEHPK3PXP"
  ∧ List.map d_token_hash
      (devices_of Sample.bob
         (fst (TwoFaVerify.POST Sample.healthy Sample.db_empty
                 Sample.enroll_right_code)))
    = [sha256_hex Sample.healthy Sample.fresh_token]
  ∧ cookies (snd (TwoFaVerify.POST Sample.healthy Sample.db_empty
                    Sample.enroll_right_code))
    = [trust_cookie Sample.healthy Sample.fresh_token ONE_YEAR].
Proof. repeat split; vm_compute; reflexivity. Qed.

Lemma select_profile_answer (st : store) (uid : string) :
  select_profile uid st
  = (st, {| data := profiles st !! uid; error := None |}).
Proof. unfold select_profile. by destruct (profiles st !! uid). Qed.

Lemma read_preferences (st : store) (uid : string) :
  or_empty
    (match profiles st !! uid with
     | Some row => preferences row
     | None => JNull
     end)
  = stored_preferences st uid.
Proof. unfold stored_preferences. by destruct (profiles st !! uid). Qed.

(** C8.  The verification step of both endpoints yields a boolean, and an
    exception of the underlying check yields [false]; an enrollment or
    login-time request that gets as far as the check and makes it raise is
    answered 400 [invalid token], like one whose code is wrong, and nothing
    is written. *)
Theorem check_exception_is_failed_verification :
  (forall e token secret,
     totp_check e (to_String token) (to_String secret) = Thrown ->
     totp_ok e token secret = false)
  ∧ (forall e st req id via,
       truthy (submitted req "userId") = true ->
       truthy (submitted req "secret") = true ->
       truthy (submitted req "token") = true ->
       verifyUserFromRequest e req (submitted req "userId") = Verified id via ->
       totp_check e (to_String (submitted req "token"))
         (to_String (submitted req "secret")) = Thrown ->
       TwoFaVerify.POST e st req
       = (st, json_response 400 (error_body "invalid token")))
  ∧ (forall e st req,
       truthy (submitted req "userId") = true ->
       truthy (submitted req "token") = true ->
       service_role_key e = true ->
       db_fault e VerifyLogin.SELECT_PREFERENCES = None ->
       truthy (stored_secret st (to_String (submitted req "userId"))) = true ->
       totp_check e (to_String (submitted req "token"))
         (to_String (stored_secret st (to_String (submitted req "userId"))))
       = Thrown ->
       VerifyLogin.POST e st req
       = (st, json_response 400 (error_body "invalid token"))).
Proof.
  split; [|split].
  - intros e token secret H. unfold totp_ok. by rewrite H.
  - intros e st req id via. unfold submitted, TwoFaVerify.POST.
    destruct (parseJsonOrEmpty req) as [b|]; [|cbn; discriminate].
    intros -> -> -> -> Hc. cbn [negb].
    unfold totp_ok. by rewrite Hc.
  - intros e st req. unfold submitted, VerifyLogin.POST.
    destruct (parseJsonOrEmpty req) as [b|]; [|cbn; discriminate].
    intros -> -> -> -> Hs Hc. cbn [negb query].
    rewrite select_profile_answer. cbn [error data].
    rewrite read_preferences.
    unfold stored_secret, stored_totp in Hs, Hc.
    assert (truthy (prop "totp"
              (stored_preferences st (to_String (prop "userId" (or_empty b)))))
            = true) as Ht.
    { destruct (prop "totp" _) eqn:E; try done; cbn in Hs; discriminate. }
    rewrite Ht, Hs. cbn [negb orb].
    unfold totp_ok. by rewrite Hc.
Qed.

Lemma check_exception_is_failed_verification_witness :
  totp_check Sample.healthy
    (to_String (submitted Sample.enroll_malformed "token"))
    (to_String (submitted Sample.enroll_malformed "secret")) = Thrown
  ∧ TwoFaVerify.POST Sample.healthy Sample.db_empty Sample.enroll_malformed
    = (Sample.db_empty, json_response 400 (error_body "invalid token")).
Proof.
  split; [vm_compute; reflexivity|].
  apply (proj1 (proj2 check_exception_is_failed_verification)
           Sample.healthy Sample.db_empty Sample.enroll_malformed
           Sample.bob "cookie");
    vm_compute; reflexivity.
Defined.

(** The login-time endpoint looks at the body and the user agent only. *)
Lemma verify_login_reads (e : env) (st : store) (req req' : request) :
  req_payload req' = req_payload req ->
  req_headers req' !! "user-agent" = req_headers req !! "user-agent" ->
  VerifyLogin.POST e st req' = VerifyLogin.POST e st req.
Proof.
  intros Hp Hua. unfold VerifyLogin.POST, VerifyLogin.issue, parseJsonOrEmpty.
  by rewrite Hp, Hua.
Qed.

(** C4, amended.  The login-time endpoint authenticates nobody: its answer
    depends on the body and the user agent of the request and on nothing
    else, whatever cookies and headers the request carries.  Let the body
    name a user and a code.  When the profile lookup returns an enrolled
    secret of that user and the code verifies against it, the answer is a
    success.  Unless creating or persisting the token raises, the trust
    cookie is set to the fresh token, and when the insert succeeds the hash
    of that token is in the ledger.  When creating or persisting the token
    raises (the [crypto] module does not load, the insert raises), the
    answer is the bare success: no cookie is set and the tables are as they
    were.  When the profile lookup itself fails, the answer is a 500 (with
    the message of the failure when there is one), nothing is written and no
    cookie is set. *)
Theorem login_challenge_unauthenticated (e : env) (st : store) (req : request) :
  let userId := submitted req "userId" in
  let token := submitted req "token" in
  let secret := stored_secret st (to_String userId) in
  let out := VerifyLogin.POST e st req in
  truthy userId = true ->
  truthy token = true ->
  service_role_key e = true ->
  (db_fault e VerifyLogin.SELECT_PREFERENCES = None ->
   truthy secret = true ->
   totp_check e (to_String token) (to_String secret) = Returned true ->
   (status (snd out) = 200 ∧ prop "success" (body (snd out)) = JBool true)
   ∧ (crypto_module e = true ->
      db_fault e VerifyLogin.INSERT_DEVICE <> Some Rejects ->
      cookies (snd out) = [trust_cookie e (random_hex e) ONE_YEAR])
   ∧ (crypto_module e = true ->
      db_fault e VerifyLogin.INSERT_DEVICE = None ->
      ∃ d, trusted_devices (fst out) = trusted_devices st ++ [d]
           ∧ d_user_id d = to_String userId
           ∧ d_token_hash d = sha256_hex e (random_hex e))
   ∧ (crypto_module e = false
      ∨ db_fault e VerifyLogin.INSERT_DEVICE = Some Rejects ->
      out = (st, VerifyLogin.success) ∧ cookies (snd out) = []))
  ∧ (db_fault e VerifyLogin.SELECT_PREFERENCES <> None ->
     status (snd out) = 500 ∧ fst out = st ∧ cookies (snd out) = [])
  ∧ (forall m,
       db_fault e VerifyLogin.SELECT_PREFERENCES = Some (Fails m) ->
       snd out = isoError m)
  ∧ (forall req',
       req_payload req' = req_payload req ->
       req_headers req' !! "user-agent" = req_headers req !! "user-agent" ->
       VerifyLogin.POST e st req' = out).
Proof.
  intros userId token secret out Hu Ht Hkey.
  assert (out
          = match
              query (db_fault e VerifyLogin.SELECT_PREFERENCES) st
                (select_profile (to_String userId))
            with
            | Thrown => (st, isoError_default)
            | Returned (st1, profile) =>
                match error profile with
                | Some m => (st1, isoError m)
                | None =>
                    if negb (truthy secret) then
                      (st1, json_response 400 (error_body "totp not configured"))
                    else if negb (totp_ok e token secret) then
                      (st1, json_response 400 (error_body "invalid token"))
                    else VerifyLogin.issue e st1 req userId
                end
            end) as Hout.
  { subst out userId token secret. revert Hu Ht.
    unfold submitted, VerifyLogin.POST.
    destruct (parseJsonOrEmpty req) as [b|]; [|cbn; discriminate].
    intros -> ->. rewrite Hkey. cbn [negb].
    destruct (db_fault e VerifyLogin.SELECT_PREFERENCES) as [[m|]|];
      cbn [query]; [done|done|].
    rewrite select_profile_answer. cbn [error data].
    rewrite read_preferences.
    unfold stored_secret, stored_totp.
    destruct (truthy (prop "totp" (stored_preferences st _))) eqn:Htotp;
      cbn [negb orb]; [done|].
    assert (truthy
              (prop "secret"
                 (prop "totp"
                    (stored_preferences st
                       (to_String (prop "userId" (or_empty b)))))) = false)
      as ->; [|done].
    destruct (prop "totp" _); try done; cbn in Htotp; discriminate. }
  split; [|split; [|split]].
  - intros Hsel Hs Hc.
    assert (out = VerifyLogin.issue e st req userId) as Hissue.
    { rewrite Hout, Hsel. cbn [query]. rewrite select_profile_answer.
      cbn [error]. rewrite Hs. cbn [negb]. unfold totp_ok. by rewrite Hc. }
    rewrite Hissue. unfold VerifyLogin.issue.
    split; [|split; [|split]].
    + destruct (crypto_module e); [|done]. cbn [negb].
      destruct (db_fault e VerifyLogin.INSERT_DEVICE) as [[m|]|]; cbn; try done.
      by destruct (relation_missing m).
    + intros -> Hins. cbn [negb].
      destruct (db_fault e VerifyLogin.INSERT_DEVICE) as [[m|]|]; cbn; try done.
      by destruct (relation_missing m).
    + intros -> ->. cbn. eexists. split; [done|]. by cbn.
    + intros [-> | Hins]; [done|].
      destruct (crypto_module e); [|done]. cbn [negb]. by rewrite Hins.
  - intros Hsel. rewrite Hout.
    destruct (db_fault e VerifyLogin.SELECT_PREFERENCES) as [[m|]|];
      cbn; done.
  - intros m Hsel. by rewrite Hout, Hsel.
  - intros req' Hp Hua. by apply verify_login_reads.
Qed.

Lemma login_challenge_unauthenticated_witness :
  (status (snd (VerifyLogin.POST Sample.healthy Sample.db
                  Sample.login_anonymous)) = 200
   ∧ prop "success"
       (body (snd (VerifyLogin.POST Sample.healthy Sample.db
                     Sample.login_anonymous))) = JBool true)
  ∧ cookies (snd (VerifyLogin.POST Sample.healthy Sample.db
                    Sample.login_anonymous))
    = [trust_cookie Sample.healthy Sample.fresh_token ONE_YEAR]
  ∧ VerifyLogin.POST Sample.healthy Sample.db Sample.login_as_someone_else
    = VerifyLogin.POST Sample.healthy Sample.db Sample.login_anonymous
  ∧ (VerifyLogin.POST Sample.insert_raises Sample.db Sample.login_anonymous
     = (Sample.db, VerifyLogin.success)
     ∧ cookies (snd (VerifyLogin.POST Sample.insert_raises Sample.db
                       Sample.login_anonymous)) = [])
  ∧ (status (snd (VerifyLogin.POST Sample.lookup_fails Sample.db
                    Sample.login_anonymous)) = 500
     ∧ fst (VerifyLogin.POST Sample.lookup_fails Sample.db
              Sample.login_anonymous) = Sample.db
     ∧ cookies (snd (VerifyLogin.POST Sample.lookup_fails Sample.db
                       Sample.login_anonymous)) = []).
Proof.
  destruct (login_challenge_unauthenticated Sample.healthy Sample.db
              Sample.login_anonymous eq_refl eq_refl eq_refl)
    as (Hok & _ & _ & H4).
  destruct Hok as (H1 & H2 & _ & _); try (vm_compute; reflexivity).
  destruct (login_challenge_unauthenticated Sample.insert_raises Sample.db
              Sample.login_anonymous eq_refl eq_refl eq_refl)
    as (Hraise & _).
  destruct Hraise as (_ & _ & _ & H5); try (vm_compute; reflexivity).
  destruct (login_challenge_unauthenticated Sample.lookup_fails Sample.db
              Sample.login_anonymous eq_refl eq_refl eq_refl)
    as (_ & H6 & _).
  split; [exact H1|]. split; [|split; [|split]].
  - apply H2; vm_compute; [reflexivity|discriminate].
  - apply H4; vm_compute; reflexivity.
  - apply H5. right. vm_compute. reflexivity.
  - apply H6. vm_compute. discriminate.
Defined.

(** C4, counterexample.  Ann has an enrolled secret and the code verifies,
    yet no trust cookie is set: on a runtime without the [crypto] module,
    and when the insert raises, the answer is a bare success; when the
    profile lookup fails, it is a 500. *)
Lemma login_challenge_without_cookie :
  truthy (stored_secret Sample.db Sample.ann) = true
  ∧ totp_check Sample.healthy
      (to_String (submitted Sample.login_anonymous "token"))
      (to_String (stored_secret Sample.db Sample.ann)) = Returned true
  ∧ VerifyLogin.POST Sample.no_crypto Sample.db Sample.login_anonymous
    = (Sample.db, VerifyLogin.success)
  ∧ VerifyLogin.POST Sample.insert_raises Sample.db Sample.login_anonymous
    = (Sample.db, VerifyLogin.success)
  ∧ cookies VerifyLogin.success = []
  ∧ VerifyLogin.POST Sample.lookup_fails Sample.db Sample.login_anonymous
    = (Sample.db, isoError "connection refused").
Proof. repeat split; vm_compute; reflexivity. Qed.

End Verification.

(* ===================================================================== *)
(** ** Disabling 2FA *)
(* ===================================================================== *)

Section Disable.
Local Open Scope Z_scope.

Lemma obj_get_delete (k : string) (fs : list (string * json)) :
  obj_get k (obj_delete k fs) = None.
Proof.
  induction fs as [|[k' v] fs IH]; [done|]. cbn.
  destruct (String.eqb k k') eqn:E; [done|]. cbn. by rewrite E.
Qed.

Lemma devices_of_delete (uid : string) (st : store) :
  devices_of uid (fst (delete_devices uid st)) = [].
Proof.
  unfold devices_of, delete_devices. cbn.
  induction (trusted_devices st) as [|d l IH]; [done|]. cbn.
  destruct (owned_by uid d) eqn:E; cbn; [done|]. by rewrite E.
Qed.

(** The last step of the handler: the profiles are not touched, the cookie is
    expired whatever becomes of the delete, and an unfailing delete is
    applied. *)
Lemma revoke_effect (e : env) (st : store) (uid : string) :
  service_role_key e = true ->
  profiles (fst (TwoFaDisable.revoke e st (JStr uid))) = profiles st
  ∧ snd (TwoFaDisable.revoke e st (JStr uid))
    = set_cookie (trust_cookie e "" 0) TwoFaDisable.success
  ∧ (db_fault e TwoFaDisable.DELETE_DEVICES = None ->
     fst (TwoFaDisable.revoke e st (JStr uid)) = fst (delete_devices uid st)).
Proof.
  intros Hkey. unfold TwoFaDisable.revoke. rewrite Hkey. cbn [negb to_String].
  destruct (db_fault e TwoFaDisable.DELETE_DEVICES) as [[m|]|]; cbn [query].
  - cbn [error]. destruct (relation_missing m); cbn; repeat split; intros; done.
  - cbn. repeat split; intros; done.
  - cbn. repeat split; intros; done.
Qed.

(** C6, amended.  Let a user have 2FA enabled and any number of trusted
    devices.  A call to the disable endpoint that is answered with the plain
    [{ success: true }] has removed the [totp] entry from the stored
    configuration and expires the client's trust cookie; when the delete on
    the ledger did not fail, the user is left with no trusted-device
    record.  When the lookup or the update of the profile reports the
    preferences column missing, the endpoint answers success with a warning
    and changes nothing: the tables are as before and no cookie is set. *)
Theorem disable_revokes_all_devices (e : env) (st : store) (req : request)
    (b : json) (uid : string) :
  let out := TwoFaDisable.POST e st req in
  req_payload req = Parsed b ->
  prop "userId" (or_empty b) = JStr uid ->
  truthy (stored_totp st uid) = true ->
  (body (snd out) = JObj [("success", JBool true)] ->
   (stored_totp (fst out) uid = JUndefined
    ∧ prop "enabled" (stored_totp (fst out) uid) <> JBool true
    ∧ cookies (snd out) = [trust_cookie e "" 0])
   ∧ (db_fault e TwoFaDisable.DELETE_DEVICES = None ->
      devices_of uid (fst out) = []))
  ∧ (forall id via m,
       uid <> "" ->
       verifyUserFromRequest e req (JStr uid) = Verified id via ->
       service_role_key e = true ->
       db_fault e TwoFaDisable.SELECT_PREFERENCES = Some (Fails m)
       ∨ (db_fault e TwoFaDisable.SELECT_PREFERENCES = None
          ∧ db_fault e TwoFaDisable.UPDATE_PREFERENCES = Some (Fails m)) ->
       preferences_column_missing m = true ->
       fst out = st
       ∧ status (snd out) = 200
       ∧ prop "success" (body (snd out)) = JBool true
       ∧ (∃ w, prop "warning" (body (snd out)) = JStr w)
       ∧ cookies (snd out) = []).
Proof.
  intros out Hp Hu Htotp. split.
  - subst out.
    unfold TwoFaDisable.POST, req_json. rewrite Hp, Hu.
    destruct (truthy (JStr uid)); cbn [negb]; [|cbn; discriminate].
    destruct (verifyUserFromRequest e req (JStr uid)); [|cbn; discriminate].
    destruct (service_role_key e) eqn:Hkey; cbn [negb]; [|cbn; discriminate].
    destruct (db_fault e TwoFaDisable.SELECT_PREFERENCES) as [[m|]|];
      cbn [query]; [| cbn; discriminate |].
    { cbn [error]. destruct (preferences_column_missing m); cbn; discriminate. }
    rewrite select_profile_answer. cbn [error data to_String].
    rewrite read_preferences. fold (stored_totp st uid). rewrite Htotp.
    destruct (db_fault e TwoFaDisable.UPDATE_PREFERENCES) as [[m|]|];
      cbn [query]; [| cbn; discriminate |].
    { cbn [error]. destruct (preferences_column_missing m); cbn; discriminate. }
    unfold update_preferences.
    destruct (profiles st !! uid) as [row|] eqn:Hrow.
    2: { unfold stored_totp, stored_preferences in Htotp. rewrite Hrow in Htotp.
         cbn in Htotp. discriminate. }
    cbn [error].
    set (merged := JObj (obj_delete "totp" (spread (stored_preferences st uid)))).
    set (st2 := {| profiles := <[uid := with_preferences merged row]> (profiles st);
                   trusted_devices := trusted_devices st |}).
    assert (forall st', profiles st' = profiles st2 ->
                        stored_totp st' uid = JUndefined) as Hgone.
    { intros st' Hst'. unfold stored_totp, stored_preferences.
      rewrite Hst'. cbn. rewrite lookup_insert_eq. cbn.
      by rewrite obj_get_delete. }
    intros _.
    destruct (revoke_effect e st2 uid Hkey) as (Hprof & Hresp & Hdel).
    rewrite Hresp. split.
    + rewrite (Hgone _ Hprof). by repeat split.
    + intros Hnone. rewrite (Hdel Hnone). apply devices_of_delete.
  - intros id via m Hne Hv Hkey Hfault Hmissing. subst out.
    unfold TwoFaDisable.POST, req_json. rewrite Hp, Hu.
    assert (truthy (JStr uid) = true) as ->.
    { cbn. apply negb_true_iff. by apply String.eqb_neq. }
    cbn [negb]. rewrite Hv, Hkey. cbn [negb].
    destruct Hfault as [Hsel | [Hsel Hupd]]; rewrite Hsel; cbn [query].
    + cbn [error]. rewrite Hmissing. cbn. repeat split; by eauto.
    + rewrite select_profile_answer. cbn [error data to_String].
      rewrite read_preferences. fold (stored_totp st uid). rewrite Htotp.
      rewrite Hupd. cbn [query error]. rewrite Hmissing. cbn.
      repeat split; by eauto.
Qed.

Lemma disable_revokes_all_devices_witness :
  length (devices_of Sample.ann Sample.db) = 2%nat
  ∧ truthy (stored_totp Sample.db Sample.ann) = true
  ∧ body (snd (TwoFaDisable.POST Sample.healthy Sample.db Sample.disable_ann))
    = JObj [("success", JBool true)]
  ∧ (stored_totp
       (fst (TwoFaDisable.POST Sample.healthy Sample.db Sample.disable_ann))
       Sample.ann = JUndefined
     ∧ prop "enabled"
         (stored_totp
            (fst (TwoFaDisable.POST Sample.healthy Sample.db
                    Sample.disable_ann)) Sample.ann) <> JBool true
     ∧ cookies (snd (TwoFaDisable.POST Sample.healthy Sample.db
                       Sample.disable_ann))
       = [trust_cookie Sample.healthy "" 0])
  ∧ devices_of Sample.ann
      (fst (TwoFaDisable.POST Sample.healthy Sample.db Sample.disable_ann))
    = []
  ∧ (fst (TwoFaDisable.POST Sample.update_column_missing Sample.db
            Sample.disable_ann) = Sample.db
     ∧ status (snd (TwoFaDisable.POST Sample.update_column_missing Sample.db
                      Sample.disable_ann)) = 200
     ∧ cookies (snd (TwoFaDisable.POST Sample.update_column_missing Sample.db
                       Sample.disable_ann)) = []).
Proof.
  assert (truthy (stored_totp Sample.db Sample.ann) = true) as Ht
    by (vm_compute; reflexivity).
  assert (body (snd (TwoFaDisable.POST Sample.healthy Sample.db
                       Sample.disable_ann))
          = JObj [("success", JBool true)]) as Hb
    by (vm_compute; reflexivity).
  destruct (disable_revokes_all_devices Sample.healthy Sample.db
              Sample.disable_ann (Sample.disable_body Sample.ann) Sample.ann
              eq_refl eq_refl Ht) as (Hplain & _).
  destruct (Hplain Hb) as (H1 & H2).
  destruct (disable_revokes_all_devices Sample.update_column_missing
              Sample.db Sample.disable_ann (Sample.disable_body Sample.ann)
              Sample.ann eq_refl eq_refl Ht) as (_ & Hwarn).
  destruct (Hwarn Sample.ann "cookie"
              "column profiles.preferences does not exist")
    as (H3 & H4 & _ & _ & H5);
    try (vm_compute; reflexivity); [discriminate|right; by split|].
  split; [vm_compute; reflexivity|].
  split; [exact Ht|]. split; [exact Hb|]. split; [exact H1|].
  split; [apply H2; vm_compute; reflexivity|].
  split; [exact H3|]. split; [exact H4|exact H5].
Defined.

(** C6, counterexample.  Ann has 2FA enabled and two
    trusted devices.  When the delete on the ledger fails, the endpoint
    still answers [{ success: true }] and expires the cookie, and both
    records remain.  When the update reports the preferences column missing,
    it answers success with a warning; the configuration, the records and the
    cookie are as before. *)
Lemma disable_leaves_devices_behind :
  truthy (stored_totp Sample.db Sample.ann) = true
  ∧ (snd (TwoFaDisable.POST Sample.delete_fails Sample.db Sample.disable_ann)
     = set_cookie (trust_cookie Sample.delete_fails "" 0) TwoFaDisable.success
     ∧ status (snd (TwoFaDisable.POST Sample.delete_fails Sample.db
                      Sample.disable_ann)) = 200
     ∧ length
         (devices_of Sample.ann
            (fst (TwoFaDisable.POST Sample.delete_fails Sample.db
                    Sample.disable_ann))) = 2%nat)
  ∧ (status (snd (TwoFaDisable.POST Sample.update_column_missing Sample.db
                    Sample.disable_ann)) = 200
     ∧ prop "success"
         (body (snd (TwoFaDisable.POST Sample.update_column_missing Sample.db
                       Sample.disable_ann))) = JBool true
     ∧ cookies (snd (TwoFaDisable.POST Sample.update_column_missing Sample.db
                       Sample.disable_ann)) = []
     ∧ fst (TwoFaDisable.POST Sample.update_column_missing Sample.db
              Sample.disable_ann) = Sample.db).
Proof. repeat split; vm_compute; reflexivity. Qed.

End Disable.

(* ===================================================================== *)
(** ** Refreshing a trusted device *)
(* ===================================================================== *)

Section Touch.
Local Open Scope Z_scope.

(** An update that matches no row changes nothing and returns no row. *)
Lemma touch_unknown (h now : string) (st : store) :
  (forall d, d ∈ trusted_devices st -> d_token_hash d <> h) ->
  touch_devices h now st = (st, {| data := None; error := None |}).
Proof.
  destruct st as [ps ds]. cbn [trusted_devices]. intros Hno.
  unfold touch_devices. cbn [trusted_devices profiles].
  assert (List.filter (has_hash h) ds = []
          ∧ List.map (fun d => if has_hash h d then seen_at now d else d) ds
            = ds) as [-> ->]; [|done].
  induction ds as [|d ds IH]; [done|].
  assert (has_hash h d = false) as Hd.
  { apply String.eqb_neq, Hno, elem_of_cons. by left. }
  destruct IH as [IH1 IH2].
  { intros d' Hd'. apply Hno, elem_of_cons. by right. }
  cbn. by rewrite Hd, IH1, IH2.
Qed.

(** C10, amended.  A refresh presenting a token whose hash matches no
    persisted record never raises and writes nothing: the tables are as
    before.  It reports [updated: false], except when the update itself
    fails with an error other than a missing table: that error is passed
    on in a 500 response, and it is so whenever the update is reached and
    fails in that way. *)
Theorem refresh_unknown_token (e : env) (st : store) (req : request)
    (raw : string) :
  req_cookies req !! "trusted_device" = Some raw ->
  (forall d, d ∈ trusted_devices st -> d_token_hash d <> sha256_hex e raw) ->
  Refresh.POST_outcome e st req = Returned (Refresh.POST e st req)
  ∧ fst (Refresh.POST e st req) = st
  ∧ (prop "updated" (body (snd (Refresh.POST e st req))) = JBool false
     ∨ ∃ m, db_fault e Refresh.UPDATE_LAST_SEEN = Some (Fails m)
            ∧ relation_missing m = false
            ∧ snd (Refresh.POST e st req) = isoError m)
  ∧ (forall m,
       raw <> "" ->
       crypto_module e = true ->
       service_role_key e = true ->
       db_fault e Refresh.UPDATE_LAST_SEEN = Some (Fails m) ->
       relation_missing m = false ->
       snd (Refresh.POST e st req) = isoError m
       ∧ status (snd (Refresh.POST e st req)) = 500).
Proof.
  intros Hc Hno.
  assert (Refresh.POST_outcome e st req = Returned (Refresh.POST e st req)
          ∧ fst (Refresh.POST e st req) = st
          ∧ (prop "updated" (body (snd (Refresh.POST e st req))) = JBool false
             ∨ ∃ m, db_fault e Refresh.UPDATE_LAST_SEEN = Some (Fails m)
                    ∧ relation_missing m = false
                    ∧ snd (Refresh.POST e st req) = isoError m))
    as (H1 & H2 & H3).
  { unfold Refresh.POST, Refresh.POST_outcome. rewrite Hc.
    destruct (nonempty (Some raw)) as [raw'|] eqn:Hraw.
    2: { repeat split. by left. }
    assert (raw' = raw) as ->.
    { cbn in Hraw. destruct (String.eqb raw ""); congruence. }
    destruct (crypto_module e); cbn [negb].
    2: { repeat split. by left. }
    destruct (service_role_key e); cbn [negb].
    2: { repeat split. by left. }
    destruct (db_fault e Refresh.UPDATE_LAST_SEEN) as [[m|]|] eqn:Hf;
      cbn [query].
    - cbn [error]. destruct (relation_missing m) eqn:Hm.
      + repeat split. by left.
      + repeat split. right. by exists m.
    - repeat split. by left.
    - rewrite (touch_unknown _ _ _ Hno). cbn [error data].
      repeat split. by left. }
  split; [exact H1|]. split; [exact H2|]. split; [exact H3|].
  intros m Hne Hcrypto Hkey Hf Hm.
  assert (snd (Refresh.POST e st req) = isoError m) as ->; [|done].
  unfold Refresh.POST, Refresh.POST_outcome. rewrite Hc.
  assert (nonempty (Some raw) = Some raw) as ->.
  { cbn. by destruct (String.eqb_spec raw ""). }
  rewrite Hcrypto, Hkey, Hf. cbn [negb query error]. by rewrite Hm.
Qed.


Lemma refresh_unknown_token_witness :
  req_cookies (Sample.get_as Sample.bob Sample.unknown_token)
    !! "trusted_device" = Some Sample.unknown_token
  ∧ Refresh.POST_outcome Sample.healthy Sample.db
      (Sample.get_as Sample.bob Sample.unknown_token)
    = Returned
        (Refresh.POST Sample.healthy Sample.db
           (Sample.get_as Sample.bob Sample.unknown_token))
  ∧ fst (Refresh.POST Sample.healthy Sample.db
           (Sample.get_as Sample.bob Sample.unknown_token)) = Sample.db
  ∧ prop "updated"
      (body (snd (Refresh.POST Sample.healthy Sample.db
                    (Sample.get_as Sample.bob Sample.unknown_token))))
    = JBool false.
Proof.
  assert (req_cookies (Sample.get_as Sample.bob Sample.unknown_token)
            !! "trusted_device" = Some Sample.unknown_token) as Hc
    by (vm_compute; reflexivity).
  assert (forall d, d ∈ trusted_devices Sample.db ->
                    d_token_hash d
                    <> sha256_hex Sample.healthy Sample.unknown_token) as Hno.
  { intros d Hd. cbn in Hd.
    repeat (apply elem_of_cons in Hd as [Hd|Hd];
            [subst d; vm_compute; discriminate|]).
    by apply elem_of_nil in Hd. }
  destruct (refresh_unknown_token Sample.healthy Sample.db
              (Sample.get_as Sample.bob Sample.unknown_token)
              Sample.unknown_token Hc Hno)
    as (Hret & Hst & [Hupd|(m & Hm & _)] & _).
  - by repeat split.
  - vm_compute in Hm. discriminate.
Defined.

(** C10, counterexample.  The token matches no record and
    the update fails with a permission error: the answer is a 500 carrying
    the storage message, not a report that no update occurred. *)
Lemma refresh_passes_storage_error_on :
  forallb
    (fun d => negb (has_hash (sha256_hex Sample.touch_fails Sample.unknown_token) d))
    (trusted_devices Sample.db) = true
  ∧ Refresh.POST Sample.touch_fails Sample.db
      (Sample.get_as Sample.bob Sample.unknown_token)
    = (Sample.db, isoError "permission denied for table trusted_devices")
  ∧ status (isoError "permission denied for table trusted_devices") = 500
  ∧ prop "updated"
      (body (isoError "permission denied for table trusted_devices"))
    = JUndefined.
Proof. repeat split; vm_compute; reflexivity. Qed.

End Touch.

(* ===================================================================== *)
(** ** The trust check of the profile route *)
(* ===================================================================== *)

Section Trust.
Local Open Scope Z_scope.

Lemma nonempty_Some (s t : string) : nonempty (Some s) = Some t -> s = t.
Proof. cbn. destruct (String.eqb s ""); congruence. Qed.

Lemma prefix_cons (a c : ascii) (s t : string) :
  String.prefix (String a s) (String c t)
  = if ascii_dec a c then String.prefix s t else false.
Proof. reflexivity. Qed.


(** The lookup of the trust check when no record of the user has the hash. *)
Lemma select_device_none (uid h : string) (st : store) :
  (forall d, d ∈ trusted_devices st ->
             ~ (d_user_id d = uid ∧ d_token_hash d = h)) ->
  select_device uid h st = (st, {| data := None; error := None |}).
Proof.
  intros Hno. unfold select_device.
  assert (List.filter (fun d => owned_by uid d && has_hash h d)
            (trusted_devices st) = []) as ->; [|done].
  induction (trusted_devices st) as [|d ds IH]; [done|]. cbn.
  assert (owned_by uid d && has_hash h d = false) as ->.
  { apply not_true_is_false. intros Hb.
    apply andb_true_iff in Hb as [H1 H2].
    apply String.eqb_eq in H1, H2.
    apply (Hno d); [apply elem_of_cons; by left|done]. }
  apply IH. intros d' Hd'. apply Hno, elem_of_cons. by right.
Qed.

(** Without a matching record and without the legacy prefix, the check says
    no, whatever the backend does. *)
Lemma untrusted_without_match (e : env) (st : store) (req : request)
    (userId raw : string) :
  req_cookies req !! "trusted_device" = Some raw ->
  (forall d, d ∈ trusted_devices st -> ~ matches e userId raw d) ->
  Profile.legacy_prefix userId raw = false ->
  Profile.trustedDevice e st req userId = false.
Proof.
  intros Hc Hno Hp. unfold Profile.trustedDevice. rewrite Hc.
  destruct (nonempty (Some raw)) as [raw'|] eqn:Hraw; [|done].
  apply nonempty_Some in Hraw as <-.
  destruct (crypto_module e); cbn [negb]; [|done].
  destruct (service_role_key e); cbn [negb]; [|done].
  destruct (db_fault e Profile.SELECT_DEVICE) as [[m|]|]; cbn [query].
  - cbn [error]. by destruct (relation_missing m).
  - done.
  - rewrite (select_device_none _ _ _ Hno). by cbn.
Qed.

(** A response of the profile route reports what the trust check says, or
    nothing. *)
Lemma reported_trusted_cases (e : env) (st : store) (req : request)
    (userId : string) :
  req_query req !! "userId" = Some userId ->
  reported_trusted (Profile.GET e st req) = JUndefined
  ∨ reported_trusted (Profile.GET e st req)
    = JBool (Profile.trustedDevice e st req userId).
Proof.
  intros Hq. unfold Profile.GET. rewrite Hq.
  destruct (nonempty (Some userId)) as [u|] eqn:Hu; [|by left].
  apply nonempty_Some in Hu as <-.
  destruct (verifyUserFromRequest e req (JStr userId)); [|by left].
  destruct (service_role_key e); cbn [negb]; [|by left].
  destruct (query _ _ _) as [[st' res]|]; [|by left].
  destruct (error res); [by left|]. by right.
Qed.

(** C1, amended.  If no persisted record of the user has the hash of the
    presented token and the token does not begin with the user's id followed
    by a colon, the trust check says untrusted, and no response of the
    profile route reports [trustedDevice: true]. *)
Theorem unmatched_token_untrusted (e : env) (st : store) (req : request)
    (userId raw : string) :
  req_cookies req !! "trusted_device" = Some raw ->
  (forall d, d ∈ trusted_devices st -> ~ matches e userId raw d) ->
  Profile.legacy_prefix userId raw = false ->
  Profile.trustedDevice e st req userId = false
  ∧ (req_query req !! "userId" = Some userId ->
     reported_trusted (Profile.GET e st req) <> JBool true).
Proof.
  intros Hc Hno Hp.
  pose proof (untrusted_without_match e st req userId raw Hc Hno Hp) as Hf.
  split; [exact Hf|]. intros Hq.
  destruct (reported_trusted_cases e st req userId Hq) as [-> | ->];
    [done|]. by rewrite Hf.
Qed.

Lemma unmatched_token_untrusted_witness :
  req_cookies (Sample.get_as Sample.ann Sample.unknown_token)
    !! "trusted_device" = Some Sample.unknown_token
  ∧ Profile.legacy_prefix Sample.ann Sample.unknown_token = false
  ∧ Profile.trustedDevice Sample.healthy Sample.db
      (Sample.get_as Sample.ann Sample.unknown_token) Sample.ann = false
  ∧ reported_trusted
      (Profile.GET Sample.healthy Sample.db
         (Sample.get_as Sample.ann Sample.unknown_token)) <> JBool true.
Proof.
  assert (req_cookies (Sample.get_as Sample.ann Sample.unknown_token)
            !! "trusted_device" = Some Sample.unknown_token) as Hc
    by (vm_compute; reflexivity).
  assert (Profile.legacy_prefix Sample.ann Sample.unknown_token = false) as Hp
    by (vm_compute; reflexivity).
  assert (forall d, d ∈ trusted_devices Sample.db ->
                    ~ matches Sample.healthy Sample.ann Sample.unknown_token d)
    as Hno.
  { intros d Hd [_ Hh]. cbn in Hd.
    repeat (apply elem_of_cons in Hd as [Hd|Hd];
            [subst d; vm_compute in Hh; discriminate|]).
    by apply elem_of_nil in Hd. }
  destruct (unmatched_token_untrusted Sample.healthy Sample.db
              (Sample.get_as Sample.ann Sample.unknown_token)
              Sample.ann Sample.unknown_token Hc Hno Hp) as [H1 H2].
  split; [exact Hc|]. split; [exact Hp|]. split; [exact H1|].
  apply H2. vm_compute. reflexivity.
Defined.

(** C1, counterexample.  The ledger is empty, so no record
    of Bob matches; the presented token begins with Bob's id and a colon,
    and the profile route reports the device as trusted. *)
Lemma legacy_prefix_is_trusted :
  trusted_devices Sample.db_empty = []
  ∧ Profile.trustedDevice Sample.healthy Sample.db_empty
      (Sample.get_as Sample.bob "user-bob:anything") Sample.bob = true
  ∧ reported_trusted
      (Profile.GET Sample.healthy Sample.db_empty
         (Sample.get_as Sample.bob "user-bob:anything"))
    = JBool true.
Proof. repeat split; vm_compute; reflexivity. Qed.

(** After an insert of a record with a hash the ledger did not hold, the
    lookup by owner and hash finds exactly that record. *)
Lemma select_device_fresh (uid h : string) (ps : gmap string profile_row)
    (ds : list device) (d : device) :
  d_user_id d = uid -> d_token_hash d = h ->
  (forall d', d' ∈ ds -> d_token_hash d' <> h) ->
  select_device uid h {| profiles := ps; trusted_devices := ds ++ [d] |}
  = ({| profiles := ps; trusted_devices := ds ++ [d] |},
     {| data := Some d; error := None |}).
Proof.
  intros Hu Hh Hfresh. unfold select_device. cbn [trusted_devices].
  assert (List.filter (fun d => owned_by uid d && has_hash h d) (ds ++ [d])
          = [d]) as ->; [|done].
  induction ds as [|d0 ds IH]; cbn.
  - unfold owned_by, has_hash. rewrite Hu, Hh, !String.eqb_refl. done.
  - assert (has_hash h d0 = false) as ->.
    { apply String.eqb_neq, Hfresh, elem_of_cons. by left. }
    rewrite andb_false_r. apply IH.
    intros d' Hd'. apply Hfresh, elem_of_cons. by right.
Qed.




(* --------------------------------------------------------------------- *)
(** *** What the profile and settings routes return *)

Lemma strings_of_field (k : string) (fs : list (string * json)) (v : json)
    (s : string) :
  obj_get k fs = Some v -> In s (strings_of v) -> In s (strings_of (JObj fs)).
Proof.
  intros Hk Hs. cbn [strings_of].
  induction fs as [|[k' v'] fs IH]; [discriminate|].
  cbn in Hk |- *. apply in_or_app.
  destruct (String.eqb k k'); [left | right; by apply IH].
  by inversion Hk.
Qed.

Lemma prop_is_object (k : string) (v : json) (fs : list (string * json)) :
  prop k v = JObj fs ->
  ∃ pf, v = JObj pf ∧ obj_get k pf = Some (JObj fs).
Proof.
  destruct v as [| | | | | |pf]; try discriminate. cbn.
  destruct (obj_get k pf) as [w|] eqn:Hw; cbn; [|discriminate].
  intros ->. by exists pf.
Qed.

(** C2: the code returns the stored secret.  For a signed-in user whose
    stored configuration holds the secret [s], the profile route and the
    settings route both answer 200 with [s] in the body. *)
Theorem stored_secret_is_returned (e : env) (st : store) (req : request)
    (uid id via : string) (row : profile_row) (fs : list (string * json))
    (s : string) :
  req_query req !! "userId" = Some uid ->
  uid <> "" ->
  verifyUserFromRequest e req (JStr uid) = Verified id via ->
  service_role_key e = true ->
  db_fault e Profile.SELECT_PROFILE = None ->
  db_fault e Settings.SELECT_PREFERENCES = None ->
  profiles st !! uid = Some row ->
  prop "totp" (preferences row) = JObj fs ->
  obj_get "secret" fs = Some (JStr s) ->
  (status (Profile.GET e st req) = 200
   ∧ appears s (body (Profile.GET e st req)))
  ∧ (status (Settings.GET e st req) = 200
     ∧ appears s (body (Settings.GET e st req))).
Proof.
  intros Hq Hne Hv Hkey Hf1 Hf2 Hrow Htotp Hsec.
  assert (nonempty (Some uid) = Some uid) as Hu.
  { cbn. by destruct (String.eqb_spec uid ""). }
  assert (In s (strings_of (JObj fs))) as Hin.
  { apply (strings_of_field "secret" fs (JStr s)); [done|]. cbn. by left. }
  destruct (prop_is_object _ _ _ Htotp) as (pf & Hprefs & Hget).
  split.
  - unfold Profile.GET. rewrite Hq, Hu, Hv, Hkey, Hf1. cbn [negb query].
    rewrite select_profile_answer. cbn [error data]. rewrite Hrow.
    split; [done|]. unfold appears. cbn [body json_response].
    eapply (strings_of_field "profile"); [reflexivity|].
    eapply (strings_of_field "totp"); [reflexivity|].
    unfold Profile.totp_of. rewrite Htotp, Hprefs. exact Hin.
  - unfold Settings.GET. rewrite Hq, Hu, Hv, Hkey, Hf2. cbn [negb query].
    rewrite select_profile_answer. cbn [error data]. rewrite Hrow.
    split; [done|]. unfold appears. cbn [body json_response].
    eapply (strings_of_field "preferences"); [reflexivity|].
    rewrite Hprefs. cbn [truthy].
    by eapply (strings_of_field "totp").
Qed.

Lemma stored_secret_is_returned_witness :
  stored_secret Sample.db Sample.ann = JStr "JBSWY3DPEHPK3PXP"
  ∧ (status (Profile.GET Sample.healthy Sample.db
               (Sample.get_as Sample.ann Sample.unknown_token)) = 200
     ∧ appears "JBSWY3DPEHPK3PXP"
         (body (Profile.GET Sample.healthy Sample.db
                  (Sample.get_as Sample.ann Sample.unknown_token))))
  ∧ (status (Settings.GET Sample.healthy Sample.db
               (Sample.get_as Sample.ann Sample.unknown_token)) = 200
     ∧ appears "JBSWY3DPEHPK3PXP"
         (body (Settings.GET Sample.healthy Sample.db
                  (Sample.get_as Sample.ann Sample.unknown_token)))).
Proof.
  split; [vm_compute; reflexivity|].
  apply (stored_secret_is_returned Sample.healthy Sample.db
           (Sample.get_as Sample.ann Sample.unknown_token) Sample.ann
           Sample.ann "cookie" Sample.ann_row
           [("enabled", JBool true); ("secret", JStr "JBSWY3DPEHPK3PXP");
            ("createdAt", JStr "2025-11-01T08:00:00.000Z")]);
    try (vm_compute; reflexivity).
  vm_compute. discriminate.
Defined.

End Trust.


(* ===================================================================== *)
(** * Who may write: [verifyUserFromRequest] and the routes behind it *)
(* ===================================================================== *)

Section Identity.
Local Open Scope Z_scope.

Lemma id_is_spec (id : string) (expected : json) :
  id_is id expected = true <-> expected = JStr id.
Proof.
  destruct expected; cbn; try (split; [discriminate|intros H; discriminate]).
  rewrite String.eqb_eq. split; [by intros ->|by intros [= ->]].
Qed.

Lemma bearer_of_spec (req : request) (h : string) :
  nonempty (req_headers req !! "authorization") = Some h ->
  startsWith h "Bearer " = true ->
  bearer_of req = Some (default "" (split_second " " h)).
Proof. unfold bearer_of. by intros -> ->. Qed.

(** A verification against a given user id succeeds for that user only. *)
Lemma verified_expected (e : env) (req : request) (expected : json)
    (id via : string) :
  truthy expected = true ->
  verifyUserFromRequest e req expected = Verified id via ->
  expected = JStr id.
Proof.
  intros Ht. unfold verifyUserFromRequest. rewrite Ht. cbn [negb orb andb].
  destruct (session_user e (req_cookies req)) as [[u|]|];
    [destruct (id_is u expected) eqn:Hu;
       [intros [= <- _]; by apply id_is_spec|]|..];
    (destruct (nonempty _); [|discriminate];
     destruct (startsWith _ _); cbn [negb]; [|discriminate];
     destruct (service_role_key e); cbn [negb]; [|discriminate];
     destruct (bearer_user e _) as [[v|]|]; try discriminate;
     destruct (id_is v expected) eqn:Hv; cbn [negb]; [|discriminate];
     intros [= <- _]; by apply id_is_spec).
Qed.

(** X1.  [verifyUserFromRequest] against a user id: an acceptance names that
    very user, identified either by the session cookies or by the bearer
    token of the Authorization header; a refusal is a 403 exactly when a
    bearer token identified somebody else, and a 401 otherwise, in which
    case no usable bearer token identified anybody. *)
Theorem verification_is_sound (e : env) (req : request) (expected : json) :
  truthy expected = true ->
  match verifyUserFromRequest e req expected with
  | Verified id via =>
      expected = JStr id
      ∧ ((via = "cookie"
          ∧ session_user e (req_cookies req) = Returned (Some id))
         ∨ (via = "token"
            ∧ service_role_key e = true
            ∧ ∃ token, bearer_of req = Some token
                       ∧ bearer_user e token = Returned (Some id)))
  | Refused s reason =>
      (s = 403 ∧ reason = "forbidden"
       ∧ ∃ token other, bearer_of req = Some token
                        ∧ bearer_user e token = Returned (Some other)
                        ∧ expected <> JStr other)
      ∨ (s = 401
         ∧ (service_role_key e = true ->
            forall token id, bearer_of req = Some token ->
                             bearer_user e token <> Returned (Some id)))
  end.
Proof.
  intros Ht.
  destruct (verifyUserFromRequest e req expected) as [id via|s reason] eqn:Hv.
  - split; [by eapply verified_expected|].
    revert Hv. unfold verifyUserFromRequest. rewrite Ht. cbn [negb orb andb].
    destruct (session_user e (req_cookies req)) as [[u|]|] eqn:Hs;
      [destruct (id_is u expected) eqn:Hu;
         [intros [= <- <-]; left; done|]|..];
      (destruct (nonempty _) as [h|] eqn:Hh; [|discriminate];
       destruct (startsWith _ _) eqn:Hp; cbn [negb]; [|discriminate];
       destruct (service_role_key e); cbn [negb]; [|discriminate];
       destruct (bearer_user e _) as [[v|]|] eqn:Hb; try discriminate;
       destruct (id_is v expected) eqn:Hv; cbn [negb]; [|discriminate];
       intros [= <- <-]; right; repeat split; try done;
       eexists; split; [by apply bearer_of_spec|done]).
  - revert Hv. unfold verifyUserFromRequest. rewrite Ht. cbn [negb orb andb].
    assert (match nonempty (req_headers req !! "authorization") with
            | Some authHeader =>
                if negb (startsWith authHeader "Bearer ")
                then Refused 401 "missing authorization"
                else
                  if negb (service_role_key e) then Refused 401 "invalid token"
                  else
                    match
                      bearer_user e (default "" (split_second " " authHeader))
                    with
                    | Returned (Some id) =>
                        if negb (id_is id expected)
                        then Refused 403 "forbidden"
                        else Verified id "token"
                    | Returned None => Refused 401 "invalid token"
                    | Thrown => Refused 401 "invalid token"
                    end
            | None => Refused 401 "missing authorization"
            end = Refused s reason ->
            (s = 403 ∧ reason = "forbidden"
             ∧ ∃ token other, bearer_of req = Some token
                              ∧ bearer_user e token = Returned (Some other)
                              ∧ expected <> JStr other)
            ∨ (s = 401
               ∧ (service_role_key e = true ->
                  forall token id, bearer_of req = Some token ->
                                   bearer_user e token <> Returned (Some id))))
      as Hbearer.
    { unfold bearer_of.
      destruct (nonempty _) as [h|] eqn:Hh.
      2: { intros [= <- <-]. right. split; [done|]. intros _ ? ? [=]. }
      destruct (startsWith _ _) eqn:Hp; cbn [negb].
      2: { intros [= <- <-]. right. split; [done|]. intros _ ? ? [=]. }
      destruct (service_role_key e); cbn [negb].
      2: { intros [= <- <-]. right. split; [done|]. intros [=]. }
      destruct (bearer_user e _) as [[v|]|] eqn:Hb.
      - destruct (id_is v expected) eqn:Hv; cbn [negb]; [discriminate|].
        intros [= <- <-]. left. repeat split; try done.
        exists (default "" (split_second " " h)), v. repeat split; try done.
        intros ->. assert (id_is v (JStr v) = true) by by apply id_is_spec.
        congruence.
      - intros [= <- <-]. right. split; [done|].
        intros _ ? ? [= <-]. congruence.
      - intros [= <- <-]. right. split; [done|].
        intros _ ? ? [= <-]. congruence. }
    destruct (session_user e (req_cookies req)) as [[u|]|];
      [destruct (id_is u expected); [discriminate|]|..]; exact Hbearer.
Qed.

Lemma verification_is_sound_witness :
  truthy (JStr Sample.ann) = true
  ∧ verifyUserFromRequest Sample.healthy (Sample.post_as Sample.ann (JObj []))
      (JStr Sample.ann) = Verified Sample.ann "cookie"
  ∧ (JStr Sample.ann = JStr Sample.ann
     ∧ (("cookie" = "cookie"
         ∧ session_user Sample.healthy
             (req_cookies (Sample.post_as Sample.ann (JObj [])))
           = Returned (Some Sample.ann))
        ∨ ("cookie" = "token"
           ∧ service_role_key Sample.healthy = true
           ∧ ∃ token,
               bearer_of (Sample.post_as Sample.ann (JObj [])) = Some token
               ∧ bearer_user Sample.healthy token
                 = Returned (Some Sample.ann)))).
Proof.
  assert (truthy (JStr Sample.ann) = true) as H by (vm_compute; reflexivity).
  split; [exact H|]. split; [vm_compute; reflexivity|].
  exact (verification_is_sound Sample.healthy
           (Sample.post_as Sample.ann (JObj [])) (JStr Sample.ann) H).
Defined.

Ltac unchanged := intros Hne; exfalso; apply Hne; reflexivity.

Ltac by_verification Ht Hv :=
  intros _;
  pose proof (verified_expected _ _ _ _ _ Ht Hv) as Hx;
  eexists _, _; split; [exact Hx|rewrite <- Hx; exact Hv].

(** X2.  No route that writes on behalf of the user named in the body
    (enrollment completion, 2FA disable, profile update, settings update,
    trusted-device revocation) changes the tables unless the body names a
    user id and the requester was verified as that very user. *)
Theorem writes_need_verification (e : env) (st : store) (req : request)
    (route : env -> store -> request -> store * response) :
  route ∈ writers ->
  fst (route e st req) <> st ->
  ∃ id via, submitted req "userId" = JStr id
            ∧ verifyUserFromRequest e req (JStr id) = Verified id via.
Proof.
  unfold writers. rewrite !elem_of_cons, elem_of_nil.
  intros [->|[->|[->|[->|[->|[]]]]]]; unfold submitted.
  - unfold TwoFaVerify.POST.
    destruct (parseJsonOrEmpty req) as [b|]; [|unchanged].
    destruct (truthy (prop "userId" _)) eqn:Ht; cbn [negb]; [|unchanged].
    destruct (truthy (prop "secret" _)); cbn [negb]; [|unchanged].
    destruct (truthy (prop "token" _)); cbn [negb]; [|unchanged].
    destruct (verifyUserFromRequest _ _ _) eqn:Hv; [|unchanged].
    by_verification Ht Hv.
  - unfold TwoFaDisable.POST, parseJsonOrEmpty, req_json.
    destruct (req_payload req) as [| |b]; [unchanged|unchanged|].
    destruct (truthy (prop "userId" _)) eqn:Ht; cbn [negb]; [|unchanged].
    destruct (verifyUserFromRequest _ _ _) eqn:Hv; [|unchanged].
    by_verification Ht Hv.
  - unfold ProfileUpdate.POST, parseJsonOrEmpty, req_json.
    destruct (req_payload req) as [| |b]; [unchanged|unchanged|].
    destruct (truthy (prop "userId" _)) eqn:Ht; cbn [negb]; [|unchanged].
    destruct (verifyUserFromRequest _ _ _) eqn:Hv; [|unchanged].
    by_verification Ht Hv.
  - unfold SettingsUpdate.POST.
    destruct (parseJsonOrEmpty req) as [b|]; [|unchanged].
    destruct (truthy (prop "userId" _)) eqn:Ht; cbn [negb]; [|unchanged].
    destruct (verifyUserFromRequest _ _ _) eqn:Hv; [|unchanged].
    by_verification Ht Hv.
  - unfold TrustedDevices.POST.
    destruct (parseJsonOrEmpty req) as [b|]; [|unchanged].
    destruct (truthy (prop "userId" _)) eqn:Ht; cbn [negb]; [|unchanged].
    destruct (verifyUserFromRequest _ _ _) eqn:Hv; [|unchanged].
    by_verification Ht Hv.
Qed.

Lemma writes_need_verification_witness :
  SettingsUpdate.POST ∈ writers
  ∧ fst (SettingsUpdate.POST Sample.healthy Sample.db Cases.save_settings)
    <> Sample.db
  ∧ ∃ id via,
      submitted Cases.save_settings "userId" = JStr id
      ∧ verifyUserFromRequest Sample.healthy Cases.save_settings (JStr id)
        = Verified id via.
Proof.
  assert (SettingsUpdate.POST ∈ writers) as Hin.
  { unfold writers. rewrite !elem_of_cons. tauto. }
  assert (fst (SettingsUpdate.POST Sample.healthy Sample.db Cases.save_settings)
          <> Sample.db) as Hne.
  { intros Heq.
    apply (f_equal (fun s => stored_preferences s Sample.bob)) in Heq.
    vm_compute in Heq. discriminate. }
  split; [exact Hin|]. split; [exact Hne|].
  exact (writes_need_verification Sample.healthy Sample.db Cases.save_settings
           SettingsUpdate.POST Hin Hne).
Defined.

End Identity.

(* ===================================================================== *)
(** * Texts *)
(* ===================================================================== *)

Section Texts.

Lemma trimStart_length (s : string) :
  (String.length (trimStart s) <= String.length s)%nat.
Proof.
  induction s as [|c s IH]; cbn; [lia|].
  destruct (is_space c); cbn; lia.
Qed.

Lemma trimEnd_length (s : string) :
  (String.length (trimEnd s) <= String.length s)%nat.
Proof.
  induction s as [|c s IH]; cbn; [lia|].
  destruct (trimEnd s); [destruct (is_space c)|]; cbn in *; lia.
Qed.

Lemma trim_length (s : string) :
  (String.length (trim s) <= String.length s)%nat.
Proof.
  unfold trim. pose proof (trimEnd_length (trimStart s)).
  pose proof (trimStart_length s). lia.
Qed.

(** What [trimStart] leaves begins with a character that is not white
    space. *)
Lemma trimStart_head (s : string) (c : ascii) (t : string) :
  trimStart s = String c t -> is_space c = false.
Proof.
  induction s as [|a s IH]; cbn; [discriminate|].
  destruct (is_space a) eqn:Ha; [exact IH|].
  by intros [= <- _].
Qed.

(** [trimEnd] keeps a first character that is not white space. *)
Lemma trimEnd_head (c : ascii) (t : string) :
  is_space c = false -> ∃ t', trimEnd (String c t) = String c t'.
Proof.
  intros Hc. cbn. rewrite Hc. destruct (trimEnd t); eauto.
Qed.

(** A trimmed text that is not empty begins with a character that is not
    white space. *)
Lemma trim_head (s : string) (c : ascii) (t : string) :
  trim s = String c t -> is_space c = false.
Proof.
  unfold trim. destruct (trimStart s) as [|a r] eqn:Hs; [discriminate|].
  pose proof (trimStart_head _ _ _ Hs) as Ha.
  destruct (trimEnd_head a r Ha) as [t' ->]. by intros [= <- _].
Qed.

(** Trimming a text that begins with a character that is not white space
    keeps that character. *)
Lemma trim_keeps_head (c : ascii) (t : string) :
  is_space c = false -> ∃ t', trim (String c t) = String c t'.
Proof.
  intros Hc. unfold trim. cbn [trimStart]. rewrite Hc.
  by apply trimEnd_head.
Qed.

Lemma append_cons (c : ascii) (s t : string) :
  String c s +:+ t = String c (s +:+ t).
Proof. reflexivity. Qed.

Lemma append_nil (t : string) : "" +:+ t = t.
Proof. reflexivity. Qed.

Lemma append_assoc (r s t : string) : r +:+ (s +:+ t) = (r +:+ s) +:+ t.
Proof.
  induction r as [|b r IH]; [done|].
  rewrite !append_cons. by rewrite IH.
Qed.

Lemma length_append (s t : string) :
  String.length (s +:+ t) = (String.length s + String.length t)%nat.
Proof.
  induction s as [|c s IH]; [done|].
  rewrite append_cons. cbn. by rewrite IH.
Qed.

Lemma substring_length_le (n : nat) (s : string) :
  (String.length (String.substring 0 n s) <= n)%nat.
Proof.
  revert s. induction n as [|n IH]; intros [|c s]; cbn; try lia.
  specialize (IH s). lia.
Qed.

Lemma substring_whole (n : nat) (s : string) :
  (String.length s <= n)%nat -> String.substring 0 n s = s.
Proof.
  revert s. induction n as [|n IH]; intros [|c s]; cbn; try done; try lia.
  intros H. rewrite IH; [done|lia].
Qed.

Lemma substring_is_prefix (n : nat) (s : string) :
  String.prefix (String.substring 0 n s) s = true.
Proof.
  revert s. induction n as [|n IH]; intros [|c s]; cbn; try done.
  destruct (ascii_dec c c); [apply IH|done].
Qed.

End Texts.

(* ===================================================================== *)
(** * Profile updates *)
(* ===================================================================== *)

Section ProfileUpdates.
Local Open Scope Z_scope.

Lemma query_cases {A : Type} (f : option fault) (st : store)
    (run : store -> store * result A) :
  query f st run = Thrown
  ∨ (∃ m, query f st run = Returned (st, {| data := None; error := Some m |}))
  ∨ (f = None ∧ query f st run = Returned (run st)).
Proof.
  destruct f as [[m|]|]; cbn; [right; left; by exists m|by left|by right; right].
Qed.

Lemma refused_statuses e req expected s reason :
  verifyUserFromRequest e req expected = Refused s reason ->
  s = 401 ∨ s = 403.
Proof.
  unfold verifyUserFromRequest.
  repeat (match goal with
          | |- context [match ?x with _ => _ end] => destruct x
          end; try discriminate);
    intros H; inversion H; subst; auto.
Qed.

Lemma holds_username_spec (name except k : string) (row : profile_row) :
  holds_username name except (k, row) = true
  <-> k <> except ∧ username row = Some name.
Proof.
  unfold holds_username, holds_name. cbn.
  rewrite andb_true_iff, negb_true_iff, String.eqb_neq.
  destruct (username row) as [n|].
  - rewrite String.eqb_eq. split; intros [? ?]; split; congruence.
  - split; intros [? ?]; discriminate.
Qed.

Lemma find_is_Some {A : Type} (p : A -> bool) (l : list A) :
  is_Some (List.find p l) <-> ∃ x, x ∈ l ∧ p x = true.
Proof.
  split.
  - intros [x Hx]. apply find_some in Hx as [Hin Hp].
    exists x. split; [by apply list_elem_of_In|done].
  - intros (x & Hin & Hp). destruct (List.find p l) eqn:Hf; [done|].
    apply list_elem_of_In in Hin.
    pose proof (find_none _ _ Hf _ Hin). congruence.
Qed.

Lemma other_holder_found (name uid : string) (st : store) :
  is_Some (List.find (holds_username name uid) (map_to_list (profiles st)))
  <-> held_by_another name uid st.
Proof.
  rewrite find_is_Some. unfold held_by_another. split.
  - intros ([k row] & Hin & Hp). apply elem_of_map_to_list in Hin.
    apply holds_username_spec in Hp as [? ?]. by exists k, row.
  - intros (k & row & Hne & Hk & Hu). exists (k, row).
    split; [by apply elem_of_map_to_list|by apply holds_username_spec].
Qed.

Lemma other_holder_exists (name uid : string) (st : store) :
  List.existsb (holds_username name uid) (map_to_list (profiles st)) = true
  <-> held_by_another name uid st.
Proof.
  rewrite existsb_exists, <- other_holder_found, find_is_Some.
  split; intros (x & Hin & Hp); exists x; (split; [|done]);
    by apply list_elem_of_In.
Qed.

Lemma profile_columns_only_refl (uid : string) (st : store) :
  profile_columns_only uid st st.
Proof. by repeat split. Qed.

Lemma update_profile_columns (uid : string) (u : profile_updates) (st : store) :
  profile_columns_only uid st (fst (update_profile uid u st))
  ∧ (error (snd (update_profile uid u st)) <> None ->
     fst (update_profile uid u st) = st).
Proof.
  unfold update_profile.
  destruct (profiles st !! uid) as [row|] eqn:Hrow; cbn.
  2: { split; [apply profile_columns_only_refl|done]. }
  match goal with |- context [if ?c then _ else _] => destruct c end; cbn.
  { split; [apply profile_columns_only_refl|done]. }
  split; [|done]. repeat split; cbn.
  - intros k Hk. by rewrite lookup_insert_ne.
  - intros k. destruct (decide (k = uid)) as [->|Hk].
    + by rewrite lookup_insert_eq, Hrow.
    + by rewrite lookup_insert_ne.
Qed.

(** What [write] and [check_username] leave as they found it. *)
Lemma write_columns (e : env) (st : store) (userId : json)
    (u : profile_updates) :
  profile_columns_only (to_String userId) st
    (fst (ProfileUpdate.write e st userId u))
  ∧ cookies (snd (ProfileUpdate.write e st userId u)) = []
  ∧ (status (snd (ProfileUpdate.write e st userId u)) <> 200 ->
     fst (ProfileUpdate.write e st userId u) = st).
Proof.
  unfold ProfileUpdate.write.
  destruct (no_updates u).
  { split; [apply profile_columns_only_refl|done]. }
  destruct (service_role_key e); cbn [negb].
  2: { split; [apply profile_columns_only_refl|done]. }
  destruct (query_cases (db_fault e ProfileUpdate.UPDATE_PROFILE) st
              (update_profile (to_String userId) u))
    as [->|[[m ->]|[_ ->]]]; cbn.
  - split; [apply profile_columns_only_refl|done].
  - split; [apply profile_columns_only_refl|done].
  - destruct (update_profile_columns (to_String userId) u st) as [Hc He].
    destruct (update_profile (to_String userId) u st) as [st' res]; cbn in *.
    destruct (error res) as [m|]; cbn.
    + split; [done|]. split; [done|]. intros _. by apply He.
    + split; [done|]. split; [done|]. intros Hs. done.
Qed.

Lemma check_username_columns (e : env) (st : store) (userId : json)
    (u : profile_updates) :
  profile_columns_only (to_String userId) st
    (fst (ProfileUpdate.check_username e st userId u))
  ∧ cookies (snd (ProfileUpdate.check_username e st userId u)) = []
  ∧ (status (snd (ProfileUpdate.check_username e st userId u)) <> 200 ->
     fst (ProfileUpdate.check_username e st userId u) = st).
Proof.
  unfold ProfileUpdate.check_username.
  destruct (ProfileUpdate.checked_username u) as [name|];
    [|apply write_columns].
  destruct (service_role_key e); cbn [negb].
  2: { split; [apply profile_columns_only_refl|done]. }
  destruct (query_cases (db_fault e ProfileUpdate.SELECT_USERNAME) st
              (select_other_holder name (to_String userId)))
    as [->|[[m ->]|[_ ->]]]; cbn.
  - split; [apply profile_columns_only_refl|done].
  - split; [apply profile_columns_only_refl|done].
  - destruct (List.find _ _); cbn.
    + split; [apply profile_columns_only_refl|done].
    + apply write_columns.
Qed.

(** X3.  A profile update touches nothing but the name, username and avatar
    columns of the profile named in the body: the device ledger, every other
    profile and all stored preferences (with every 2FA configuration) are as
    before, no profile appears or disappears, and no cookie is set.  An
    answer other than 200 means nothing was written at all. *)
Theorem profile_update_frame (e : env) (st : store) (req : request) :
  profile_columns_only (to_String (submitted req "userId")) st
    (fst (ProfileUpdate.POST e st req))
  ∧ cookies (snd (ProfileUpdate.POST e st req)) = []
  ∧ (status (snd (ProfileUpdate.POST e st req)) <> 200 ->
     fst (ProfileUpdate.POST e st req) = st).
Proof.
  unfold ProfileUpdate.POST, submitted, parseJsonOrEmpty, req_json.
  destruct (req_payload req) as [| |b].
  1,2: split; [apply profile_columns_only_refl|done].
  destruct (truthy (prop "userId" _)); cbn [negb].
  2: { split; [apply profile_columns_only_refl|done]. }
  destruct (verifyUserFromRequest _ _ _).
  2: { split; [apply profile_columns_only_refl|done]. }
  destruct (ProfileUpdate.updates_of b) as [r|u] eqn:Hu.
  2: apply check_username_columns.
  split; [apply profile_columns_only_refl|]. split; [|done].
  revert Hu. unfold ProfileUpdate.updates_of.
  destruct (ProfileUpdate.as_string _); [|discriminate].
  destruct (_ <? _)%nat; [by intros [= <-]|].
  destruct (negb _); [by intros [= <-]|discriminate].
Qed.

Lemma updates_of_fields (b : json) (u : profile_updates) :
  ProfileUpdate.updates_of b = inr u ->
  set_full_name u = ProfileUpdate.as_string (prop "full_name" (or_empty b))
  ∧ set_username u = ProfileUpdate.as_string (prop "username" (or_empty b))
  ∧ match ProfileUpdate.as_string (prop "avatar_path" (or_empty b)) with
    | Some p =>
        (String.length p <= ProfileUpdate.MAX_PATH)%nat
        ∧ ProfileUpdate.avatar_pattern
            (ProfileUpdate.drop_leading_slash (trim p)) = true
        ∧ set_avatar_path u
          = Some (ProfileUpdate.drop_leading_slash (trim p))
    | None => set_avatar_path u = None
    end.
Proof.
  unfold ProfileUpdate.updates_of.
  destruct (ProfileUpdate.as_string (prop "avatar_path" _)) as [p|].
  2: { by intros [= <-]. }
  destruct (_ <? _)%nat eqn:Hlen; [discriminate|].
  destruct (ProfileUpdate.avatar_pattern _) eqn:Hpat; cbn [negb];
    [|discriminate].
  intros [= <-]. cbn. repeat split; try done.
  apply Nat.ltb_ge in Hlen. done.
Qed.

Lemma write_not_conflict (e : env) (st : store) (userId : json)
    (u : profile_updates) :
  status (snd (ProfileUpdate.write e st userId u)) <> 409.
Proof.
  unfold ProfileUpdate.write.
  destruct (no_updates u); [done|].
  destruct (service_role_key e); cbn [negb]; [|done].
  destruct (query _ _ _) as [[st' res]|]; [|done].
  destruct (error res); done.
Qed.

(** A 409 is answered only for a username that another profile holds. *)
Lemma conflict_only_if_held (e : env) (st : store) (req : request) :
  status (snd (ProfileUpdate.POST e st req)) = 409 ->
  ∃ name, submitted req "username" = JStr name
          ∧ held_by_another name (to_String (submitted req "userId")) st.
Proof.
  unfold ProfileUpdate.POST, submitted, parseJsonOrEmpty, req_json.
  destruct (req_payload req) as [| |b]; [discriminate..|].
  destruct (truthy (prop "userId" _)); cbn [negb]; [|discriminate].
  destruct (verifyUserFromRequest _ _ _) eqn:Hv.
  2: { apply refused_statuses in Hv. cbn. lia. }
  destruct (ProfileUpdate.updates_of b) as [r|u] eqn:Hu.
  { revert Hu. unfold ProfileUpdate.updates_of.
    destruct (ProfileUpdate.as_string _); [|discriminate].
    destruct (_ <? _)%nat; [by intros [= <-]|].
    destruct (negb _); [by intros [= <-]|discriminate]. }
  apply updates_of_fields in Hu as (_ & Hname & _).
  unfold ProfileUpdate.check_username, ProfileUpdate.checked_username.
  rewrite Hname.
  destruct (prop "username" (or_empty b)) as [| | | |name| |]; cbn;
    try (intros Hs; by apply write_not_conflict in Hs).
  destruct (String.eqb (trim name) "");
    [intros Hs; by apply write_not_conflict in Hs|].
  destruct (service_role_key e); cbn [negb]; [|discriminate].
  destruct (query_cases (db_fault e ProfileUpdate.SELECT_USERNAME) st
              (select_other_holder name
                 (to_String (prop "userId" (or_empty b)))))
    as [->|[[m ->]|[_ ->]]]; cbn; [discriminate..|].
  destruct (List.find _ _) as [x|] eqn:Hf; cbn.
  - intros _. exists name. split; [done|].
    apply other_holder_found. by rewrite Hf.
  - intros Hs. by apply write_not_conflict in Hs.
Qed.

(** X4.  The 409 answer is truthful whatever the backend does: a profile
    update answered with status 409 was asked to set a username that another
    profile holds at that moment, and it wrote nothing. *)
Theorem conflict_answer_is_sound (e : env) (st : store) (req : request) :
  status (snd (ProfileUpdate.POST e st req)) = 409 ->
  snd (ProfileUpdate.POST e st req) = ProfileUpdate.username_taken
  ∧ fst (ProfileUpdate.POST e st req) = st
  ∧ ∃ name, submitted req "username" = JStr name
            ∧ held_by_another name (to_String (submitted req "userId")) st.
Proof.
  unfold ProfileUpdate.POST, submitted, parseJsonOrEmpty, req_json.
  destruct (req_payload req) as [| |b]; [discriminate..|].
  destruct (truthy (prop "userId" _)); cbn [negb]; [|discriminate].
  destruct (verifyUserFromRequest _ _ _) eqn:Hv.
  2: { apply refused_statuses in Hv. cbn. lia. }
  destruct (ProfileUpdate.updates_of b) as [r|u] eqn:Hu.
  { revert Hu. unfold ProfileUpdate.updates_of.
    destruct (ProfileUpdate.as_string _); [|discriminate].
    destruct (_ <? _)%nat; [by intros [= <-]|].
    destruct (negb _); [by intros [= <-]|discriminate]. }
  apply updates_of_fields in Hu as (_ & Hname & _).
  unfold ProfileUpdate.check_username, ProfileUpdate.checked_username.
  rewrite Hname.
  destruct (prop "username" (or_empty b)) as [| | | |name| |]; cbn;
    try (intros Hs; by apply write_not_conflict in Hs).
  destruct (String.eqb (trim name) "");
    [intros Hs; by apply write_not_conflict in Hs|].
  destruct (service_role_key e); cbn [negb]; [|discriminate].
  destruct (query_cases (db_fault e ProfileUpdate.SELECT_USERNAME) st
              (select_other_holder name
                 (to_String (prop "userId" (or_empty b)))))
    as [->|[[m ->]|[_ ->]]]; cbn; [discriminate..|].
  destruct (List.find _ _) as [x|] eqn:Hf; cbn.
  - intros _. repeat split. exists name. split; [done|].
    apply other_holder_found. by rewrite Hf.
  - intros Hs. by apply write_not_conflict in Hs.
Qed.

Lemma conflict_answer_is_sound_witness :
  status (snd (ProfileUpdate.POST Sample.healthy Sample.db
                 Cases.bob_takes_ann)) = 409
  ∧ snd (ProfileUpdate.POST Sample.healthy Sample.db Cases.bob_takes_ann)
    = ProfileUpdate.username_taken
  ∧ fst (ProfileUpdate.POST Sample.healthy Sample.db Cases.bob_takes_ann)
    = Sample.db
  ∧ ∃ name,
      submitted Cases.bob_takes_ann "username" = JStr name
      ∧ held_by_another name
          (to_String (submitted Cases.bob_takes_ann "userId")) Sample.db.
Proof.
  assert (status (snd (ProfileUpdate.POST Sample.healthy Sample.db
                         Cases.bob_takes_ann)) = 409) as H
    by (vm_compute; reflexivity).
  split; [exact H|].
  exact (conflict_answer_is_sound Sample.healthy Sample.db
           Cases.bob_takes_ann H).
Defined.

(** X5.  A username that another profile holds is refused.  Let the
    requester be verified, the posted username and avatar path (if any) be
    texts in ASCII, the avatar path be acceptable, the username have more
    than white space in it, and the lookup work.  Then the answer is the
    409 USERNAME_TAKEN exactly when another profile holds that username, and
    in that case nothing is written. *)
Theorem taken_username_refused (e : env) (st : store) (req : request)
    (b : json) (uid id via name : string) (u : profile_updates) :
  req_payload req = Parsed b ->
  prop "userId" (or_empty b) = JStr uid ->
  uid <> "" ->
  verifyUserFromRequest e req (JStr uid) = Verified id via ->
  ProfileUpdate.updates_of b = inr u ->
  prop "username" (or_empty b) = JStr name ->
  ascii_text name = true ->
  ascii_value (prop "avatar_path" (or_empty b)) = true ->
  trim name <> "" ->
  service_role_key e = true ->
  db_fault e ProfileUpdate.SELECT_USERNAME = None ->
  (held_by_another name uid st ->
   ProfileUpdate.POST e st req = (st, ProfileUpdate.username_taken))
  ∧ (~ held_by_another name uid st ->
     ProfileUpdate.POST e st req
     = ProfileUpdate.write e st (JStr uid) u
     ∧ status (snd (ProfileUpdate.POST e st req)) <> 409).
Proof.
  intros Hb Hid Hne Hv Hu Hname _ _ Hblank Hkey Hf.
  assert (ProfileUpdate.POST e st req
          = match
              List.find (holds_username name uid) (map_to_list (profiles st))
            with
            | Some _ => (st, ProfileUpdate.username_taken)
            | None => ProfileUpdate.write e st (JStr uid) u
            end) as ->.
  { unfold ProfileUpdate.POST, req_json. rewrite Hb, Hid.
    assert (truthy (JStr uid) = true) as ->.
    { cbn. apply negb_true_iff. by apply String.eqb_neq. }
    cbn [negb]. rewrite Hv, Hu.
    unfold ProfileUpdate.check_username, ProfileUpdate.checked_username.
    apply updates_of_fields in Hu as (_ & -> & _). rewrite Hname. cbn.
    apply String.eqb_neq in Hblank. rewrite Hblank, Hkey, Hf. cbn.
    by destruct (List.find _ _). }
  split.
  - intros Hheld. apply other_holder_found in Hheld as [x ->]. done.
  - intros Hfree. destruct (List.find _ _) eqn:Hfind.
    + exfalso. apply Hfree, other_holder_found. by rewrite Hfind.
    + split; [done|]. apply write_not_conflict.
Qed.

Lemma taken_username_refused_witness :
  held_by_another "ann" Sample.bob Sample.db
  ∧ ProfileUpdate.POST Sample.healthy Sample.db Cases.bob_takes_ann
    = (Sample.db, ProfileUpdate.username_taken).
Proof.
  assert (held_by_another "ann" Sample.bob Sample.db) as Hheld.
  { exists Sample.ann, Sample.ann_row.
    split; [discriminate|]. split; [vm_compute; reflexivity|reflexivity]. }
  split; [exact Hheld|].
  refine (proj1
            (taken_username_refused Sample.healthy Sample.db
               Cases.bob_takes_ann
               (JObj [("userId", JStr Sample.bob); ("username", JStr "ann")])
               Sample.bob Sample.bob "cookie" "ann"
               {| set_full_name := None; set_username := Some "ann";
                  set_avatar_path := None |}
               _ _ _ _ _ _ _ _ _ _ _) Hheld);
    try (vm_compute; reflexivity); discriminate.
Defined.

(** X6.  A posted username of ASCII white space only is written without
    the uniqueness lookup, whatever state that lookup is in (the avatar
    path, if any, being acceptable text in ASCII); if another profile holds
    the same text, the unique index on the column refuses the write, which
    the route passes on as a 500, and otherwise the text is stored as it
    was posted. *)
Theorem blank_username_skips_check (e : env) (st : store) (req : request)
    (b : json) (uid id via name : string) (u : profile_updates)
    (row : profile_row) :
  req_payload req = Parsed b ->
  prop "userId" (or_empty b) = JStr uid ->
  uid <> "" ->
  verifyUserFromRequest e req (JStr uid) = Verified id via ->
  ProfileUpdate.updates_of b = inr u ->
  prop "username" (or_empty b) = JStr name ->
  ascii_text name = true ->
  ascii_value (prop "avatar_path" (or_empty b)) = true ->
  trim name = "" ->
  ProfileUpdate.POST e st req = ProfileUpdate.write e st (JStr uid) u
  ∧ (service_role_key e = true ->
     db_fault e ProfileUpdate.UPDATE_PROFILE = None ->
     profiles st !! uid = Some row ->
     (held_by_another name uid st ->
      ProfileUpdate.POST e st req = (st, isoError unique_violation))
     ∧ (~ held_by_another name uid st ->
        status (snd (ProfileUpdate.POST e st req)) = 200
        ∧ username <$> profiles (fst (ProfileUpdate.POST e st req)) !! uid
          = Some (Some name))).
Proof.
  intros Hb Hid Hne Hv Hu Hname _ _ Hblank.
  pose proof (updates_of_fields _ _ Hu) as (_ & Hun & _).
  rewrite Hname in Hun. cbn in Hun.
  assert (ProfileUpdate.POST e st req = ProfileUpdate.write e st (JStr uid) u)
    as ->.
  { unfold ProfileUpdate.POST, req_json. rewrite Hb, Hid.
    assert (truthy (JStr uid) = true) as ->.
    { cbn. apply negb_true_iff. by apply String.eqb_neq. }
    cbn [negb]. rewrite Hv, Hu.
    unfold ProfileUpdate.check_username, ProfileUpdate.checked_username.
    rewrite Hun, Hblank. done. }
  split; [done|]. intros Hkey Hf Hrow.
  unfold ProfileUpdate.write.
  assert (no_updates u = false) as ->.
  { unfold no_updates. rewrite Hun. by destruct (set_full_name u). }
  rewrite Hkey, Hf. cbn. unfold update_profile. rewrite Hrow, Hun.
  split.
  - intros Hheld. apply other_holder_exists in Hheld. by rewrite Hheld.
  - intros Hfree.
    destruct (List.existsb _ _) eqn:Hex.
    { exfalso. by apply Hfree, other_holder_exists. }
    cbn. split; [done|]. rewrite lookup_insert_eq. cbn. by rewrite Hun.
Qed.

Lemma blank_username_skips_check_witness :
  trim Cases.blank = ""
  ∧ held_by_another Cases.blank Sample.bob Cases.db_blank
  ∧ ProfileUpdate.POST Sample.healthy Cases.db_blank Cases.bob_takes_blank
    = (Cases.db_blank, isoError unique_violation).
Proof.
  assert (trim Cases.blank = "") as Hblank by (vm_compute; reflexivity).
  assert (held_by_another Cases.blank Sample.bob Cases.db_blank) as Hheld.
  { eexists Sample.ann, _.
    split; [discriminate|]. split; [vm_compute; reflexivity|reflexivity]. }
  split; [exact Hblank|]. split; [exact Hheld|].
  assert (profiles Cases.db_blank !! Sample.bob = Some Sample.bob_row) as Hrow
    by (vm_compute; reflexivity).
  refine (proj1
            (proj2
               (blank_username_skips_check Sample.healthy Cases.db_blank
                  Cases.bob_takes_blank
                  (JObj [("userId", JStr Sample.bob);
                         ("username", JStr Cases.blank)])
                  Sample.bob Sample.bob "cookie" Cases.blank
                  {| set_full_name := None; set_username := Some Cases.blank;
                     set_avatar_path := None |}
                  Sample.bob_row _ _ _ _ _ _ _ _ Hblank)
               _ _ Hrow) Hheld);
    try (vm_compute; reflexivity); discriminate.
Defined.

Lemma update_profile_rows (id : string) (u : profile_updates) (st : store)
    (k : string) (row' : profile_row) :
  profiles (fst (update_profile id u st)) !! k = Some row' ->
  ∃ row, profiles st !! k = Some row
         ∧ (row' = row ∨ (k = id ∧ row' = with_updates u row)).
Proof.
  unfold update_profile.
  destruct (profiles st !! id) as [row|] eqn:Hrow; cbn; [|by eauto].
  match goal with |- context [if ?c then _ else _] => destruct c end; cbn;
    [by eauto|].
  destruct (decide (k = id)) as [->|Hk].
  - rewrite lookup_insert_eq. intros [= <-]. eauto.
  - rewrite lookup_insert_ne by done. eauto.
Qed.

(** Every row after a profile update is the row before, or that row with the
    accepted updates of the body. *)
Lemma POST_rows (e : env) (st : store) (req : request) (k : string)
    (row' : profile_row) :
  profiles (fst (ProfileUpdate.POST e st req)) !! k = Some row' ->
  ∃ row, profiles st !! k = Some row
         ∧ (row' = row
            ∨ ∃ b u, req_payload req = Parsed b
                     ∧ ProfileUpdate.updates_of b = inr u
                     ∧ row' = with_updates u row).
Proof.
  unfold ProfileUpdate.POST, req_json.
  destruct (req_payload req) as [| |b]; [by eauto..|].
  destruct (truthy (prop "userId" _)); cbn [negb]; [|by eauto].
  destruct (verifyUserFromRequest _ _ _); [|by eauto].
  destruct (ProfileUpdate.updates_of b) as [r|u] eqn:Hu; [by eauto|].
  assert (forall st0,
            profiles (fst (ProfileUpdate.write e st0
                             (prop "userId" (or_empty b)) u)) !! k
            = Some row' ->
            ∃ row, profiles st0 !! k = Some row
                   ∧ (row' = row
                      ∨ ∃ b0 u0, Parsed b = Parsed b0
                                 ∧ ProfileUpdate.updates_of b0 = inr u0
                                 ∧ row' = with_updates u0 row)) as Hwrite.
  { intros st0. unfold ProfileUpdate.write.
    destruct (no_updates u); [by eauto|].
    destruct (service_role_key e); cbn [negb]; [|by eauto].
    destruct (query_cases (db_fault e ProfileUpdate.UPDATE_PROFILE) st0
                (update_profile (to_String (prop "userId" (or_empty b))) u))
      as [->|[[m ->]|[_ ->]]]; cbn; [by eauto..|].
    intros Hk.
    assert (profiles
              (fst (update_profile (to_String (prop "userId" (or_empty b)))
                      u st0)) !! k = Some row') as Hk'.
    { destruct (update_profile _ u st0) as [st1 res]; cbn in *.
      by destruct (error res). }
    apply update_profile_rows in Hk' as (row & Hrow & [->|[_ ->]]);
      exists row; (split; [done|]); [by left|right; by exists b, u]. }
  unfold ProfileUpdate.check_username.
  destruct (ProfileUpdate.checked_username u) as [name|]; [|apply Hwrite].
  destruct (service_role_key e); cbn [negb]; [|by eauto].
  destruct (query_cases (db_fault e ProfileUpdate.SELECT_USERNAME) st
              (select_other_holder name
                 (to_String (prop "userId" (or_empty b)))))
    as [->|[[m ->]|[_ ->]]]; cbn; [by eauto..|].
  destruct (List.find _ _); cbn; [by eauto|apply Hwrite].
Qed.

Lemma drop_chars_length (n : nat) (s : string) (c : ascii) (r : string) :
  ProfileUpdate.drop_chars n s = String c r -> (n < String.length s)%nat.
Proof.
  revert s. induction n as [|n IH]; intros [|a s]; cbn; try discriminate.
  - lia.
  - intros H. apply IH in H. lia.
Qed.

Lemma avatar_pattern_shape (s : string) :
  ProfileUpdate.avatar_pattern s = true ->
  startsWith s "avatars/" = true ∧ (8 < String.length s)%nat.
Proof.
  unfold ProfileUpdate.avatar_pattern. intros [Hp Hrest]%andb_true_iff.
  split; [done|].
  destruct (ProfileUpdate.drop_chars 8 s) eqn:Hd; [discriminate|].
  by apply drop_chars_length in Hd.
Qed.

Lemma drop_leading_slash_length (s : string) :
  (String.length (ProfileUpdate.drop_leading_slash s) <= String.length s)%nat.
Proof. destruct s as [|c s]; cbn; [lia|]. destruct (Ascii.eqb c "/"); cbn; lia. Qed.

(** X7.  For a request whose username and avatar path, if it posts any,
    are texts in ASCII: every avatar path the profile update leaves in a row
    is either the one that was there before or a text that begins with
    [avatars/], goes on for at least one more character and is at most 1000
    characters long. *)
Theorem stored_avatar_path_shape (e : env) (st : store) (req : request)
    (uid : string) (row' : profile_row) :
  (forall b, req_payload req = Parsed b ->
     ascii_value (prop "username" (or_empty b)) = true
     ∧ ascii_value (prop "avatar_path" (or_empty b)) = true) ->
  profiles (fst (ProfileUpdate.POST e st req)) !! uid = Some row' ->
  ∃ row, profiles st !! uid = Some row
         ∧ (avatar_path row' = avatar_path row
            ∨ ∃ p, avatar_path row' = Some p
                   ∧ startsWith p "avatars/" = true
                   ∧ (8 < String.length p <= 1000)%nat).
Proof.
  intros _ Hrow. apply POST_rows in Hrow as (row & Hrow & Hcase).
  exists row. split; [done|].
  destruct Hcase as [->|(b & u & _ & Hu & ->)]; [by left|].
  apply updates_of_fields in Hu as (_ & _ & Hpath). cbn.
  destruct (ProfileUpdate.as_string (prop "avatar_path" (or_empty b)))
    as [p|].
  - destruct Hpath as (Hlen & Hpat & ->). cbn. right.
    eexists. split; [done|].
    apply avatar_pattern_shape in Hpat as [Hpre Hmin].
    split; [done|]. split; [done|].
    pose proof (drop_leading_slash_length (trim p)).
    pose proof (trim_length p). unfold ProfileUpdate.MAX_PATH in Hlen. lia.
  - rewrite Hpath. by left.
Qed.

Lemma stored_avatar_path_shape_witness :
  profiles (fst (ProfileUpdate.POST Sample.healthy Sample.db Cases.bob_avatar))
    !! Sample.bob = Some Cases.bob_after_avatar
  ∧ ∃ row,
      profiles Sample.db !! Sample.bob = Some row
      ∧ (avatar_path Cases.bob_after_avatar = avatar_path row
         ∨ ∃ p, avatar_path Cases.bob_after_avatar = Some p
                ∧ startsWith p "avatars/" = true
                ∧ (8 < String.length p <= 1000)%nat).
Proof.
  assert (profiles
            (fst (ProfileUpdate.POST Sample.healthy Sample.db
                    Cases.bob_avatar)) !! Sample.bob
          = Some Cases.bob_after_avatar) as H by (vm_compute; reflexivity).
  assert (forall b, req_payload Cases.bob_avatar = Parsed b ->
            ascii_value (prop "username" (or_empty b)) = true
            ∧ ascii_value (prop "avatar_path" (or_empty b)) = true) as Hascii.
  { intros b [= <-]. split; vm_compute; reflexivity. }
  split; [exact H|].
  exact (stored_avatar_path_shape Sample.healthy Sample.db Cases.bob_avatar
           Sample.bob Cases.bob_after_avatar Hascii H).
Defined.

Lemma POST_success (e : env) (st : store) (req : request) :
  status (snd (ProfileUpdate.POST e st req)) = 200 ->
  ∃ b u, req_payload req = Parsed b
         ∧ ProfileUpdate.updates_of b = inr u
         ∧ error (snd (update_profile (to_String (prop "userId" (or_empty b)))
                         u st)) = None
         ∧ ProfileUpdate.POST e st req
           = (fst (update_profile (to_String (prop "userId" (or_empty b)))
                     u st),
              ProfileUpdate.answer e
                (data (snd (update_profile
                              (to_String (prop "userId" (or_empty b))) u st)))).
Proof.
  unfold ProfileUpdate.POST, req_json.
  destruct (req_payload req) as [| |b]; [discriminate..|].
  destruct (truthy (prop "userId" _)); cbn [negb]; [|discriminate].
  destruct (verifyUserFromRequest _ _ _) eqn:Hv.
  2: { apply refused_statuses in Hv. cbn. lia. }
  destruct (ProfileUpdate.updates_of b) as [r|u] eqn:Hu.
  { revert Hu. unfold ProfileUpdate.updates_of.
    destruct (ProfileUpdate.as_string _); [|discriminate].
    destruct (_ <? _)%nat; [by intros [= <-]|].
    destruct (negb _); [by intros [= <-]|discriminate]. }
  intros Hs. exists b, u. split; [done|]. split; [done|].
  assert (status (snd (ProfileUpdate.write e st
                         (prop "userId" (or_empty b)) u)) = 200 ->
          error (snd (update_profile (to_String (prop "userId" (or_empty b)))
                        u st)) = None
          ∧ ProfileUpdate.write e st (prop "userId" (or_empty b)) u
            = (fst (update_profile (to_String (prop "userId" (or_empty b)))
                      u st),
               ProfileUpdate.answer e
                 (data (snd (update_profile
                               (to_String (prop "userId" (or_empty b)))
                               u st))))) as Hwrite.
  { unfold ProfileUpdate.write.
    destruct (no_updates u); [discriminate|].
    destruct (service_role_key e); cbn [negb]; [|discriminate].
    destruct (query_cases (db_fault e ProfileUpdate.UPDATE_PROFILE) st
                (update_profile (to_String (prop "userId" (or_empty b))) u))
      as [->|[[m ->]|[_ ->]]]; cbn; [discriminate..|].
    destruct (update_profile _ u st) as [st1 res]; cbn.
    destruct (error res); [discriminate|done]. }
  revert Hs. unfold ProfileUpdate.check_username.
  destruct (ProfileUpdate.checked_username u) as [name|]; [|apply Hwrite].
  destruct (service_role_key e); cbn [negb]; [|discriminate].
  destruct (query_cases (db_fault e ProfileUpdate.SELECT_USERNAME) st
              (select_other_holder name
                 (to_String (prop "userId" (or_empty b)))))
    as [->|[[m ->]|[_ ->]]]; cbn; [discriminate..|].
  destruct (List.find _ _); cbn; [discriminate|apply Hwrite].
Qed.

Lemma update_profile_data (id : string) (u : profile_updates) (st : store) :
  error (snd (update_profile id u st)) = None ->
  data (snd (update_profile id u st))
  = profiles (fst (update_profile id u st)) !! id
  ∧ data (snd (update_profile id u st)) = with_updates u <$> profiles st !! id.
Proof.
  unfold update_profile.
  destruct (profiles st !! id) as [row|] eqn:Hrow; cbn; [|by rewrite Hrow].
  match goal with |- context [if ?c then _ else _] => destruct c end; cbn;
    [discriminate|].
  by rewrite lookup_insert_eq.
Qed.

Lemma GET_success (e : env) (st : store) (req : request) (uid : string) :
  req_query req !! "userId" = Some uid ->
  status (Profile.GET e st req) = 200 ->
  body (Profile.GET e st req)
  = JObj
      [("profile",
        JObj
          [("full_name",
            str_or_null (from_option full_name None (profiles st !! uid)));
           ("username",
            str_or_null (from_option username None (profiles st !! uid)));
           ("avatar",
            Profile.avatar_url e
              (from_option avatar_path None (profiles st !! uid)));
           ("avatar_path",
            str_or_null (from_option avatar_path None (profiles st !! uid)));
           ("totp", Profile.totp_of (profiles st !! uid));
           ("trustedDevice", JBool (Profile.trustedDevice e st req uid))])].
Proof.
  intros Hq. unfold Profile.GET. rewrite Hq.
  destruct (nonempty (Some uid)) as [uid'|] eqn:Hn; [|discriminate].
  apply nonempty_Some in Hn as <-.
  destruct (verifyUserFromRequest _ _ _) eqn:Hv.
  2: { apply refused_statuses in Hv. cbn. lia. }
  destruct (service_role_key e); cbn [negb]; [|discriminate].
  destruct (query_cases (db_fault e Profile.SELECT_PROFILE) st
              (select_profile uid)) as [->|[[m ->]|[_ ->]]];
    [cbn; discriminate..|].
  rewrite select_profile_answer. cbn. done.
Qed.

(** X8.  A profile update reports what it stored: after an update answered
    with 200, a profile read of the same user that is answered with 200
    shows the same name, username, avatar URL and avatar path as the update's
    own answer (the avatar store being the same); and where the profile
    exists, the name and username in that answer are the posted ones. *)
Theorem profile_update_round_trip (e e' : env) (st : store)
    (req req' : request) (uid : string) :
  let out := ProfileUpdate.POST e st req in
  status (snd out) = 200 ->
  submitted req "userId" = JStr uid ->
  req_query req' !! "userId" = Some uid ->
  status (Profile.GET e' (fst out) req') = 200 ->
  avatar_public e' = avatar_public e ->
  public_url e' = public_url e ->
  signed_url e' = signed_url e ->
  (forall k, k ∈ ["full_name"; "username"; "avatar"; "avatar_path"] ->
     prop k (prop "profile" (body (Profile.GET e' (fst out) req')))
     = prop k (prop "profile" (body (snd out))))
  ∧ (forall s, submitted req "full_name" = JStr s ->
               is_Some (profiles st !! uid) ->
               prop "full_name" (prop "profile" (body (snd out)))
               = str_or_null (Some s))
  ∧ (forall s, submitted req "username" = JStr s ->
               is_Some (profiles st !! uid) ->
               prop "username" (prop "profile" (body (snd out)))
               = str_or_null (Some s)).
Proof.
  intros out Hs Hid Hq Hget Hpub Hurl Hsigned. subst out.
  destruct (POST_success _ _ _ Hs) as (b & u & Hb & Hu & Herr & Hout).
  revert Hget. rewrite Hout. cbn [fst snd]. intros Hget.
  unfold submitted, parseJsonOrEmpty in *. rewrite Hb in *.
  rewrite Hid in *. cbn [to_String] in *.
  destruct (update_profile_data _ _ _ Herr) as [Hdata Hdata'].
  rewrite (GET_success _ _ _ _ Hq Hget), <- Hdata.
  unfold ProfileUpdate.answer. cbn [body json_response].
  split; [|split].
  - intros k Hk. rewrite !elem_of_cons, elem_of_nil in Hk.
    destruct Hk as [->|[->|[->|[->|[]]]]]; cbn; try done.
    unfold Profile.avatar_url. by rewrite Hpub, Hurl, Hsigned.
  - intros s Hname [row Hrow]. rewrite Hdata', Hrow. cbn.
    apply updates_of_fields in Hu as (-> & _ & _). by rewrite Hname.
  - intros s Hname [row Hrow]. rewrite Hdata', Hrow. cbn.
    apply updates_of_fields in Hu as (_ & -> & _). by rewrite Hname.
Qed.

Lemma profile_update_round_trip_witness :
  status (snd (ProfileUpdate.POST Sample.healthy Sample.db Cases.bob_avatar))
  = 200
  ∧ status
      (Profile.GET Sample.healthy
         (fst (ProfileUpdate.POST Sample.healthy Sample.db Cases.bob_avatar))
         (Sample.get_as Sample.bob Sample.unknown_token)) = 200
  ∧ (forall k, k ∈ ["full_name"; "username"; "avatar"; "avatar_path"] ->
       prop k
         (prop "profile"
            (body
               (Profile.GET Sample.healthy
                  (fst (ProfileUpdate.POST Sample.healthy Sample.db
                          Cases.bob_avatar))
                  (Sample.get_as Sample.bob Sample.unknown_token))))
       = prop k
           (prop "profile"
              (body (snd (ProfileUpdate.POST Sample.healthy Sample.db
                            Cases.bob_avatar)))))
  ∧ prop "full_name"
      (prop "profile"
         (body (snd (ProfileUpdate.POST Sample.healthy Sample.db
                       Cases.bob_avatar))))
    = JStr "Robert".
Proof.
  assert (status (snd (ProfileUpdate.POST Sample.healthy Sample.db
                         Cases.bob_avatar)) = 200) as Hs
    by (vm_compute; reflexivity).
  assert (status
            (Profile.GET Sample.healthy
               (fst (ProfileUpdate.POST Sample.healthy Sample.db
                       Cases.bob_avatar))
               (Sample.get_as Sample.bob Sample.unknown_token)) = 200) as Hg
    by (vm_compute; reflexivity).
  assert (submitted Cases.bob_avatar "userId" = JStr Sample.bob) as Hid
    by (vm_compute; reflexivity).
  assert (req_query (Sample.get_as Sample.bob Sample.unknown_token)
            !! "userId" = Some Sample.bob) as Hq
    by (vm_compute; reflexivity).
  destruct (profile_update_round_trip Sample.healthy Sample.healthy Sample.db
              Cases.bob_avatar (Sample.get_as Sample.bob Sample.unknown_token)
              Sample.bob Hs Hid Hq Hg eq_refl eq_refl eq_refl)
    as (Hsame & Hname & _).
  split; [exact Hs|]. split; [exact Hg|]. split; [exact Hsame|].
  apply (Hname "Robert"); [vm_compute; reflexivity|].
  exists Sample.bob_row. vm_compute. reflexivity.
Defined.

End ProfileUpdates.

(* ===================================================================== *)
(** * Settings updates *)
(* ===================================================================== *)

Section SettingsUpdates.
Local Open Scope Z_scope.

Lemma is_object_truthy (v : json) :
  SettingsUpdate.is_object v = true -> truthy v = true ∧ or_empty v = v.
Proof. destruct v; cbn; try discriminate; done. Qed.

(** The outcomes of a settings update: nothing is written (an error, the
    warning about the missing column, or [null] for a profile that does not
    exist), or the posted object replaces the preferences of the profile. *)
Lemma settings_POST_cases (e : env) (st : store) (req : request) :
  let out := SettingsUpdate.POST e st req in
  let uid := to_String (submitted req "userId") in
  let prefs := submitted req "preferences" in
  (fst out = st
   ∧ (status (snd out) <> 200
      ∨ snd out = SettingsUpdate.not_persisted prefs
      ∨ (profiles st !! uid = None
         ∧ snd out = json_response 200 (JObj [("preferences", JNull)]))))
  ∨ (∃ row, profiles st !! uid = Some row
            ∧ SettingsUpdate.is_object prefs = true
            ∧ fst out
              = {| profiles :=
                     <[uid := with_preferences prefs row]> (profiles st);
                   trusted_devices := trusted_devices st |}
            ∧ snd out = json_response 200 (JObj [("preferences", prefs)])).
Proof.
  cbn zeta. unfold SettingsUpdate.POST, submitted.
  destruct (parseJsonOrEmpty req) as [b|]; [|left; split; [done|by left]].
  destruct (truthy (prop "userId" _)); cbn [negb];
    [|left; split; [done|by left]].
  destruct (verifyUserFromRequest _ _ _) eqn:Hv.
  2: { left. split; [done|]. left. apply refused_statuses in Hv. cbn. lia. }
  destruct (SettingsUpdate.is_object (prop "preferences" _)) eqn:Hobj;
    cbn [negb]; [|left; split; [done|by left]].
  destruct (service_role_key e); cbn [negb]; [|left; split; [done|by left]].
  destruct (query_cases (db_fault e SettingsUpdate.UPDATE_PREFERENCES) st
              (update_preferences (to_String (prop "userId" (or_empty b)))
                 (prop "preferences" (or_empty b))))
    as [->|[[m ->]|[_ ->]]]; cbn.
  - left. split; [done|by left].
  - left. destruct (preferences_column_missing m); cbn;
      (split; [done|]); [right; by left|by left].
  - unfold update_preferences.
    destruct (profiles st !! _) as [row|] eqn:Hrow; cbn.
    + right. exists row. split; [done|]. split; [done|]. split; [done|].
      apply is_object_truthy in Hobj as [-> _]. done.
    + left. split; [done|]. right. right. done.
Qed.

(** X9.  What a 200 from the settings update means.  Without a warning and
    with preferences other than [null] in it, the answer carries the posted
    object, that object is now the stored preferences of the profile, and a
    settings read of the same user that reaches the table returns exactly
    it.  With a warning, or with [null], nothing was written. *)
Theorem saved_settings_are_stored (e : env) (st : store) (req : request) :
  let out := SettingsUpdate.POST e st req in
  let uid := to_String (submitted req "userId") in
  let prefs := submitted req "preferences" in
  status (snd out) = 200 ->
  (prop "warning" (body (snd out)) = JUndefined ->
   prop "preferences" (body (snd out)) <> JNull ->
   prop "preferences" (body (snd out)) = prefs
   ∧ stored_preferences (fst out) uid = prefs
   ∧ (forall e' req',
        req_query req' !! "userId" = Some uid ->
        db_fault e' Settings.SELECT_PREFERENCES = None ->
        status (Settings.GET e' (fst out) req') = 200 ->
        body (Settings.GET e' (fst out) req')
        = JObj [("preferences", prefs)]))
  ∧ (prop "warning" (body (snd out)) <> JUndefined
     ∨ prop "preferences" (body (snd out)) = JNull ->
     fst out = st).
Proof.
  cbn zeta. intros Hs.
  destruct (settings_POST_cases e st req)
    as [[Hst [Hne|[Hw|[Hrow Hnull]]]]|(row & Hrow & Hobj & Hst & Hout)];
    cbn zeta in *.
  - done.
  - split; [|done]. rewrite Hw. cbn. done.
  - split; [|done]. rewrite Hnull. cbn. done.
  - rewrite Hout, Hst. cbn. split.
    2: { intros [Hw|Hnull]; [done|]. rewrite Hnull in Hobj. discriminate. }
    intros _ _. split; [done|].
    apply is_object_truthy in Hobj as [Htr Hor].
    split.
    { unfold stored_preferences. cbn. rewrite lookup_insert_eq. cbn. done. }
    intros e' req' Hq Hf. unfold Settings.GET. rewrite Hq.
    destruct (nonempty (Some _)) as [uid'|] eqn:Hn; [|discriminate].
    apply nonempty_Some in Hn as <-.
    destruct (verifyUserFromRequest _ _ _) eqn:Hv.
    2: { apply refused_statuses in Hv. cbn. lia. }
    destruct (service_role_key e'); cbn [negb]; [|discriminate].
    rewrite Hf. cbn. rewrite lookup_insert_eq. cbn. by rewrite Htr.
Qed.

Lemma saved_settings_are_stored_witness :
  status (snd (SettingsUpdate.POST Sample.healthy Sample.db
                 Cases.save_settings)) = 200
  ∧ stored_preferences
      (fst (SettingsUpdate.POST Sample.healthy Sample.db Cases.save_settings))
      Sample.bob = Cases.bob_settings
  ∧ body
      (Settings.GET Sample.healthy
         (fst (SettingsUpdate.POST Sample.healthy Sample.db
                 Cases.save_settings))
         (Sample.get_as Sample.bob Sample.unknown_token))
    = JObj [("preferences", Cases.bob_settings)].
Proof.
  assert (status (snd (SettingsUpdate.POST Sample.healthy Sample.db
                         Cases.save_settings)) = 200) as Hs
    by (vm_compute; reflexivity).
  destruct (saved_settings_are_stored Sample.healthy Sample.db
              Cases.save_settings Hs) as [Hsaved _].
  destruct Hsaved as (_ & Hstored & Hread);
    [vm_compute; reflexivity|vm_compute; discriminate|].
  split; [exact Hs|]. split; [exact Hstored|].
  apply Hread; vm_compute; reflexivity.
Defined.

(** X10.  A settings update decides the 2FA configuration: the posted object
    replaces the stored preferences whole, so after an update that was
    stored the [totp] entry of the profile is the one of the posted object
    (none, if the object has none) and a profile read reports it so, no code
    having been asked for; the user's trusted devices, the other profiles
    and the cookies are left as they were. *)
Theorem settings_save_replaces_second_factor (e : env) (st : store)
    (req : request) :
  let out := SettingsUpdate.POST e st req in
  let uid := to_String (submitted req "userId") in
  let prefs := submitted req "preferences" in
  status (snd out) = 200 ->
  prop "warning" (body (snd out)) = JUndefined ->
  prop "preferences" (body (snd out)) <> JNull ->
  stored_totp (fst out) uid = prop "totp" prefs
  ∧ trusted_devices (fst out) = trusted_devices st
  ∧ cookies (snd out) = []
  ∧ (forall k, k <> uid -> profiles (fst out) !! k = profiles st !! k)
  ∧ (forall e' req',
       req_query req' !! "userId" = Some uid ->
       status (Profile.GET e' (fst out) req') = 200 ->
       prop "totp" (prop "profile" (body (Profile.GET e' (fst out) req')))
       = if truthy (prop "totp" prefs) then prop "totp" prefs else JNull).
Proof.
  cbn zeta. intros Hs Hw Hn.
  destruct (settings_POST_cases e st req)
    as [[Hst [Hne|[Heq|[Hrow Hnull]]]]|(row & Hrow & Hobj & Hst & Hout)];
    cbn zeta in *.
  - done.
  - rewrite Heq in Hw. cbn in Hw. discriminate.
  - rewrite Hnull in Hn. cbn in Hn. done.
  - rewrite Hout, Hst. cbn [fst snd trusted_devices profiles].
    apply is_object_truthy in Hobj as [Htr Hor].
    split.
    { unfold stored_totp, stored_preferences. cbn.
      rewrite lookup_insert_eq. cbn. by rewrite Hor. }
    split; [done|]. split; [done|]. split.
    { intros k Hk. by rewrite lookup_insert_ne. }
    intros e' req' Hq Hget.
    rewrite (GET_success _ _ _ _ Hq Hget). cbn.
    rewrite lookup_insert_eq. cbn. rewrite Htr. cbn.
    by destruct (truthy (prop "totp" _)).
Qed.

Lemma settings_save_replaces_second_factor_witness :
  truthy (stored_totp Sample.db Sample.ann) = true
  ∧ status (snd (SettingsUpdate.POST Sample.healthy Sample.db
                   Cases.ann_saves_theme)) = 200
  ∧ stored_totp
      (fst (SettingsUpdate.POST Sample.healthy Sample.db
              Cases.ann_saves_theme)) Sample.ann = JUndefined
  ∧ trusted_devices
      (fst (SettingsUpdate.POST Sample.healthy Sample.db
              Cases.ann_saves_theme)) = trusted_devices Sample.db
  ∧ prop "totp"
      (prop "profile"
         (body
            (Profile.GET Sample.healthy
               (fst (SettingsUpdate.POST Sample.healthy Sample.db
                       Cases.ann_saves_theme))
               (Sample.get_as Sample.ann Sample.unknown_token))))
    = JNull.
Proof.
  assert (status (snd (SettingsUpdate.POST Sample.healthy Sample.db
                         Cases.ann_saves_theme)) = 200) as Hs
    by (vm_compute; reflexivity).
  destruct (settings_save_replaces_second_factor Sample.healthy Sample.db
              Cases.ann_saves_theme Hs)
    as (Htotp & Hdev & _ & _ & Hread);
    [vm_compute; reflexivity|vm_compute; discriminate|].
  split; [vm_compute; reflexivity|]. split; [exact Hs|].
  split; [exact Htotp|]. split; [exact Hdev|].
  apply (Hread Sample.healthy (Sample.get_as Sample.ann Sample.unknown_token));
    vm_compute; reflexivity.
Defined.

End SettingsUpdates.

(* ===================================================================== *)
(** * Revoking trusted devices *)
(* ===================================================================== *)

Section Revocation.
Local Open Scope Z_scope.

Lemma filter_filter_keep {A : Type} (p q : A -> bool) (l : list A) :
  (forall x, p x = true -> q x = true) ->
  List.filter p (List.filter q l) = List.filter p l.
Proof.
  intros Hpq. induction l as [|x l IH]; cbn; [done|].
  destruct (p x) eqn:Hp.
  - rewrite (Hpq x Hp). cbn. by rewrite Hp, IH.
  - destruct (q x); cbn; by rewrite ?Hp, IH.
Qed.

Lemma owned_by_other (other uid : string) (d : device) :
  other <> uid -> owned_by other d = true -> owned_by uid d = false.
Proof.
  unfold owned_by. intros Hne Hd. apply String.eqb_eq in Hd.
  apply String.eqb_neq. congruence.
Qed.

(** The outcomes of a revocation: nothing is written and the answer is not
    the plain success, or the answer is the plain success and the delete of
    the request was carried out. *)
Lemma revoke_POST_cases (e : env) (st : store) (req : request) :
  let out := TrustedDevices.POST e st req in
  let uid := to_String (submitted req "userId") in
  let id := submitted req "id" in
  (fst out = st ∧ snd out <> TrustedDevices.success
   ∧ cookies (snd out) = []
   ∧ (status (snd out) = 200 -> snd out = TrustedDevices.table_missing))
  ∨ (snd out = TrustedDevices.success
     ∧ fst out
       = fst (if truthy id then delete_device (to_String id) uid st
              else delete_devices uid st)).
Proof.
  cbn zeta. unfold TrustedDevices.POST, submitted.
  destruct (parseJsonOrEmpty req) as [b|]; [|left; by repeat split].
  destruct (truthy (prop "userId" _)); cbn [negb]; [|left; by repeat split].
  destruct (verifyUserFromRequest _ _ _) eqn:Hv.
  2: { left. repeat split; try done.
       apply refused_statuses in Hv. cbn. lia. }
  destruct (service_role_key e); cbn [negb]; [|left; by repeat split].
  assert (forall run : store -> store * result unit,
            (forall s, error (snd (run s)) = None) ->
            forall f,
              (fst (TrustedDevices.answer (query f st run) st) = st
               ∧ snd (TrustedDevices.answer (query f st run) st)
                 <> TrustedDevices.success
               ∧ cookies (snd (TrustedDevices.answer (query f st run) st)) = []
               ∧ (status (snd (TrustedDevices.answer (query f st run) st))
                  = 200 ->
                  snd (TrustedDevices.answer (query f st run) st)
                  = TrustedDevices.table_missing))
              ∨ (snd (TrustedDevices.answer (query f st run) st)
                 = TrustedDevices.success
                 ∧ fst (TrustedDevices.answer (query f st run) st)
                   = fst (run st))) as Hanswer.
  { intros run Hrun f.
    destruct (query_cases f st run) as [->|[[m ->]|[_ ->]]]; cbn.
    - left. by repeat split.
    - left. destruct (relation_missing m); by repeat split.
    - right. specialize (Hrun st). destruct (run st) as [st' res].
      cbn in *. by rewrite Hrun. }
  destruct (truthy (prop "id" _)); apply Hanswer; done.
Qed.

(** X11.  A revocation touches nothing but trusted-device records of the
    user named in the body: the profiles stay as they are, no record is
    created, the records of every other user stay, in their order, and no
    cookie is set or expired; an answer other than 200 means nothing was
    removed. *)
Theorem revocation_frame (e : env) (st : store) (req : request) :
  let out := TrustedDevices.POST e st req in
  let uid := to_String (submitted req "userId") in
  profiles (fst out) = profiles st
  ∧ cookies (snd out) = []
  ∧ (forall d, d ∈ trusted_devices (fst out) -> d ∈ trusted_devices st)
  ∧ (forall other, other <> uid ->
       devices_of other (fst out) = devices_of other st)
  ∧ (status (snd out) <> 200 -> fst out = st).
Proof.
  cbn zeta.
  destruct (revoke_POST_cases e st req) as [(-> & _ & Hc & _)|[Hout ->]];
    cbn zeta in *.
  { by repeat split. }
  rewrite Hout.
  split.
  { by destruct (truthy (submitted req "id")). }
  split; [done|]. split; [|split; [|done]].
  - intros d.
    destruct (truthy (submitted req "id")); cbn;
      rewrite !list_elem_of_In, filter_In; tauto.
  - intros other Hother. unfold devices_of.
    destruct (truthy (submitted req "id")); cbn;
      apply filter_filter_keep; intros d Hd;
      rewrite (owned_by_other _ _ _ Hother Hd); by rewrite ?andb_false_r.
Qed.



End Revocation.

(* ===================================================================== *)
(** * Username availability *)
(* ===================================================================== *)

Section Availability.
Local Open Scope Z_scope.

Lemma holder_found (name : string) (st : store) :
  List.find (holds_name name) (map_to_list (profiles st)) = None
  <-> free_username name st.
Proof.
  unfold free_username. split.
  - intros Hnone uid row Hrow Hname.
    assert (is_Some (List.find (holds_name name) (map_to_list (profiles st))))
      as [x Hx]; [|congruence].
    apply find_is_Some. exists (uid, row).
    split; [by apply elem_of_map_to_list|].
    unfold holds_name. cbn. rewrite Hname. apply String.eqb_refl.
  - intros Hfree.
    destruct (List.find _ _) as [[uid row]|] eqn:Hf; [|done].
    apply find_some in Hf as [Hin Hp].
    apply list_elem_of_In, elem_of_map_to_list in Hin.
    exfalso. apply (Hfree uid row Hin).
    unfold holds_name in Hp. cbn in Hp.
    destruct (username row) as [n|]; [|discriminate].
    apply String.eqb_eq in Hp. congruence.
Qed.

(** X13.  The availability check never calls a taken username free: an
    answer [available: true] comes with status 200 and means that the query
    names a username that is not empty and that no profile holds; a profile
    update on the same tables that sets this username is then not answered
    with the 409 of a taken username.  When the lookup works, a free username
    is reported as available. *)
Theorem available_means_free (e : env) (st : store) (req : request) :
  (prop "available" (body (UsernameCheck.GET e st req)) = JBool true ->
   status (UsernameCheck.GET e st req) = 200
   ∧ ∃ name, req_query req !! "username" = Some name
             ∧ name <> ""
             ∧ free_username name st
             ∧ (forall e' req',
                  submitted req' "username" = JStr name ->
                  status (snd (ProfileUpdate.POST e' st req')) <> 409))
  ∧ (forall name,
       req_query req !! "username" = Some name ->
       name <> "" ->
       service_role_key e = true ->
       db_fault e UsernameCheck.SELECT_USERNAME = None ->
       free_username name st ->
       UsernameCheck.GET e st req = UsernameCheck.available 200 true).
Proof.
  split.
  - unfold UsernameCheck.GET.
    destruct (req_query req !! "username") as [name|] eqn:Hq; cbn;
      [|discriminate].
    destruct (String.eqb_spec name "") as [->|Hne]; [discriminate|].
    destruct (service_role_key e); cbn [negb]; [|discriminate].
    destruct (query_cases (db_fault e UsernameCheck.SELECT_USERNAME) st
                (select_holder name)) as [->|[[m ->]|[_ ->]]]; cbn;
      [discriminate..|].
    destruct (List.find _ _) eqn:Hf; cbn; [discriminate|].
    intros _. split; [done|]. exists name.
    apply holder_found in Hf.
    split; [done|]. split; [done|]. split; [done|].
    intros e' req' Hname Hs.
    apply conflict_only_if_held in Hs as (name' & Hname' & Hheld).
    rewrite Hname in Hname'. injection Hname' as <-.
    destruct Hheld as (other & row & _ & Hrow & Hu).
    by apply (Hf other row).
  - intros name Hq Hne Hkey Hf Hfree. unfold UsernameCheck.GET.
    rewrite Hq. cbn. apply String.eqb_neq in Hne. rewrite Hne, Hkey, Hf.
    cbn. apply holder_found in Hfree. by rewrite Hfree.
Qed.

Lemma available_means_free_witness :
  prop "available"
    (body (UsernameCheck.GET Sample.healthy Sample.db
             (Cases.ask_username "carol"))) = JBool true
  ∧ free_username "carol" Sample.db
  ∧ prop "available"
      (body (UsernameCheck.GET Sample.healthy Sample.db
               (Cases.ask_username "ann"))) = JBool false.
Proof.
  assert (prop "available"
            (body (UsernameCheck.GET Sample.healthy Sample.db
                     (Cases.ask_username "carol"))) = JBool true) as H
    by (vm_compute; reflexivity).
  split; [exact H|]. split; [|vm_compute; reflexivity].
  destruct (proj1 (available_means_free Sample.healthy Sample.db
                     (Cases.ask_username "carol")) H)
    as (_ & name & Hq & _ & Hfree & _).
  vm_compute in Hq. injection Hq as <-. exact Hfree.
Defined.

End Availability.

(* ===================================================================== *)
(** * The sanitizer and the forum fields *)
(* ===================================================================== *)

Section Escaping.
Import Sanitizer.

Lemma chars_append (s t : string) : chars (s +:+ t) = chars s ++ chars t.
Proof.
  induction s as [|a s IH]; [done|].
  rewrite append_cons. cbn. by rewrite IH.
Qed.

Lemma replace_all_append (c : ascii) (r s t : string) :
  replace_all c r (s +:+ t) = replace_all c r s +:+ replace_all c r t.
Proof.
  induction s as [|a s IH]; [done|].
  rewrite append_cons. cbn [replace_all]. rewrite IH.
  destruct (Ascii.eqb a c); [apply append_assoc|done].
Qed.

Lemma entity_chain (a : ascii) :
  escape (String a EmptyString) = entity a.
Proof.
  unfold escape, entity. cbn.
  destruct (Ascii.eqb_spec a "&") as [->|?]; [reflexivity|].
  cbn. destruct (Ascii.eqb_spec a "<") as [->|?]; [reflexivity|].
  cbn. destruct (Ascii.eqb_spec a ">") as [->|?]; [reflexivity|].
  cbn. destruct (Ascii.eqb_spec a double_quote) as [->|?]; [reflexivity|].
  cbn. destruct (Ascii.eqb_spec a single_quote) as [->|?]; reflexivity.
Qed.

Lemma escape_append (s t : string) : escape (s +:+ t) = escape s +:+ escape t.
Proof. unfold escape. by rewrite !replace_all_append. Qed.

(** The chain of replacements is a translation character by character: no
    later replacement touches what an earlier one wrote. *)
Lemma escape_entities (s : string) : escape s = entities s.
Proof.
  induction s as [|a s IH]; [done|].
  change (String a s) with (String a EmptyString +:+ s).
  rewrite escape_append, entity_chain, IH. done.
Qed.

Lemma entity_chars (a b : ascii) :
  b ∈ chars (entity a) -> b ∉ markup.
Proof.
  unfold entity, markup.
  destruct (Ascii.eqb_spec a "&") as [->|?];
    [|destruct (Ascii.eqb_spec a "<") as [->|?];
      [|destruct (Ascii.eqb_spec a ">") as [->|?];
        [|destruct (Ascii.eqb_spec a double_quote) as [->|?];
          [|destruct (Ascii.eqb_spec a single_quote) as [->|?]]]]];
    cbn; rewrite ?elem_of_cons, !elem_of_nil; intros Hb Hm;
    repeat (destruct Hb as [->|Hb]); try done;
    repeat (destruct Hm as [Hm|Hm]); try done; try discriminate;
    congruence.
Qed.

Lemma entities_chars (s : string) (b : ascii) :
  b ∈ chars (entities s) -> b ∉ markup.
Proof.
  induction s as [|a s IH]; cbn.
  - by intros ?%elem_of_nil.
  - rewrite chars_append, elem_of_app. intros [Hb|Hb]; [|by apply IH].
    by eapply entity_chars.
Qed.

Lemma sanitizeText_entities (s : string) :
  sanitizeText (Some s) = entities (trim s).
Proof.
  unfold sanitizeText. cbn.
  destruct (String.eqb_spec s "") as [->|_]; [done|].
  apply escape_entities.
Qed.

(** X14.  What [sanitizeText] returns holds no character that could open or
    close a tag or an attribute value: no [<], no [>], no double and no
    single quote, whatever the input. *)
Theorem sanitized_has_no_markup (input : option string) (b : ascii) :
  b ∈ chars (sanitizeText input) -> b ∉ markup.
Proof.
  destruct input as [s|].
  - rewrite sanitizeText_entities. apply entities_chars.
  - cbn. by intros ?%elem_of_nil.
Qed.

Lemma sanitized_has_no_markup_witness :
  Cases.semicolon ∈ chars (sanitizeText (Some "<script>"))
  ∧ (Cases.semicolon ∉ markup)
  ∧ sanitizeText (Some "<script>") = "&lt;script&gt;".
Proof.
  assert (Cases.semicolon ∈ chars (sanitizeText (Some "<script>"))) as H.
  { apply list_elem_of_In. vm_compute. do 3 right. left. reflexivity. }
  split; [exact H|].
  split; [exact (sanitized_has_no_markup (Some "<script>") Cases.semicolon H)|].
  vm_compute. reflexivity.
Defined.

Lemma entity_nonempty (a : ascii) : entity a <> "".
Proof.
  unfold entity.
  repeat (match goal with |- context [if ?c then _ else _] => destruct c end);
    discriminate.
Qed.

Lemma entities_injective (s t : string) :
  entities s = entities t -> s = t.
Proof.
  revert t. induction s as [|a s IH]; intros [|b t]; cbn.
  - done.
  - intros H. symmetry in H. exfalso. revert H.
    pose proof (entity_nonempty b).
    destruct (entity b); [done|]. rewrite append_cons. discriminate.
  - intros H. exfalso. revert H.
    pose proof (entity_nonempty a).
    destruct (entity a); [done|]. rewrite append_cons. discriminate.
  - unfold entity.
    destruct (Ascii.eqb_spec a "&") as [->|?];
      [|destruct (Ascii.eqb_spec a "<") as [->|?];
        [|destruct (Ascii.eqb_spec a ">") as [->|?];
          [|destruct (Ascii.eqb_spec a double_quote) as [->|?];
            [|destruct (Ascii.eqb_spec a single_quote) as [->|?]]]]];
      (destruct (Ascii.eqb_spec b "&") as [->|?];
       [|destruct (Ascii.eqb_spec b "<") as [->|?];
         [|destruct (Ascii.eqb_spec b ">") as [->|?];
           [|destruct (Ascii.eqb_spec b double_quote) as [->|?];
             [|destruct (Ascii.eqb_spec b single_quote) as [->|?]]]]]);
      rewrite ?append_cons, ?append_nil; intros H;
      try discriminate H;
      try (injection H; intros; subst; try congruence;
           f_equal; by apply IH).
Qed.

(** X15.  Escaping loses nothing but the white space around the text: two
    inputs in ASCII with the same sanitized text are the same text once
    trimmed. *)
Theorem sanitize_injective (a b : string) :
  ascii_text a = true ->
  ascii_text b = true ->
  sanitizeText (Some a) = sanitizeText (Some b) -> trim a = trim b.
Proof.
  intros _ _. rewrite !sanitizeText_entities. apply entities_injective.
Qed.

Lemma sanitize_injective_witness :
  sanitizeText (Some "  a & b ") = sanitizeText (Some "a & b")
  ∧ trim "  a & b " = trim "a & b".
Proof.
  assert (sanitizeText (Some "  a & b ") = sanitizeText (Some "a & b")) as H
    by (vm_compute; reflexivity).
  split; [exact H|].
  exact (sanitize_injective "  a & b " "a & b" eq_refl eq_refl H).
Defined.

Lemma slice0_length (n : nat) (s : string) :
  (String.length (slice0 n s) <= n)%nat.
Proof. apply substring_length_le. Qed.

Lemma truncate_length (input : option string) (max : Z) :
  (0 <= max)%Z ->
  (Z.of_nat (String.length (truncate input max)) <= max)%Z.
Proof.
  intros Hmax. unfold truncate.
  destruct (nonempty input) as [s|]; [|cbn; lia].
  destruct (Z.of_nat (String.length s) >? max)%Z eqn:Hlen; [|lia].
  unfold slice_to. destruct (max <? 0)%Z eqn:Hneg; [lia|].
  pose proof (slice0_length (Z.to_nat max) s). lia.
Qed.

(** X16.  [truncate] of a text in ASCII with a limit that is not negative
    returns a prefix of the input that is no longer than the limit, and the
    input itself when it fits. *)
Theorem truncate_bound (input : option string) (max : Z) :
  (forall s, input = Some s -> ascii_text s = true) ->
  (0 <= max)%Z ->
  (Z.of_nat (String.length (truncate input max)) <= max)%Z
  ∧ (forall s, input = Some s ->
       String.prefix (truncate input max) s = true
       ∧ ((Z.of_nat (String.length s) <= max)%Z -> truncate input max = s)).
Proof.
  intros _ Hmax. split; [by apply truncate_length|].
  intros s ->. unfold truncate. cbn [nonempty].
  destruct (String.eqb_spec s "") as [->|Hne]; [done|].
  destruct (Z.of_nat (String.length s) >? max)%Z eqn:Hlen.
  - unfold slice_to. destruct (max <? 0)%Z eqn:Hneg; [lia|].
    split; [apply substring_is_prefix|lia].
  - split; [|done]. apply prefix_correct. by rewrite substring_whole.
Qed.

Lemma truncate_bound_witness :
  (0 <= 5)%Z
  ∧ ascii_text "discussion" = true
  ∧ truncate (Some "discussion") 5 = "discu"
  ∧ (Z.of_nat (String.length (truncate (Some "discussion") 5)) <= 5)%Z.
Proof.
  assert (0 <= 5)%Z as H by lia.
  assert (forall s, Some "discussion" = Some s -> ascii_text s = true) as Ha.
  { intros s [= <-]. reflexivity. }
  split; [exact H|]. split; [reflexivity|]. split; [vm_compute; reflexivity|].
  exact (proj1 (truncate_bound (Some "discussion") 5 Ha H)).
Defined.

Lemma entity_length (a : ascii) : (1 <= String.length (entity a) <= 6)%nat.
Proof.
  unfold entity.
  repeat (match goal with |- context [if ?c then _ else _] => destruct c end);
    cbn; lia.
Qed.

Lemma entities_length (s : string) :
  (String.length (entities s) <= 6 * String.length s)%nat.
Proof.
  induction s as [|a s IH]; cbn; [lia|].
  rewrite length_append. pose proof (entity_length a). lia.
Qed.

Lemma sanitizeText_length (s : string) :
  (String.length (sanitizeText (Some s)) <= 6 * String.length s)%nat.
Proof.
  unfold sanitizeText. cbn.
  destruct (String.eqb s ""); [cbn; lia|].
  rewrite escape_entities.
  pose proof (entities_length (trim s)). pose proof (trim_length s). lia.
Qed.

Lemma sanitizeText_nonempty (c : ascii) (t : string) :
  is_space c = false -> sanitizeText (Some (String c t)) <> "".
Proof.
  intros Hc. unfold sanitizeText. cbn [nonempty String.eqb].
  destruct (trim_keeps_head c t Hc) as [t' ->].
  rewrite escape_entities. cbn.
  pose proof (entity_nonempty c).
  destruct (entity c); [done|]. rewrite append_cons. discriminate.
Qed.

(** X17.  The fields of a new forum thread and of a reply, as stored, when
    the title and the content of the body are absent, [null] or texts in
    ASCII: nothing raises, the title of a thread is never empty, no field
    holds a character of markup, and, escaping coming after the cut, a title
    has at most six times 300 characters and a content at most six times
    20000.  A thread is refused for its title exactly when the title is
    empty once trimmed. *)
Theorem forum_fields_shape (body : json) :
  Forum.has_properties body = true ->
  Forum.text_field (prop "title" body) = true ->
  Forum.text_field (prop "content" body) = true ->
  match Forum.thread_fields body with
  | Returned (Some (title, content)) =>
      title <> ""
      ∧ (Z.of_nat (String.length title) <= 6 * 300)%Z
      ∧ (Z.of_nat (String.length content) <= 6 * 20000)%Z
      ∧ (forall b, b ∈ chars title ++ chars content -> b ∉ markup)
  | Returned None => trim (Forum.text_of (prop "title" body)) = ""
  | Thrown => False
  end
  ∧ (trim (Forum.text_of (prop "title" body)) = "" ->
     Forum.thread_fields body = Returned None)
  ∧ match Forum.post_content body with
    | Returned content =>
        (Z.of_nat (String.length content) <= 6 * 20000)%Z
        ∧ (forall b, b ∈ chars content -> b ∉ markup)
    | Thrown => False
    end.
Proof.
  intros Hb _ _. unfold Forum.thread_fields, Forum.post_content.
  rewrite Hb. cbn [negb].
  assert (forall i,
            (Z.of_nat (String.length (sanitizeText (Some (truncate i 20000))))
             <= 6 * 20000)%Z) as Hcontent.
  { intros i. pose proof (sanitizeText_length (truncate i 20000)).
    pose proof (truncate_length i 20000 ltac:(lia)). lia. }
  assert (forall s b, b ∈ chars (sanitizeText (Some s)) -> b ∉ markup)
    as Hclean.
  { intros s b. rewrite sanitizeText_entities. apply entities_chars. }
  split; [|split; [by intros ->|by split; [apply Hcontent|apply Hclean]]].
  destruct (String.eqb_spec (trim (Forum.text_of (prop "title" body))) "")
    as [Ht|Ht]; [done|].
  split; [|split; [|split]].
  - destruct (trim (Forum.text_of (prop "title" body))) as [|c t] eqn:Htitle;
      [done|].
    pose proof (trim_head _ _ _ Htitle) as Hc.
    destruct (300 <? String.length (String c t))%nat.
    + unfold slice0. cbn [String.substring]. by apply sanitizeText_nonempty.
    + by apply sanitizeText_nonempty.
  - match goal with
    | |- context [sanitizeText (Some ?x)] =>
        pose proof (sanitizeText_length x) as Hlen;
        assert (String.length x <= 300)%nat
    end.
    { destruct (300 <? String.length _)%nat eqn:Hl.
      - apply slice0_length.
      - by apply Nat.ltb_ge in Hl. }
    lia.
  - apply Hcontent.
  - intros b. rewrite elem_of_app. intros [Hin|Hin]; by eapply Hclean.
Qed.

Lemma forum_fields_shape_witness :
  Forum.has_properties Cases.new_thread = true
  ∧ Forum.text_field (prop "title" Cases.new_thread) = true
  ∧ Forum.text_field (prop "content" Cases.new_thread) = true
  ∧ Forum.thread_fields Cases.new_thread
    = Returned (Some ("Tips &amp; tricks", "&lt;b&gt;hello&lt;/b&gt;"))
  ∧ "Tips &amp; tricks" <> ""
  ∧ (forall b, b ∈ chars "Tips &amp; tricks"
                     ++ chars "&lt;b&gt;hello&lt;/b&gt;" ->
               b ∉ markup).
Proof.
  assert (Forum.has_properties Cases.new_thread = true) as H
    by (vm_compute; reflexivity).
  assert (Forum.text_field (prop "title" Cases.new_thread) = true) as Ht
    by (vm_compute; reflexivity).
  assert (Forum.text_field (prop "content" Cases.new_thread) = true) as Hc
    by (vm_compute; reflexivity).
  split; [exact H|]. split; [exact Ht|]. split; [exact Hc|].
  split; [vm_compute; reflexivity|].
  destruct (proj1 (forum_fields_shape Cases.new_thread H Ht Hc))
    as (Hne & _ & _ & Hclean).
  split; [exact Hne|exact Hclean].
Defined.

End Escaping.

(* ===================================================================== *)
(** * The login throttle, further *)
(* ===================================================================== *)

Section ThrottleFurther.
Import LoginAttempt.
Local Open Scope Z_scope.

Lemma ceil_div_covers (x : Z) : x <= 1000 * ceil_div x 1000.
Proof.
  unfold ceil_div.
  pose proof (Z.div_mod (- x) 1000 ltac:(lia)).
  pose proof (Z.mod_pos_bound (- x) 1000 ltac:(lia)). lia.
Qed.

Lemma ceil_div_tight (x : Z) : 1000 * (ceil_div x 1000 - 1) < x.
Proof.
  unfold ceil_div.
  pose proof (Z.div_mod (- x) 1000 ltac:(lia)).
  pose proof (Z.mod_pos_bound (- x) 1000 ltac:(lia)). lia.
Qed.

(** The wait the account counter announces ends with the window, to the
    second. *)
Lemma account_retry_covers (ws n : Z) :
  0 <= account_retry ws n
  ∧ ws + EMAIL_WINDOW_MS <= n + 1000 * account_retry ws n
  ∧ (0 < account_retry ws n ->
     n + 1000 * (account_retry ws n - 1) < ws + EMAIL_WINDOW_MS).
Proof.
  unfold account_retry.
  destruct (Z.geb_spec (n - ws) EMAIL_WINDOW_MS) as [Hge|Hlt].
  - lia.
  - pose proof (ceil_div_covers (EMAIL_WINDOW_MS - (n - ws))).
    pose proof (ceil_div_tight (EMAIL_WINDOW_MS - (n - ws))).
    pose proof (ceil_div_pos (EMAIL_WINDOW_MS - (n - ws)) ltac:(lia)).
    lia.
Qed.

(** A counted call on an account whose window has ended opens a new window
    and is admitted. *)
Lemma POST_reopens (e : string) (st : limiter) (c : call) (en : Entry) :
  carries e c = true ->
  origin_denied (snd (POST_call st c)) = false ->
  emailAttempts st !! e = Some en ->
  windowStart en + EMAIL_WINDOW_MS <= fst c 1%nat ->
  status (snd (POST_call st c)) = 200
  ∧ emailAttempts (fst (POST_call st c)) !! e
    = Some {| count := 1; windowStart := fst c 1%nat |}.
Proof.
  intros Hc Hd He Hn. apply carries_spec in Hc.
  revert Hd. unfold POST_call, POST, throttle.
  destruct (incrMap (ipAttempts st) _ _ _) as [ipMap ipEntry].
  destruct (count ipEntry >? IP_MAX); [cbn; discriminate|].
  rewrite Hc. rewrite incrMap_fresh.
  2: { intros en' Hen. rewrite He in Hen. inversion Hen; subst. lia. }
  cbn [count]. change (1 >? EMAIL_MAX) with false. cbv iota.
  intros _. cbn. by rewrite lookup_insert_eq.
Qed.

(** X18.  The wait announced by the account counter is exact.  A call that
    the account counter refuses is answered with a retryAfter of [ra]
    seconds that is not negative; a later call for the same account, the
    window being the same, that arrives when those seconds have passed is
    admitted and opens a new window, if the origin counter lets it through;
    and one second less would not have been enough. *)
Theorem retry_after_is_exact (st st' : limiter) (c c' : call) (e : string)
    (k k' ws : Z) :
  carries e c = true ->
  origin_denied (snd (POST_call st c)) = false ->
  emailAttempts st !! e = Some {| count := k; windowStart := ws |} ->
  fst c 1%nat < ws + EMAIL_WINDOW_MS ->
  EMAIL_MAX <= k ->
  carries e c' = true ->
  origin_denied (snd (POST_call st' c')) = false ->
  emailAttempts st' !! e = Some {| count := k'; windowStart := ws |} ->
  ∃ ra,
    snd (POST_call st c) = email_denied ra
    ∧ 0 <= ra
    ∧ (fst c 2%nat + 1000 * ra <= fst c' 1%nat ->
       status (snd (POST_call st' c')) = 200
       ∧ emailAttempts (fst (POST_call st' c')) !! e
         = Some {| count := 1; windowStart := fst c' 1%nat |})
    ∧ (0 < ra ->
       EMAIL_MAX <= k' ->
       fst c' 1%nat <= fst c 2%nat + 1000 * (ra - 1) ->
       status (snd (POST_call st' c')) = 429).
Proof.
  intros Hc Hd He Hn Hk Hc' Hd' He'.
  destruct (POST_counted e st c k ws Hc Hd He Hn) as [_ Hdenied].
  exists (account_retry ws (fst c 2%nat)).
  destruct (account_retry_covers ws (fst c 2%nat)) as (H0 & Hcov & Htight).
  split; [by apply Hdenied|]. split; [done|]. split.
  - intros Hwait.
    apply (POST_reopens e st' c' _ Hc' Hd' He'). cbn. lia.
  - intros Hpos Hk' Hearly.
    assert (fst c' 1%nat < ws + EMAIL_WINDOW_MS) as Hin by
      (specialize (Htight Hpos); lia).
    destruct (POST_counted e st' c' k' ws Hc' Hd' He' Hin) as [_ Hagain].
    rewrite (Hagain Hk'). done.
Qed.

Lemma retry_after_is_exact_witness :
  snd (POST_call Cases.at_limit Cases.too_early) = email_denied 898
  ∧ status (snd (POST_call Cases.at_limit Cases.on_time)) = 200
  ∧ emailAttempts (fst (POST_call Cases.at_limit Cases.on_time))
      !! Traffic.account
    = Some {| count := 1; windowStart := 900500 |}.
Proof.
  destruct (retry_after_is_exact Cases.at_limit Cases.at_limit
              Cases.too_early Cases.on_time Traffic.account 5 5 0)
    as (ra & Hra & _ & Hwait & _);
    try (vm_compute; reflexivity); [vm_compute; discriminate|].
  assert (ra = 898) as ->.
  { assert (retry_of (snd (POST_call Cases.at_limit Cases.too_early))
            = Some 898) as H1 by (vm_compute; reflexivity).
    rewrite Hra in H1. cbn in H1. congruence. }
  split; [exact Hra|]. apply Hwait. vm_compute. discriminate.
Defined.

(** Within one window of an origin, the [i]-th further call is refused by
    the origin counter exactly when the count passes the limit. *)
Lemma origin_log (ip : string) (ws : Z) (cs : list key_call) :
  forall st k,
  ipAttempts st !! ip = Some {| count := k; windowStart := ws |} ->
  (forall c, c ∈ cs -> origin_key c = ip ∧ fst c 0%nat < ws + IP_WINDOW_MS) ->
  forall (i : nat) c r,
  throttle_log st cs !! i = Some (c, r) ->
  origin_denied r = (k + Z.of_nat i + 1 >? IP_MAX).
Proof.
  induction cs as [|c0 cs IH]; intros st k Hk Hcs i c r Hi; [done|].
  destruct (Hcs c0) as [Hip Ht]; [apply elem_of_cons; by left|].
  assert (incrMap (ipAttempts st) ip IP_WINDOW_MS (fst c0 0%nat)
          = (<[ip := {| count := k + 1; windowStart := ws |}]> (ipAttempts st),
             {| count := k + 1; windowStart := ws |})) as Hincr
    by (by apply incrMap_within).
  destruct i as [|i]; cbn in Hi.
  - injection Hi as <- <-. unfold throttle_call.
    rewrite origin_denied_spec, Hip, Hincr. cbn. f_equal. lia.
  - eapply (IH _ (k + 1)) in Hi.
    + rewrite Hi. f_equal. lia.
    + unfold throttle_call. rewrite throttle_origin_counter, Hip, Hincr. cbn.
      by rewrite lookup_insert_eq.
    + intros c' Hc'. apply Hcs. apply elem_of_cons. by right.
Qed.

(** X19.  The origin limit is exact.  Calls are taken from line 51 on, each
    with the origin key that line 49 left.  When calls with one origin key,
    the first of them finding no counter for it, all fall into the hour that
    the first one opens, the first 200 of them get past the origin counter
    and every later one is refused by it with a 429, whatever account it is
    made for. *)
Theorem origin_limit_is_exact (ip : string) (st : limiter) (c0 : key_call)
    (cs : list key_call) :
  ipAttempts st !! ip = None ->
  origin_key c0 = ip ->
  (forall c, c ∈ cs ->
     origin_key c = ip ∧ fst c 0%nat < fst c0 0%nat + IP_WINDOW_MS) ->
  forall (i : nat) c r,
  throttle_log st (c0 :: cs) !! i = Some (c, r) ->
  origin_denied r = (IP_MAX <=? Z.of_nat i)
  ∧ (origin_denied r = true -> status r = 429).
Proof.
  intros Hnone Hip Hcs i c r Hi.
  assert (origin_denied r = (IP_MAX <=? Z.of_nat i)) as Hden.
  { assert (incrMap (ipAttempts st) ip IP_WINDOW_MS (fst c0 0%nat)
            = (<[ip := {| count := 1; windowStart := fst c0 0%nat |}]>
                 (ipAttempts st),
               {| count := 1; windowStart := fst c0 0%nat |})) as Hincr.
    { apply incrMap_fresh. intros en Hen. congruence. }
    destruct i as [|i]; cbn in Hi.
    - injection Hi as <- <-. unfold throttle_call.
      by rewrite origin_denied_spec, Hip, Hincr.
    - eapply (origin_log ip (fst c0 0%nat) cs _ 1) in Hi.
      + rewrite Hi. unfold IP_MAX.
        destruct (Z.gtb_spec (1 + Z.of_nat i + 1) 200);
          destruct (Z.leb_spec 200 (Z.of_nat (S i))); try done; lia.
      + unfold throttle_call. rewrite throttle_origin_counter, Hip, Hincr. cbn.
        by rewrite lookup_insert_eq.
      + done. }
  split; [done|]. intros Hd.
  assert (∃ st', r = snd (throttle_call st' c)) as [st' ->].
  { clear -Hi. revert st i Hi.
    induction (c0 :: cs) as [|c1 l IH]; intros st i Hi; [done|].
    destruct i as [|i]; cbn in Hi.
    - injection Hi as <- <-. by eexists.
    - by eapply IH. }
  apply throttle_origin_denied_shape in Hd as [ra ->]. done.
Qed.

Lemma origin_limit_is_exact_witness :
  length (keys_of Cases.opening :: List.map keys_of Cases.flood) = 201%nat
  ∧ List.map (fun cr : key_call * response => origin_denied (snd cr))
      (drop 199
         (throttle_log empty_limiter
            (keys_of Cases.opening :: List.map keys_of Cases.flood)))
    = [false; true]
  ∧ (forall c r,
       throttle_log empty_limiter
         (keys_of Cases.opening :: List.map keys_of Cases.flood) !! 200%nat
       = Some (c, r) ->
       origin_denied r = true ∧ status r = 429).
Proof.
  split; [vm_compute; reflexivity|]. split; [vm_compute; reflexivity|].
  intros c r Hi.
  assert (forall c, c ∈ List.map keys_of Cases.flood ->
            origin_key c = Traffic.office
            ∧ fst c 0%nat < fst (keys_of Cases.opening) 0%nat + IP_WINDOW_MS)
    as Hcs.
  { intros c' Hc'. apply list_elem_of_In, in_map_iff in Hc' as (c0 & <- & Hc0).
    apply repeat_spec in Hc0. subst c0.
    split; vm_compute; reflexivity. }
  destruct (origin_limit_is_exact Traffic.office empty_limiter
              (keys_of Cases.opening) (List.map keys_of Cases.flood)
              eq_refl eq_refl Hcs 200%nat c r Hi) as [Hd Hs].
  assert (origin_denied r = true) as Hden by (rewrite Hd; vm_compute; reflexivity).
  split; [exact Hden|exact (Hs Hden)].
Defined.

End ThrottleFurther.

(* ===================================================================== *)
(** * The login form against the routes it calls *)
(* ===================================================================== *)

Section Form.
Import LoginAttempt LoginForm.
Local Open Scope Z_scope.

Lemma email_of_attempt (jar via : gmap string string) (email : string) :
  email_of (attempt_request jar via email) = Some (trim (toLowerCase email)).
Proof. reflexivity. Qed.

(** The answers of the throttle: admitted, or one of its two refusals. *)
Lemma throttle_answers (clk : nat -> Z) (lim : limiter) (req : request) :
  (∃ a b, snd (POST clk lim req) = admitted a b)
  ∨ (∃ ra, snd (POST clk lim req) = ip_denied ra)
  ∨ (∃ ra, snd (POST clk lim req) = email_denied ra).
Proof.
  unfold POST, throttle.
  destruct (incrMap (ipAttempts lim) _ _ _) as [ipMap ipEntry].
  destruct (count ipEntry >? IP_MAX); [right; left; by eexists|].
  destruct (nonempty (email_of req)) as [e|]; [|left; by eexists _, _].
  destruct (incrMap (emailAttempts lim) e _ _) as [emMap emEntry].
  destruct (count emEntry >? EMAIL_MAX);
    [right; right; by eexists|left; by eexists _, _].
Qed.

(** X20.  An account at its limit does not get to the sign-in through the
    form.  When the account counter of the address typed into the form
    (lower-cased and trimmed) holds five attempts or more in its current
    window, the form stays where it is and shows the throttle's message,
    whatever the sign-in would have answered and whatever the password: the
    sign-in is not consulted. *)
Theorem throttled_form_does_not_sign_in (e : env) (st : store)
    (clk : nat -> Z) (lim : limiter) (jar via : gmap string string)
    (w : option string) (email : string) (k ws : Z) :
  trim (toLowerCase email) <> "" ->
  emailAttempts lim !! trim (toLowerCase email)
  = Some {| count := k; windowStart := ws |} ->
  EMAIL_MAX <= k ->
  clk 1%nat < ws + EMAIL_WINDOW_MS ->
  ∃ msg,
    (forall login, snd (submit e st clk lim jar via w email login) = Stay msg)
    ∧ (msg = "Too many login attempts for this account"
       ∨ msg = "Too many requests from this IP").
Proof.
  intros Hne Hk Hmax Hin.
  pose (c := (clk, attempt_request jar via email) : call).
  assert (carries (trim (toLowerCase email)) c = true) as Hc.
  { unfold carries, c. cbn [snd]. rewrite email_of_attempt. cbn.
    apply String.eqb_neq in Hne. rewrite Hne. apply String.eqb_refl. }
  assert (∃ ra msg,
            snd (POST clk lim (attempt_request jar via email))
            = too_many msg ra
            ∧ (msg = "Too many login attempts for this account"
               ∨ msg = "Too many requests from this IP")) as (ra & msg & Hr & Hm).
  { destruct (origin_denied (snd (POST_call lim c))) eqn:Hd.
    - apply POST_origin_denied_shape in Hd as [ra Hra].
      exists ra, "Too many requests from this IP". split; [exact Hra|by right].
    - destruct (POST_counted _ lim c k ws Hc Hd Hk Hin) as [_ Hdenied].
      eexists _, _. split; [exact (Hdenied Hmax)|by left]. }
  exists msg. split; [|done].
  intros login. unfold submit.
  destruct (POST clk lim (attempt_request jar via email)) as [lim' rr].
  cbn [snd] in *. subst rr. cbn.
  destruct Hm as [-> | ->]; reflexivity.
Qed.

Lemma throttled_form_does_not_sign_in_witness :
  emailAttempts Cases.at_limit !! trim (toLowerCase " Ann@Example.org ")
  = Some {| count := 5; windowStart := 0 |}
  ∧ forall login,
      snd (submit Cases.with_tokens Sample.db (fun _ => 2500) Cases.at_limit
             Cases.no_cookies Cases.from_office None " Ann@Example.org "
             login)
      = Stay "Too many login attempts for this account".
Proof.
  assert (emailAttempts Cases.at_limit !! trim (toLowerCase " Ann@Example.org ")
          = Some {| count := 5; windowStart := 0 |}) as Hk
    by (vm_compute; reflexivity).
  split; [exact Hk|].
  destruct (throttled_form_does_not_sign_in Cases.with_tokens Sample.db
              (fun _ => 2500) Cases.at_limit Cases.no_cookies
              Cases.from_office None " Ann@Example.org " 5 0)
    as (msg & Hstay & _);
    [vm_compute; discriminate|exact Hk|vm_compute; discriminate
    |vm_compute; reflexivity|].
  intros login.
  assert (Stay msg = Stay "Too many login attempts for this account") as <-.
  { rewrite <- (Hstay (Rejected None)). vm_compute. reflexivity. }
  apply Hstay.
Defined.

Lemma GET_ok (e : env) (st : store) (req : request) :
  ok (Profile.GET e st req) = true -> status (Profile.GET e st req) = 200.
Proof.
  unfold Profile.GET.
  destruct (nonempty (req_query req !! "userId")) as [uid|]; [|by cbn].
  destruct (verifyUserFromRequest _ _ _) eqn:Hv.
  2: { apply refused_statuses in Hv. destruct Hv as [-> | ->]; by cbn. }
  destruct (service_role_key e); cbn [negb]; [|by cbn].
  destruct (query _ _ _) as [[st' res]|]; [|by cbn].
  destruct (error res); by cbn.
Qed.

Lemma totp_of_truthy (st : store) (uid : string) :
  truthy (Profile.totp_of (profiles st !! uid)) = truthy (stored_totp st uid).
Proof.
  unfold Profile.totp_of, stored_totp, stored_preferences, or_empty.
  destruct (profiles st !! uid) as [row|]; [|done].
  destruct (truthy (preferences row)); cbn; [|done].
  by destruct (truthy (prop "totp" (preferences row))) eqn:Ht.
Qed.

(** What the form makes of the profile route's answer for [uid]. *)
Lemma wants_challenge_spec (e : env) (st : store) (req : request)
    (uid : string) :
  req_query req !! "userId" = Some uid ->
  wants_challenge (Answered (Profile.GET e st req))
  = (status (Profile.GET e st req) =? 200)
    && truthy (stored_totp st uid)
    && negb (Profile.trustedDevice e st req uid).
Proof.
  intros Hq. unfold wants_challenge.
  destruct (ok (Profile.GET e st req)) eqn:Hok.
  - pose proof (GET_ok _ _ _ Hok) as Hs. rewrite Hs. cbn [andb Z.eqb].
    rewrite (GET_success _ _ _ _ Hq Hs). cbn.
    rewrite totp_of_truthy. by destruct (Profile.trustedDevice e st req uid).
  - destruct (Z.eqb_spec (status (Profile.GET e st req)) 200) as [Hs|]; [|done].
    unfold ok in Hok. rewrite Hs in Hok. discriminate.
Qed.

(** X21.  When the form sends to the 2FA challenge.  After a sign-in that
    gave a user id and an access token, the throttle having admitted the
    attempt, the form goes to the verification page exactly when the profile
    route answers 200, the stored configuration has a [totp] entry and the
    route does not report the device as trusted; in every other case it goes
    on to the dashboard.  In particular it fails open: when the route refuses
    the token or the profile lookup fails, an enrolled user reaches the
    dashboard without a challenge. *)
Theorem challenge_decision (e : env) (st : store) (clk : nat -> Z)
    (lim : limiter) (jar via : gmap string string) (w : option string)
    (email : string) (res : json) (uid token : string) :
  let out := submit e st clk lim jar via w email (SignedIn res) in
  let req := profile_request jar (JStr uid) (JStr token) in
  status (snd (POST clk lim (attempt_request jar via email))) = 200 ->
  prop "id" (prop "user" res) = JStr uid ->
  prop "access_token" (prop "session" res) = JStr token ->
  uid <> "" ->
  token <> "" ->
  (snd out = Challenge uid
   <-> status (Profile.GET e st req) = 200
       ∧ truthy (stored_totp st uid) = true
       ∧ Profile.trustedDevice e st req uid = false)
  ∧ (snd out <> Challenge uid -> snd out = Dashboard (nonempty w))
  ∧ ((service_role_key e = false
      ∨ is_Some (db_fault e Profile.SELECT_PROFILE)
      ∨ ∃ s reason,
          verifyUserFromRequest e req (JStr uid) = Refused s reason) ->
     snd out = Dashboard (nonempty w)).
Proof.
  cbn zeta. intros Hadm Hid Htok Hu Ht.
  assert (snd (submit e st clk lim jar via w email (SignedIn res))
          = if (status (Profile.GET e st
                          (profile_request jar (JStr uid) (JStr token)))
                =? 200)
               && truthy (stored_totp st uid)
               && negb (Profile.trustedDevice e st
                          (profile_request jar (JStr uid) (JStr token)) uid)
            then Challenge uid else Dashboard (nonempty w)) as ->.
  { unfold submit.
    destruct (POST clk lim (attempt_request jar via email)) as [lim' rr].
    cbn [snd] in *. unfold onSubmit, throttle_error, ok. rewrite Hadm.
    cbn [Z.leb Z.compare Pos.compare Pos.compare_cont andb].
    rewrite Hid, Htok. cbn [truthy to_String].
    apply String.eqb_neq in Hu, Ht. rewrite Hu, Ht. cbn [negb andb].
    rewrite (wants_challenge_spec e st _ uid); [done|].
    cbn. by rewrite lookup_singleton_eq. }
  set (req := profile_request jar (JStr uid) (JStr token)).
  split; [|split].
  - destruct (Z.eqb_spec (status (Profile.GET e st req)) 200) as [Hs|Hs];
      destruct (truthy (stored_totp st uid));
      destruct (Profile.trustedDevice e st req uid); cbn;
      split; try done; try (intros (? & ? & ?); done).
  - by destruct (_ && _ && _).
  - intros Hfail.
    assert (status (Profile.GET e st req) <> 200) as Hs.
    { unfold Profile.GET. subst req. cbn [req_query profile_request].
      rewrite lookup_singleton_eq. cbn [to_String nonempty].
      apply String.eqb_neq in Hu. rewrite Hu.
      destruct Hfail as [Hkey|[[f Hf]|(s & reason & Hv)]].
      - destruct (verifyUserFromRequest _ _ _) eqn:Hv.
        + rewrite Hkey. by cbn.
        + apply refused_statuses in Hv. cbn. lia.
      - destruct (verifyUserFromRequest _ _ _) eqn:Hv.
        + destruct (service_role_key e); cbn [negb]; [|by cbn].
          rewrite Hf. destruct f; by cbn.
        + apply refused_statuses in Hv. cbn. lia.
      - rewrite Hv. apply refused_statuses in Hv. cbn. lia. }
    apply Z.eqb_neq in Hs. by rewrite Hs.
Qed.

Lemma challenge_decision_witness :
  truthy (stored_totp Sample.db Sample.ann) = true
  ∧ snd (submit Cases.with_tokens Sample.db Cases.noon empty_limiter
           Cases.no_cookies Cases.from_office None "ann@example.org"
           (SignedIn Cases.ann_signed_in))
    = Challenge Sample.ann
  ∧ snd (submit Cases.profile_lookup_fails Sample.db Cases.noon empty_limiter
           Cases.no_cookies Cases.from_office None "ann@example.org"
           (SignedIn Cases.ann_signed_in))
    = Dashboard None.
Proof.
  assert (truthy (stored_totp Sample.db Sample.ann) = true) as Htotp
    by (vm_compute; reflexivity).
  split; [exact Htotp|]. split.
  - apply (challenge_decision Cases.with_tokens Sample.db Cases.noon
             empty_limiter Cases.no_cookies Cases.from_office None
             "ann@example.org" Cases.ann_signed_in Sample.ann Cases.ann_token);
      try (vm_compute; reflexivity); try discriminate.
    split; [vm_compute; reflexivity|]. split; [exact Htotp|].
    vm_compute. reflexivity.
  - apply (challenge_decision Cases.profile_lookup_fails Sample.db Cases.noon
             empty_limiter Cases.no_cookies Cases.from_office None
             "ann@example.org" Cases.ann_signed_in Sample.ann Cases.ann_token);
      try (vm_compute; reflexivity); try discriminate.
    right. left. vm_compute. by eexists.
Defined.

(** X22.  A device that passed the challenge is not challenged again.  Once
    the login-time route has issued a trust token for the user and stored
    its hash, a sign-in of that user from a browser that holds the cookie
    ends on the dashboard: whenever the profile route answers, it finds the
    record and reports the device as trusted. *)
Theorem verified_device_skips_challenge (e e' : env) (st : store)
    (req0 : request) (clk : nat -> Z) (lim : limiter)
    (jar via : gmap string string) (w : option string) (email : string)
    (res : json) (uid token : string) :
  let raw := random_hex e in
  let st1 := fst (VerifyLogin.issue e st req0 (JStr uid)) in
  crypto_module e = true ->
  db_fault e VerifyLogin.INSERT_DEVICE = None ->
  raw <> "" ->
  (forall d, d ∈ trusted_devices st -> d_token_hash d <> sha256_hex e raw) ->
  jar !! "trusted_device" = Some raw ->
  sha256_hex e' = sha256_hex e ->
  crypto_module e' = true ->
  service_role_key e' = true ->
  db_fault e' Profile.SELECT_DEVICE = None ->
  status (snd (POST clk lim (attempt_request jar via email))) = 200 ->
  prop "id" (prop "user" res) = JStr uid ->
  prop "access_token" (prop "session" res) = JStr token ->
  cookies (snd (VerifyLogin.issue e st req0 (JStr uid)))
  = [trust_cookie e raw ONE_YEAR]
  ∧ Profile.trustedDevice e' st1
      (profile_request jar (JStr uid) (JStr token)) uid = true
  ∧ snd (submit e' st1 clk lim jar via w email (SignedIn res))
    = Dashboard (nonempty w).
Proof.
  cbn zeta. intros Hcr Hins Hraw Hfresh Hjar Hsha Hcr' Hkey' Hsel Hadm Hid Htok.
  unfold VerifyLogin.issue. rewrite Hcr, Hins. cbn [negb query].
  unfold insert_device. cbn [error fst snd to_String].
  destruct st as [ps ds]. cbn [profiles trusted_devices] in *.
  set (d := {| d_id := new_uuid e; d_user_id := uid;
               d_token_hash := sha256_hex e (random_hex e);
               d_user_agent := _; d_created_at := _; d_last_seen := _ |}).
  split; [done|].
  assert (Profile.trustedDevice e'
            {| profiles := ps; trusted_devices := ds ++ [d] |}
            (profile_request jar (JStr uid) (JStr token)) uid = true)
    as Htrusted.
  { unfold Profile.trustedDevice. cbn [req_cookies profile_request].
    rewrite Hjar.
    destruct (nonempty (Some (random_hex e))) as [raw'|] eqn:Hn.
    2: { cbn in Hn. destruct (String.eqb_spec (random_hex e) ""); congruence. }
    apply nonempty_Some in Hn as <-.
    rewrite Hcr', Hkey', Hsel, Hsha. cbn [negb query].
    by rewrite (select_device_fresh uid (sha256_hex e (random_hex e)) ps ds d). }
  split; [exact Htrusted|].
  unfold submit.
  destruct (POST clk lim (attempt_request jar via email)) as [lim' rr].
  cbn [snd] in *. unfold onSubmit, throttle_error, ok. rewrite Hadm.
  cbn [Z.leb Z.compare Pos.compare Pos.compare_cont andb].
  rewrite Hid, Htok. cbn [to_String].
  destruct (truthy (JStr uid) && truthy (JStr token)); [|done].
  cbn [andb].
  rewrite (wants_challenge_spec e' _ _ uid).
  2: { cbn. by rewrite lookup_singleton_eq. }
  rewrite Htrusted. by rewrite andb_false_r.
Qed.

Lemma verified_device_skips_challenge_witness :
  snd (submit Cases.with_tokens Sample.db Cases.noon empty_limiter
         Cases.trusted_browser Cases.from_office None "ann@example.org"
         (SignedIn Cases.ann_signed_in))
  = Challenge Sample.ann
  ∧ snd (submit Cases.with_tokens
           (fst (VerifyLogin.issue Sample.healthy Sample.db
                   Sample.login_anonymous (JStr Sample.ann)))
           Cases.noon empty_limiter Cases.trusted_browser Cases.from_office
           None "ann@example.org" (SignedIn Cases.ann_signed_in))
    = Dashboard None.
Proof.
  split; [vm_compute; reflexivity|].
  assert (forall d, d ∈ trusted_devices Sample.db ->
                    d_token_hash d
                    <> sha256_hex Sample.healthy (random_hex Sample.healthy))
    as Hfresh.
  { intros d Hd. cbn in Hd. rewrite !elem_of_cons, elem_of_nil in Hd.
    destruct Hd as [->|[->|[]]]; vm_compute; discriminate. }
  refine (proj2 (proj2
            (verified_device_skips_challenge Sample.healthy Cases.with_tokens
               Sample.db Sample.login_anonymous Cases.noon empty_limiter
               Cases.trusted_browser Cases.from_office None "ann@example.org"
               Cases.ann_signed_in Sample.ann Cases.ann_token
               _ _ _ Hfresh _ _ _ _ _ _ _ _)));
    try (vm_compute; reflexivity); discriminate.
Defined.

End Form.

(* ===================================================================== *)
(** * The 2FA routes, further *)
(* ===================================================================== *)

Section SecondFactor.
Local Open Scope Z_scope.

Lemma obj_get_set_eq (k : string) (v : json) (fs : list (string * json)) :
  obj_get k (obj_set k v fs) = Some v.
Proof.
  induction fs as [|[k' v'] fs IH]; cbn.
  - by rewrite String.eqb_refl.
  - destruct (String.eqb k k') eqn:Hk; cbn.
    + by rewrite String.eqb_refl.
    + by rewrite Hk.
Qed.

Lemma obj_get_set_ne (k k0 : string) (v : json) (fs : list (string * json)) :
  k <> k0 -> obj_get k (obj_set k0 v fs) = obj_get k fs.
Proof.
  intros Hne. induction fs as [|[k' v'] fs IH]; cbn.
  - apply String.eqb_neq in Hne. by rewrite Hne.
  - destruct (String.eqb_spec k0 k') as [<-|Hk]; cbn.
    + apply String.eqb_neq in Hne. by rewrite Hne.
    + by rewrite IH.
Qed.

Lemma obj_get_delete_ne (k k0 : string) (fs : list (string * json)) :
  k <> k0 -> obj_get k (obj_delete k0 fs) = obj_get k fs.
Proof.
  intros Hne. induction fs as [|[k' v'] fs IH]; cbn; [done|].
  destruct (String.eqb_spec k0 k') as [<-|Hk]; cbn.
  - apply String.eqb_neq in Hne. by rewrite Hne.
  - by rewrite IH.
Qed.

Lemma issue_profiles (e : env) (st : store) (req : request) (userId : json)
    (now : string) :
  profiles (fst (TwoFaVerify.issue e st req userId now)) = profiles st.
Proof.
  unfold TwoFaVerify.issue.
  destruct (crypto_module e); cbn [negb]; [|done].
  destruct (service_role_key e); cbn [negb]; [|done].
  destruct (db_fault e TwoFaVerify.INSERT_DEVICE) as [[m|]|]; cbn; try done.
  by destruct (relation_missing m).
Qed.

Lemma issue_answer (e : env) (st : store) (req : request) (userId : json)
    (now : string) :
  body (snd (TwoFaVerify.issue e st req userId now))
  = body (TwoFaVerify.enrolled now).
Proof.
  unfold TwoFaVerify.issue.
  destruct (crypto_module e); cbn [negb]; [|done].
  destruct (service_role_key e); cbn [negb]; [|done].
  destruct (db_fault e TwoFaVerify.INSERT_DEVICE) as [[m|]|]; cbn; try done.
  by destruct (relation_missing m).
Qed.

(** An enrollment whose answer announces the configuration went through
    both calls on the profile: the stored preferences were read without
    error and written back with the [totp] entry set. *)
Lemma enrolled_cases (e : env) (st : store) (req : request) :
  truthy (prop "totp" (body (snd (TwoFaVerify.POST e st req)))) = true ->
  let uid := to_String (submitted req "userId") in
  profiles (fst (TwoFaVerify.POST e st req))
  = profiles
      (fst (update_preferences uid
              (JObj
                 (obj_set "totp"
                    (JObj [("enabled", JBool true);
                           ("secret",
                            JStr (to_String (submitted req "secret")));
                           ("createdAt", JStr (now_iso e 0))])
                    (spread (stored_preferences st uid))))
              st))
  ∧ body (snd (TwoFaVerify.POST e st req))
    = body (TwoFaVerify.enrolled (now_iso e 0)).
Proof.
  cbn zeta. unfold TwoFaVerify.POST, submitted.
  destruct (parseJsonOrEmpty req) as [b|]; [|discriminate].
  destruct (truthy (prop "userId" _)); cbn [negb]; [|discriminate].
  destruct (truthy (prop "secret" _)); cbn [negb]; [|discriminate].
  destruct (truthy (prop "token" _)); cbn [negb]; [|discriminate].
  destruct (verifyUserFromRequest _ _ _); [|discriminate].
  destruct (totp_ok _ _ _); cbn [negb]; [|discriminate].
  unfold TwoFaVerify.persist.
  destruct (service_role_key e); cbn [negb]; [|discriminate].
  destruct (db_fault e TwoFaVerify.SELECT_PREFERENCES) as [[m|]|];
    cbn [query]; [|discriminate|].
  { cbn [error]. destruct (preferences_column_missing m); discriminate. }
  rewrite select_profile_answer. cbn [error data].
  rewrite read_preferences.
  destruct (db_fault e TwoFaVerify.UPDATE_PREFERENCES) as [[m|]|];
    cbn [query]; [|discriminate|].
  { cbn [error]. destruct (preferences_column_missing m); discriminate. }
  assert (forall u p s, error (snd (update_preferences u p s)) = None) as Hok.
  { intros u p s. unfold update_preferences. by destruct (profiles s !! u). }
  match goal with
  | |- context [update_preferences ?u ?p st] =>
      specialize (Hok u p st); destruct (update_preferences u p st) as [st2 upd]
  end.
  cbn [fst snd] in *. rewrite Hok. intros _.
  split; [apply issue_profiles|apply issue_answer].
Qed.

(** X23.  An enrollment that announces the new configuration has written it
    next to the other preferences: for a profile whose stored preferences
    are an object, the [totp] entry now holds the submitted secret with
    [enabled: true], every other entry reads as before, and the name,
    username and avatar columns and all other profiles are untouched.  For a
    user id without a profile row the same answer is given although nothing
    is stored. *)
Theorem enrollment_keeps_other_preferences (e : env) (st : store)
    (req : request) (uid : string) :
  let out := TwoFaVerify.POST e st req in
  submitted req "userId" = JStr uid ->
  truthy (prop "totp" (body (snd out))) = true ->
  (forall row fs,
     profiles st !! uid = Some row ->
     stored_preferences st uid = JObj fs ->
     stored_secret (fst out) uid = JStr (to_String (submitted req "secret"))
     ∧ prop "enabled" (stored_totp (fst out) uid) = JBool true
     ∧ (forall k, k <> "totp" ->
          prop k (stored_preferences (fst out) uid)
          = prop k (stored_preferences st uid))
     ∧ ∃ row', profiles (fst out) !! uid = Some row'
               ∧ full_name row' = full_name row
               ∧ username row' = username row
               ∧ avatar_path row' = avatar_path row)
  ∧ (forall k, k <> uid -> profiles (fst out) !! k = profiles st !! k)
  ∧ (profiles st !! uid = None ->
     profiles (fst out) = profiles st
     ∧ stored_totp (fst out) uid = JUndefined).
Proof.
  cbn zeta. intros Hid Hans.
  destruct (enrolled_cases e st req Hans) as [Hprof _].
  cbn zeta in Hprof. rewrite Hid in Hprof. cbn [to_String] in Hprof.
  assert (stored_preferences (fst (TwoFaVerify.POST e st req)) uid
          = match profiles (fst (TwoFaVerify.POST e st req)) !! uid with
            | Some row => or_empty (preferences row)
            | None => JObj []
            end) as Hsp by done.
  unfold stored_secret, stored_totp. rewrite Hsp, Hprof.
  unfold update_preferences.
  split; [|split].
  - intros row fs Hrow Hfs. rewrite Hrow, Hfs. cbn. rewrite lookup_insert_eq.
    cbn. rewrite obj_get_set_eq. cbn.
    split; [done|]. split; [done|]. split.
    + intros k Hk. by rewrite obj_get_set_ne.
    + eexists. by split.
  - intros k Hk. destruct (profiles st !! uid); cbn; [|done].
    by rewrite lookup_insert_ne.
  - intros Hrow. rewrite Hrow. cbn. by rewrite Hrow.
Qed.

Lemma enrollment_keeps_other_preferences_witness :
  truthy
    (prop "totp"
       (body (snd (TwoFaVerify.POST Sample.healthy Sample.db_empty
                     Sample.enroll_right_code)))) = true
  ∧ stored_secret
      (fst (TwoFaVerify.POST Sample.healthy Sample.db_empty
              Sample.enroll_right_code)) Sample.bob
    = JStr "JBSWY3DPEHPK3PXP"
  ∧ prop "theme"
      (stored_preferences
         (fst (TwoFaVerify.POST Sample.healthy Sample.db_empty
                 Sample.enroll_right_code)) Sample.bob)
    = JStr "light".
Proof.
  assert (truthy
            (prop "totp"
               (body (snd (TwoFaVerify.POST Sample.healthy Sample.db_empty
                             Sample.enroll_right_code)))) = true) as Hans
    by (vm_compute; reflexivity).
  assert (submitted Sample.enroll_right_code "userId" = JStr Sample.bob)
    as Hid by (vm_compute; reflexivity).
  destruct (enrollment_keeps_other_preferences Sample.healthy Sample.db_empty
              Sample.enroll_right_code Sample.bob Hid Hans) as [Hrow _].
  destruct (Hrow Sample.bob_row [("theme", JStr "light")])
    as (Hsecret & _ & Hkeep & _); [vm_compute; reflexivity..|].
  split; [exact Hans|]. split; [exact Hsecret|].
  rewrite (Hkeep "theme"); [vm_compute; reflexivity|discriminate].
Defined.

Lemma revoke_profiles (e : env) (st : store) (userId : json) :
  profiles (fst (TwoFaDisable.revoke e st userId)) = profiles st.
Proof.
  unfold TwoFaDisable.revoke.
  destruct (service_role_key e); cbn [negb]; [|done].
  destruct (db_fault e TwoFaDisable.DELETE_DEVICES) as [[m|]|]; cbn; try done.
  by destruct (relation_missing m).
Qed.

(** What a disable request does to the profiles: nothing, or it writes the
    stored preferences back without their [totp] entry. *)
Lemma disable_profiles (e : env) (st : store) (req : request) :
  let uid := to_String (submitted req "userId") in
  profiles (fst (TwoFaDisable.POST e st req)) = profiles st
  ∨ (truthy (stored_totp st uid) = true
     ∧ profiles (fst (TwoFaDisable.POST e st req))
       = profiles
           (fst (update_preferences uid
                   (JObj (obj_delete "totp"
                            (spread (stored_preferences st uid))))
                   st))).
Proof.
  cbn zeta. unfold TwoFaDisable.POST, submitted, parseJsonOrEmpty, req_json.
  destruct (req_payload req) as [| |b]; [by left..|].
  destruct (truthy (prop "userId" _)); cbn [negb]; [|by left].
  destruct (verifyUserFromRequest _ _ _); [|by left].
  destruct (service_role_key e); cbn [negb]; [|by left].
  destruct (db_fault e TwoFaDisable.SELECT_PREFERENCES) as [[m|]|];
    cbn [query]; [|by left|].
  { cbn [error]. destruct (preferences_column_missing m); by left. }
  rewrite select_profile_answer. cbn [error data].
  rewrite read_preferences.
  fold (stored_totp st (to_String (prop "userId" (or_empty b)))).
  destruct (truthy (stored_totp st _)) eqn:Htotp.
  2: { left. apply revoke_profiles. }
  destruct (db_fault e TwoFaDisable.UPDATE_PREFERENCES) as [[m|]|];
    cbn [query]; [|by left|].
  { cbn [error]. destruct (preferences_column_missing m); by left. }
  right. split; [done|].
  assert (forall u p s, error (snd (update_preferences u p s)) = None) as Hok.
  { intros u p s. unfold update_preferences. by destruct (profiles s !! u). }
  match goal with
  | |- context [update_preferences ?u ?p st] =>
      specialize (Hok u p st); destruct (update_preferences u p st) as [st2 upd]
  end.
  cbn [fst snd] in *. rewrite Hok. apply revoke_profiles.
Qed.

(** X24.  Disabling 2FA removes the [totp] entry and nothing else from the
    profile: for a profile whose stored preferences are an object, every
    other entry reads as before, the name, username and avatar columns stay,
    and the other profiles are untouched; for a user without a [totp] entry
    no profile is written at all. *)
Theorem disable_keeps_other_preferences (e : env) (st : store)
    (req : request) (uid : string) (fs : list (string * json)) :
  let out := TwoFaDisable.POST e st req in
  submitted req "userId" = JStr uid ->
  stored_preferences st uid = JObj fs ->
  (forall k, k <> "totp" ->
     prop k (stored_preferences (fst out) uid)
     = prop k (stored_preferences st uid))
  ∧ (forall k, k <> uid -> profiles (fst out) !! k = profiles st !! k)
  ∧ (forall k,
       (fun row => (full_name row, username row, avatar_path row))
         <$> profiles (fst out) !! k
       = (fun row => (full_name row, username row, avatar_path row))
           <$> profiles st !! k)
  ∧ (truthy (stored_totp st uid) = false ->
     profiles (fst out) = profiles st).
Proof.
  cbn zeta. intros Hid Hfs.
  assert (stored_preferences (fst (TwoFaDisable.POST e st req)) uid
          = match profiles (fst (TwoFaDisable.POST e st req)) !! uid with
            | Some row => or_empty (preferences row)
            | None => JObj []
            end) as Hsp by done.
  destruct (disable_profiles e st req) as [Hsame|[Htotp Hprof]];
    cbn zeta in *.
  { rewrite Hsp, Hsame. by repeat split. }
  rewrite Hid in Htotp, Hprof. cbn [to_String] in Htotp, Hprof.
  rewrite Hsp, Hprof. unfold update_preferences.
  destruct (profiles st !! uid) as [row|] eqn:Hrow; cbn [fst profiles].
  2: { unfold stored_totp, stored_preferences in Htotp.
       rewrite Hrow in Htotp. discriminate. }
  rewrite lookup_insert_eq. cbn. rewrite Hfs. cbn.
  split; [|split; [|split]].
  - intros k Hk. by rewrite obj_get_delete_ne.
  - intros k Hk. by rewrite lookup_insert_ne.
  - intros k. destruct (decide (k = uid)) as [->|Hk].
    + by rewrite lookup_insert_eq, Hrow.
    + by rewrite lookup_insert_ne.
  - congruence.
Qed.

Lemma disable_keeps_other_preferences_witness :
  prop "theme"
    (stored_preferences
       (fst (TwoFaDisable.POST Sample.healthy Sample.db Sample.disable_ann))
       Sample.ann)
  = JStr "dark"
  ∧ profiles (fst (TwoFaDisable.POST Sample.healthy Sample.db
                     Cases.disable_bob))
    = profiles Sample.db.
Proof.
  split.
  - destruct (disable_keeps_other_preferences Sample.healthy Sample.db
                Sample.disable_ann Sample.ann
                [("theme", JStr "dark"); ("totp", Sample.ann_totp)])
      as (Hkeep & _); [vm_compute; reflexivity..|].
    rewrite (Hkeep "theme"); [vm_compute; reflexivity|discriminate].
  - destruct (disable_keeps_other_preferences Sample.healthy Sample.db
                Cases.disable_bob Sample.bob [("theme", JStr "light")])
      as (_ & _ & _ & Hnone); [vm_compute; reflexivity..|].
    apply Hnone. vm_compute. reflexivity.
Defined.

(** X25.  The refresh route changes nothing but [last_seen] columns: the
    profiles are as before, the records are the same in number, order and
    every other column, and no cookie is set.  It identifies nobody: the
    answer and the effect depend on the request through the
    [trusted_device] cookie alone. *)
Theorem refresh_frame (e : env) (st : store) (req : request) :
  profiles (fst (Refresh.POST e st req)) = profiles st
  ∧ List.map but_last_seen (trusted_devices (fst (Refresh.POST e st req)))
    = List.map but_last_seen (trusted_devices st)
  ∧ cookies (snd (Refresh.POST e st req)) = []
  ∧ (forall req',
       req_cookies req' !! "trusted_device"
       = req_cookies req !! "trusted_device" ->
       Refresh.POST e st req' = Refresh.POST e st req).
Proof.
  assert (forall h now,
            profiles (fst (touch_devices h now st)) = profiles st
            ∧ List.map but_last_seen
                (trusted_devices (fst (touch_devices h now st)))
              = List.map but_last_seen (trusted_devices st)) as Htouch.
  { intros h now. unfold touch_devices.
    destruct (error (maybeSingle _)); cbn; [done|]. split; [done|].
    rewrite List.map_map. apply List.map_ext. intros d.
    by destruct (has_hash h d). }
  split; [|split; [|split]].
  4: { intros req' Hc. unfold Refresh.POST, Refresh.POST_outcome.
       by rewrite Hc. }
  all: unfold Refresh.POST, Refresh.POST_outcome;
    destruct (nonempty (req_cookies req !! "trusted_device")) as [raw|];
      [|done];
    destruct (crypto_module e); cbn [negb]; [|done];
    destruct (service_role_key e); cbn [negb]; [|done];
    destruct (db_fault e Refresh.UPDATE_LAST_SEEN) as [[m|]|]; cbn [query];
      [cbn [error]; by destruct (relation_missing m)|done|];
    destruct (Htouch (sha256_hex e raw) (now_iso e 0)) as [H1 H2];
    destruct (touch_devices _ _ st) as [st' res]; cbn [fst snd] in *;
    destruct (error res) as [m|];
      [by destruct (relation_missing m)|by destruct (data res)].
Qed.

(** X26.  Refreshing a known token.  When exactly one record has the hash
    of the presented token, the refresh route sets that record's
    [last_seen] to the current time, leaves every record at its place with
    its other columns, and answers [updated: true] with the id and the user
    id of the record - to whoever presents the token.  When several records
    have that hash the statement is refused as a whole: the answer is a 500
    and nothing is touched. *)
Theorem refresh_known_token (e : env) (st : store) (req : request)
    (raw : string) :
  let h := sha256_hex e raw in
  let now := now_iso e 0 in
  req_cookies req !! "trusted_device" = Some raw ->
  raw <> "" ->
  crypto_module e = true ->
  service_role_key e = true ->
  db_fault e Refresh.UPDATE_LAST_SEEN = None ->
  (forall d,
     List.filter (has_hash h) (trusted_devices st) = [d] ->
     snd (Refresh.POST e st req)
     = json_response 200
         (JObj [("updated", JBool true); ("id", JStr (d_id d));
                ("userId", JStr (d_user_id d))])
     ∧ trusted_devices (fst (Refresh.POST e st req))
       = List.map (fun y => if has_hash h y then seen_at now y else y)
           (trusted_devices st)
     ∧ seen_at now d ∈ trusted_devices (fst (Refresh.POST e st req)))
  ∧ ((2 <= length (List.filter (has_hash h) (trusted_devices st)))%nat ->
     fst (Refresh.POST e st req) = st
     ∧ status (snd (Refresh.POST e st req)) = 500).
Proof.
  cbn zeta. intros Hc Hraw Hcr Hkey Hf.
  assert (Refresh.POST e st req
          = match
              error (snd (touch_devices (sha256_hex e raw) (now_iso e 0) st))
            with
            | Some m =>
                if relation_missing m
                then (fst (touch_devices (sha256_hex e raw) (now_iso e 0) st),
                      Refresh.not_updated "warning"
                        "trusted_devices table missing")
                else (fst (touch_devices (sha256_hex e raw) (now_iso e 0) st),
                      isoError m)
            | None =>
                match
                  data (snd (touch_devices (sha256_hex e raw) (now_iso e 0) st))
                with
                | None =>
                    (fst (touch_devices (sha256_hex e raw) (now_iso e 0) st),
                     Refresh.not_updated "reason" "no match")
                | Some d =>
                    (fst (touch_devices (sha256_hex e raw) (now_iso e 0) st),
                     json_response 200
                       (JObj [("updated", JBool true); ("id", JStr (d_id d));
                              ("userId", JStr (d_user_id d))]))
                end
            end) as ->.
  { unfold Refresh.POST, Refresh.POST_outcome. rewrite Hc.
    destruct (nonempty (Some raw)) as [raw'|] eqn:Hn.
    2: { cbn in Hn. destruct (String.eqb_spec raw ""); congruence. }
    apply nonempty_Some in Hn as <-.
    rewrite Hcr, Hkey, Hf. cbn [negb query].
    destruct (touch_devices _ _ st) as [st' res]. cbn [fst snd].
    destruct (error res) as [m|];
      [by destruct (relation_missing m)|by destruct (data res)]. }
  unfold touch_devices. split.
  - intros d Hd. rewrite Hd. cbn.
    split; [done|]. split; [done|].
    apply list_elem_of_In, in_map_iff. exists d.
    assert (In d (List.filter (has_hash (sha256_hex e raw))
                    (trusted_devices st))) as Hin by (rewrite Hd; by left).
    apply filter_In in Hin as [Hin Hh]. by rewrite Hh.
  - intros Hlen.
    destruct (List.filter _ (trusted_devices st)) as [|d1 [|d2 l]];
      cbn in Hlen; try lia.
    cbn. split; [done|]. done.
Qed.

Lemma refresh_known_token_witness :
  List.filter (has_hash (sha256_hex Sample.healthy "a1b2"))
    (trusted_devices Sample.db)
  = [Sample.device_of "device-1" Sample.ann "a1b2"]
  ∧ snd (Refresh.POST Sample.healthy Sample.db Cases.refresh_a1b2)
    = json_response 200
        (JObj [("updated", JBool true); ("id", JStr "device-1");
               ("userId", JStr Sample.ann)])
  ∧ List.map d_last_seen
      (trusted_devices
         (fst (Refresh.POST Sample.healthy Sample.db Cases.refresh_a1b2)))
    = ["2025-11-12T09:00:00.000Z"; "2025-11-01T08:00:00.000Z"].
Proof.
  assert (List.filter (has_hash (sha256_hex Sample.healthy "a1b2"))
            (trusted_devices Sample.db)
          = [Sample.device_of "device-1" Sample.ann "a1b2"]) as Hone
    by (vm_compute; reflexivity).
  destruct (refresh_known_token Sample.healthy Sample.db Cases.refresh_a1b2
              "a1b2") as [Hknown _];
    try (vm_compute; reflexivity); [discriminate|].
  destruct (Hknown _ Hone) as (Hanswer & Hledger & _).
  split; [exact Hone|]. split; [exact Hanswer|].
  rewrite Hledger. vm_compute. reflexivity.
Defined.

(** X27.  The enrollment route keeps the secret to itself when it succeeds:
    whatever the request and the state of the backend, a 200 answer of the
    enrollment completion holds no text but the time of enrollment and the
    wording of its warning, so the submitted secret occurs in it only if it
    is one of these. *)
Theorem enrollment_answer_hides_secret (e : env) (st : store) (req : request)
    (s : string) :
  status (snd (TwoFaVerify.POST e st req)) = 200 ->
  appears s (body (snd (TwoFaVerify.POST e st req))) ->
  s = now_iso e 0
  ∨ s = "preferences column missing; totp not persisted".
Proof.
  unfold TwoFaVerify.POST.
  destruct (parseJsonOrEmpty req) as [b|]; [|discriminate].
  destruct (truthy (prop "userId" _)); cbn [negb]; [|discriminate].
  destruct (truthy (prop "secret" _)); cbn [negb]; [|discriminate].
  destruct (truthy (prop "token" _)); cbn [negb]; [|discriminate].
  destruct (verifyUserFromRequest _ _ _) eqn:Hv.
  2: { apply refused_statuses in Hv. cbn. lia. }
  destruct (totp_ok _ _ _); cbn [negb]; [|discriminate].
  unfold TwoFaVerify.persist.
  destruct (service_role_key e); cbn [negb]; [|discriminate].
  assert (appears s (body TwoFaVerify.not_persisted) ->
          s = now_iso e 0
          ∨ s = "preferences column missing; totp not persisted") as Hwarn.
  { unfold appears. cbn. intros [<-|[]]. by right. }
  destruct (db_fault e TwoFaVerify.SELECT_PREFERENCES) as [[m|]|];
    cbn [query]; [|discriminate|].
  { cbn [error]. destruct (preferences_column_missing m);
      [intros _; exact Hwarn|discriminate]. }
  rewrite select_profile_answer. cbn [error data].
  destruct (db_fault e TwoFaVerify.UPDATE_PREFERENCES) as [[m|]|];
    cbn [query]; [|discriminate|].
  { cbn [error]. destruct (preferences_column_missing m);
      [intros _; exact Hwarn|discriminate]. }
  assert (forall u p s, error (snd (update_preferences u p s)) = None) as Hok.
  { intros u p s0. unfold update_preferences. by destruct (profiles s0 !! u). }
  match goal with
  | |- context [update_preferences ?u ?p st] =>
      specialize (Hok u p st); destruct (update_preferences u p st) as [st2 upd]
  end.
  cbn [fst snd] in *. rewrite Hok. intros _.
  rewrite issue_answer. unfold appears. cbn. intros [<-|[]]. by left.
Qed.

Lemma enrollment_answer_hides_secret_witness :
  status (snd (TwoFaVerify.POST Sample.healthy Sample.db_empty
                 Sample.enroll_right_code)) = 200
  ∧ stored_secret
      (fst (TwoFaVerify.POST Sample.healthy Sample.db_empty
              Sample.enroll_right_code)) Sample.bob
    = JStr "JBSWY3DPEHPK3PXP"
  ∧ ~ appears "JBSWY3DPEHPK3PXP"
        (body (snd (TwoFaVerify.POST Sample.healthy Sample.db_empty
                      Sample.enroll_right_code))).
Proof.
  assert (status (snd (TwoFaVerify.POST Sample.healthy Sample.db_empty
                         Sample.enroll_right_code)) = 200) as Hs
    by (vm_compute; reflexivity).
  split; [exact Hs|]. split; [vm_compute; reflexivity|].
  intros Happ.
  destruct (enrollment_answer_hides_secret Sample.healthy Sample.db_empty
              Sample.enroll_right_code "JBSWY3DPEHPK3PXP" Hs Happ)
    as [H|H]; vm_compute in H; discriminate.
Defined.

End SecondFactor.

(* ===================================================================== *)
(** * Avatar uploads *)
(* ===================================================================== *)

Section Uploads.
Import AvatarUpload.
Local Open Scope Z_scope.

Lemma validate_accepts (fields : gmap string field) (name : string) :
  validate fields = Returned (inr name) ->
  ∃ type size,
    fields !! "file" = Some (File name type size)
    ∧ size <> 0
    ∧ size <= MAX_BYTES
    ∧ (member type ALLOWED_MIMES = true
       ∨ ∃ raw, filename_of fields name "" = Returned raw
                ∧ inferred (toLowerCase (last_segment raw)) = true).
Proof.
  unfold validate.
  destruct (fields !! "file") as [[s|name' type size]|]; [| |discriminate].
  { destruct (String.eqb s ""); discriminate. }
  destruct (Z.eqb_spec size 0) as [|Hsize]; [discriminate|].
  destruct (Z.gtb_spec size MAX_BYTES) as [|Hmax]; [discriminate|].
  destruct (String.eqb type "" || negb (member type ALLOWED_MIMES)) eqn:Hmime.
  - destruct (filename_of fields name' "") as [raw|] eqn:Hraw; [|discriminate].
    destruct (inferred _) eqn:Hinf; [|discriminate].
    intros [= <-]. exists type, size. repeat split; try done.
    right. by exists raw.
  - intros [= <-]. exists type, size. repeat split; try done.
    left. apply orb_false_iff in Hmime as [_ Hm].
    by apply negb_false_iff in Hm.
Qed.

Lemma validate_refusals (fields : gmap string field) (r : response) :
  validate fields = Returned (inl r) -> status r <> 200 ∧ cookies r = [].
Proof.
  unfold validate.
  destruct (fields !! "file") as [[s|name' type size]|].
  - destruct (String.eqb s ""); by intros [= <-].
  - destruct (size =? 0); [by intros [= <-]|].
    destruct (size >? MAX_BYTES); [by intros [= <-]|].
    destruct (_ || _); [|discriminate].
    destruct (filename_of _ _ _); [|discriminate].
    destruct (inferred _); [discriminate|by intros [= <-]].
  - by intros [= <-].
Qed.

(** The outcome of an upload: a refusal that writes nothing, or the whole
    chain from the session to the storage. *)
Lemma upload_POST_cases (e : env) (u : settings) (st : store)
    (cookies : gmap string string) (form : outcome (gmap string field)) :
  (fst (POST e u st cookies form) = st
   ∧ status (snd (POST e u st cookies form)) <> 200)
  ∨ ∃ uid fields name raw stamp,
      session_user e cookies = Returned (Some uid)
      ∧ form = Returned fields
      ∧ validate fields = Returned (inr name)
      ∧ sharp_succeeds u = true
      ∧ service_role_key e = true
      ∧ named u fields name = Returned (raw, stamp)
      ∧ upload u = Returned None
      ∧ POST e u st cookies form
        = (persist e st uid (path_of u uid raw stamp),
           uploaded e (path_of u uid raw stamp)).
Proof.
  unfold POST.
  destruct (session_user e cookies) as [[uid|]|] eqn:Hs; [| by left..].
  destruct form as [fields|]; [|by left].
  destruct (validate fields) as [[r|name]|] eqn:Hv; [| |by left].
  { left. apply validate_refusals in Hv as [? _]. done. }
  destruct (sharp_succeeds u); cbn [negb]; [|by left].
  destruct (service_role_key e); cbn [negb]; [|by left].
  destruct (named u fields name) as [[raw stamp]|] eqn:Hn; [|by left].
  destruct (upload u) as [[m|]|] eqn:Hu; [by left| |by left].
  right. by exists uid, fields, name, raw, stamp.
Qed.

(** X28.  What an accepted upload went through.  An avatar upload that
    writes to the profiles or is answered with 200 came with a session, a
    file that is not empty and not over 5 MB, and a declared type of the
    allowed list or, failing that, a file name whose extension is a key of
    the extension table - one of its own six, or one that every object
    inherits ([constructor], [__proto__]); the image was processed and
    stored. *)
Theorem upload_is_validated (e : env) (u : settings) (st : store)
    (cookies : gmap string string) (form : outcome (gmap string field)) :
  fst (POST e u st cookies form) <> st
  ∨ status (snd (POST e u st cookies form)) = 200 ->
  ∃ uid fields name type size,
    session_user e cookies = Returned (Some uid)
    ∧ form = Returned fields
    ∧ fields !! "file" = Some (File name type size)
    ∧ size <> 0
    ∧ size <= MAX_BYTES
    ∧ (member type ALLOWED_MIMES = true
       ∨ ∃ raw, filename_of fields name "" = Returned raw
                ∧ (member (toLowerCase (last_segment raw)) own_extensions
                   = true
                   ∨ member (toLowerCase (last_segment raw)) inherited_keys
                     = true))
    ∧ sharp_succeeds u = true
    ∧ upload u = Returned None
    ∧ status (snd (POST e u st cookies form)) = 200.
Proof.
  intros Hdone.
  destruct (upload_POST_cases e u st cookies form)
    as [[Hst Hs]|(uid & fields & name & raw & stamp & Hu & Hf & Hv & Hsharp
                  & _ & _ & Hup & Hout)].
  { destruct Hdone; contradiction. }
  apply validate_accepts in Hv as (type & size & Hfile & H0 & Hmax & Htype).
  exists uid, fields, name, type, size. rewrite Hout.
  repeat split; try done.
  destruct Htype as [Ht|(raw' & Hraw & Hinf)]; [by left|].
  right. exists raw'. split; [done|].
  unfold inferred in Hinf. by apply orb_true_iff in Hinf.
Qed.

Lemma upload_is_validated_witness :
  status (snd (POST Sample.healthy Cases.working Sample.db Cases.bob_session
                 (Returned Cases.odd_upload))) = 200
  ∧ ∃ uid fields name type size,
      session_user Sample.healthy Cases.bob_session = Returned (Some uid)
      ∧ Returned Cases.odd_upload = Returned fields
      ∧ fields !! "file" = Some (File name type size)
      ∧ size <> 0
      ∧ size <= MAX_BYTES
      ∧ (member type ALLOWED_MIMES = true
         ∨ ∃ raw, filename_of fields name "" = Returned raw
                  ∧ (member (toLowerCase (last_segment raw)) own_extensions
                     = true
                     ∨ member (toLowerCase (last_segment raw)) inherited_keys
                       = true))
      ∧ sharp_succeeds Cases.working = true
      ∧ upload Cases.working = Returned None
      ∧ status (snd (POST Sample.healthy Cases.working Sample.db
                       Cases.bob_session (Returned Cases.odd_upload))) = 200.
Proof.
  assert (status (snd (POST Sample.healthy Cases.working Sample.db
                         Cases.bob_session (Returned Cases.odd_upload)))
          = 200) as Hs by (vm_compute; reflexivity).
  split; [exact Hs|].
  exact (upload_is_validated Sample.healthy Cases.working Sample.db
           Cases.bob_session (Returned Cases.odd_upload) (or_intror Hs)).
Defined.

Lemma underscore_safe (s : string) (c : ascii) :
  c ∈ Sanitizer.chars (underscore s) -> safe_char c = true.
Proof.
  induction s as [|a s IH]; cbn.
  - by intros ?%elem_of_nil.
  - rewrite elem_of_cons. intros [->|Hc]; [|by apply IH].
    destruct (safe_char a) eqn:Ha; [done|reflexivity].
Qed.

Lemma strip_extension_chars (s : string) (c : ascii) :
  c ∈ Sanitizer.chars (strip_extension s) -> c ∈ Sanitizer.chars s.
Proof.
  induction s as [|a s IH]; cbn; [done|].
  destruct (_ && _ && _); cbn.
  - by intros ?%elem_of_nil.
  - rewrite !elem_of_cons. intros [->|Hc]; [by left|right; by apply IH].
Qed.

Lemma persist_columns (e : env) (st : store) (uid path : string) :
  profile_columns_only uid st (persist e st uid path)
  ∧ (forall row',
       profiles (persist e st uid path) !! uid = Some row' ->
       ∃ row, profiles st !! uid = Some row
              ∧ full_name row' = full_name row
              ∧ username row' = username row
              ∧ (avatar_path row' = avatar_path row
                 ∨ avatar_path row' = Some path))
  ∧ (db_fault e UPDATE_AVATAR_PATH = None ->
     is_Some (profiles st !! uid) ->
     avatar_path <$> profiles (persist e st uid path) !! uid
     = Some (Some path)).
Proof.
  unfold persist.
  destruct (db_fault e UPDATE_AVATAR_PATH) as [[m|]|]; cbn [query].
  1,2: split; [apply profile_columns_only_refl|];
    (split; [intros row' Hrow; exists row'; repeat split; try done; by left|]);
    discriminate.
  destruct (update_profile_columns uid
              {| set_full_name := None; set_username := None;
                 set_avatar_path := Some path |} st) as [Hcols _].
  unfold update_profile in *. cbn [set_username] in *.
  destruct (profiles st !! uid) as [row|] eqn:Hrow; cbn [fst] in *.
  - split; [done|]. cbn. rewrite lookup_insert_eq. split.
    + intros row' [= <-]. exists row. cbn. repeat split; try done.
      by right.
    + by intros _ _.
  - split; [done|]. cbn. rewrite Hrow. split; [done|].
    by intros _ [? ?].
Qed.

(** X29.  Where an upload puts the image and what it writes.  An upload
    answered with 200 reports the path
    [<bucket>/<user id>/<time>-<base>.webp], where the user id is the one of
    the session and [<base>] is made of letters, digits, dots, underscores
    and hyphens only, so the file name chosen by the client cannot add a
    folder to the path.  On the tables it touches nothing but the avatar
    path of that user's profile, which it sets to the reported path whenever
    the profile exists and the write succeeds. *)
Theorem uploaded_path_shape (e : env) (u : settings) (st : store)
    (cookies : gmap string string) (form : outcome (gmap string field)) :
  status (snd (POST e u st cookies form)) = 200 ->
  ∃ uid raw stamp,
    session_user e cookies = Returned (Some uid)
    ∧ prop "path" (body (snd (POST e u st cookies form)))
      = JStr (path_of u uid raw stamp)
    ∧ (forall c,
         c ∈ Sanitizer.chars (strip_extension (underscore raw)) ->
         safe_char c = true)
    ∧ profile_columns_only uid st (fst (POST e u st cookies form))
    ∧ (forall row',
         profiles (fst (POST e u st cookies form)) !! uid = Some row' ->
         ∃ row, profiles st !! uid = Some row
                ∧ full_name row' = full_name row
                ∧ username row' = username row
                ∧ (avatar_path row' = avatar_path row
                   ∨ avatar_path row' = Some (path_of u uid raw stamp)))
    ∧ (db_fault e UPDATE_AVATAR_PATH = None ->
       is_Some (profiles st !! uid) ->
       avatar_path <$> profiles (fst (POST e u st cookies form)) !! uid
       = Some (Some (path_of u uid raw stamp))).
Proof.
  intros Hs.
  destruct (upload_POST_cases e u st cookies form)
    as [[_ Hne]|(uid & fields & name & raw & stamp & Hu & _ & _ & _ & _ & _
                 & _ & Hout)]; [done|].
  exists uid, raw, stamp. rewrite Hout. cbn [fst snd].
  destruct (persist_columns e st uid (path_of u uid raw stamp))
    as (Hcols & Hrow & Hset).
  split; [done|]. split; [done|].
  split; [|split; [exact Hcols|split; [exact Hrow|exact Hset]]].
  intros c Hc. by apply strip_extension_chars, underscore_safe in Hc.
Qed.

Lemma uploaded_path_shape_witness :
  status (snd (POST Sample.healthy Cases.working Sample.db Cases.bob_session
                 (Returned Cases.picture))) = 200
  ∧ prop "path"
      (body (snd (POST Sample.healthy Cases.working Sample.db
                    Cases.bob_session (Returned Cases.picture))))
    = JStr "avatars/user-bob/1762938000000-my_face.webp"
  ∧ ∃ uid raw stamp,
      session_user Sample.healthy Cases.bob_session = Returned (Some uid)
      ∧ prop "path"
          (body (snd (POST Sample.healthy Cases.working Sample.db
                        Cases.bob_session (Returned Cases.picture))))
        = JStr (path_of Cases.working uid raw stamp)
      ∧ (forall c,
           c ∈ Sanitizer.chars (strip_extension (underscore raw)) ->
           safe_char c = true)
      ∧ profile_columns_only uid Sample.db
          (fst (POST Sample.healthy Cases.working Sample.db Cases.bob_session
                  (Returned Cases.picture)))
      ∧ (forall row',
           profiles
             (fst (POST Sample.healthy Cases.working Sample.db
                     Cases.bob_session (Returned Cases.picture))) !! uid
           = Some row' ->
           ∃ row, profiles Sample.db !! uid = Some row
                  ∧ full_name row' = full_name row
                  ∧ username row' = username row
                  ∧ (avatar_path row' = avatar_path row
                     ∨ avatar_path row'
                       = Some (path_of Cases.working uid raw stamp)))
      ∧ (db_fault Sample.healthy UPDATE_AVATAR_PATH = None ->
         is_Some (profiles Sample.db !! uid) ->
         avatar_path
           <$> profiles
                 (fst (POST Sample.healthy Cases.working Sample.db
                         Cases.bob_session (Returned Cases.picture))) !! uid
         = Some (Some (path_of Cases.working uid raw stamp))).
Proof.
  assert (status (snd (POST Sample.healthy Cases.working Sample.db
                         Cases.bob_session (Returned Cases.picture))) = 200)
    as Hs by (vm_compute; reflexivity).
  split; [exact Hs|]. split; [vm_compute; reflexivity|].
  exact (uploaded_path_shape Sample.healthy Cases.working Sample.db
           Cases.bob_session (Returned Cases.picture) Hs).
Defined.

(** A text that ends in something other than white space is left alone by
    [trimEnd], and so is every text that ends with it. *)
Lemma trimEnd_append (s t : string) :
  t <> "" -> trimEnd t = t -> trimEnd (s +:+ t) = s +:+ t.
Proof.
  intros Hne Ht. induction s as [|c s IH]; [done|].
  rewrite append_cons. cbn [trimEnd]. rewrite IH.
  destruct (s +:+ t) eqn:Hst; [|done].
  destruct s; [rewrite append_nil in Hst; congruence|].
  rewrite append_cons in Hst. discriminate.
Qed.

Lemma path_of_trimmed (u : settings) (uid raw : string) (stamp : Z) :
  AVATAR_BUCKET u = "avatars" ->
  trim (path_of u uid raw stamp) = path_of u uid raw stamp
  ∧ ProfileUpdate.drop_leading_slash (path_of u uid raw stamp)
    = path_of u uid raw stamp
  ∧ startsWith (path_of u uid raw stamp) "avatars/" = true
  ∧ ProfileUpdate.drop_chars 8 (path_of u uid raw stamp)
    = uid +:+ "/" +:+ pretty stamp +:+ "-"
      +:+ strip_extension (underscore raw) +:+ ".webp".
Proof.
  intros Hb. unfold path_of. rewrite Hb.
  assert (forall r, "avatars" +:+ "/" +:+ r
                    = String "a" (String "v" (String "a" (String "t"
                        (String "a" (String "r" (String "s"
                           (String "/" r)))))))) as Hhead by done.
  set (rest := uid +:+ "/" +:+ pretty stamp +:+ "-"
               +:+ strip_extension (underscore raw) +:+ ".webp").
  rewrite (Hhead rest).
  split; [|split; [done|split; [|done]]].
  - unfold trim. cbn [trimStart is_space nat_of_ascii]. cbn -[trimEnd].
    rewrite <- (Hhead rest). subst rest.
    rewrite !append_assoc. apply trimEnd_append; [discriminate|done].
  - unfold startsWith. rewrite !prefix_cons. cbn.
    by destruct rest.
Qed.

(** X30.  The path an upload reports is one the profile route takes.  When
    the bucket is [avatars], the session's user id is plain text without
    white space and the reported path has at most 1000 characters, the body
    the dashboard posts next to the profile route - the user id and that
    path - passes the route's checks of the avatar path unchanged, so a
    verified request with it writes the very same path. *)
Theorem uploaded_path_is_accepted (e : env) (u : settings) (st : store)
    (cookies : gmap string string) (form : outcome (gmap string field))
    (uid path : string) :
  status (snd (POST e u st cookies form)) = 200 ->
  session_user e cookies = Returned (Some uid) ->
  prop "path" (body (snd (POST e u st cookies form))) = JStr path ->
  AVATAR_BUCKET u = "avatars" ->
  (forall c, c ∈ Sanitizer.chars uid ->
             is_space c = false ∧ (nat_of_ascii c < 128)%nat) ->
  (String.length path <= 1000)%nat ->
  ProfileUpdate.updates_of (follow_up uid (snd (POST e u st cookies form)))
  = inr {| set_full_name := None; set_username := None;
           set_avatar_path := Some path |}
  ∧ (forall e' st' req id via,
       req_payload req
       = Parsed (follow_up uid (snd (POST e u st cookies form))) ->
       uid <> "" ->
       verifyUserFromRequest e' req (JStr uid) = Verified id via ->
       ProfileUpdate.POST e' st' req
       = ProfileUpdate.write e' st' (JStr uid)
           {| set_full_name := None; set_username := None;
              set_avatar_path := Some path |}).
Proof.
  intros Hs Hu Hpath Hb Huid Hlen.
  assert (ProfileUpdate.updates_of
            (follow_up uid (snd (POST e u st cookies form)))
          = inr {| set_full_name := None; set_username := None;
                   set_avatar_path := Some path |}) as Hupd.
  { destruct (upload_POST_cases e u st cookies form)
      as [[_ Hne]|(uid' & fields & name & raw & stamp & Hu' & _ & _ & _ & _
                   & _ & _ & Hout)]; [done|].
    rewrite Hu in Hu'. injection Hu' as <-.
    rewrite Hout in Hpath. cbn in Hpath. injection Hpath as <-.
    rewrite Hout. cbn [snd]. unfold ProfileUpdate.updates_of.
    assert (forall r k,
              k <> "userId" -> k <> "avatar_path" ->
              prop k (or_empty (follow_up uid r)) = JUndefined) as Hother.
    { intros r k H1 H2. unfold follow_up. cbn.
      apply String.eqb_neq in H1, H2. by rewrite H1, H2. }
    rewrite (Hother (uploaded e (path_of u uid raw stamp)) "full_name"
               ltac:(discriminate) ltac:(discriminate)).
    rewrite (Hother (uploaded e (path_of u uid raw stamp)) "username"
               ltac:(discriminate) ltac:(discriminate)).
    assert (prop "avatar_path"
              (or_empty (follow_up uid (uploaded e (path_of u uid raw stamp))))
            = JStr (path_of u uid raw stamp)) as -> by reflexivity.
    cbn [ProfileUpdate.as_string].
    destruct (path_of_trimmed u uid raw stamp Hb)
      as (Htrim & Hslash & Hpre & Hrest).
    assert ((ProfileUpdate.MAX_PATH
             <? String.length (path_of u uid raw stamp))%nat = false) as ->.
    { apply Nat.ltb_ge. exact Hlen. }
    rewrite Htrim, Hslash. unfold ProfileUpdate.avatar_pattern.
    rewrite Hpre, Hrest. cbn [andb].
    destruct uid as [|c r].
    - done.
    - rewrite append_cons.
      destruct (Huid c) as [Hsp Hascii]; [cbn; apply elem_of_cons; by left|].
      unfold ProfileUpdate.line_terminator_first.
      unfold is_space in Hsp. cbn zeta in Hsp.
      destruct (Nat.eqb_spec (nat_of_ascii c) 10) as [H10|_];
        [rewrite H10 in Hsp; discriminate|].
      destruct (Nat.eqb_spec (nat_of_ascii c) 13) as [H13|_];
        [rewrite H13 in Hsp; discriminate|].
      destruct (Nat.eqb_spec (nat_of_ascii c) 226) as [H226|_]; [lia|].
      done. }
  split; [exact Hupd|].
  intros e' st' req id via Hreq Hne Hv.
  unfold ProfileUpdate.POST, req_json. rewrite Hreq.
  assert (prop "userId"
            (or_empty (follow_up uid (snd (POST e u st cookies form))))
          = JStr uid) as -> by done.
  assert (truthy (JStr uid) = true) as ->.
  { cbn. apply negb_true_iff. by apply String.eqb_neq. }
  cbn [negb]. rewrite Hv, Hupd. done.
Qed.

Lemma uploaded_path_is_accepted_witness :
  prop "path"
    (body (snd (POST Sample.healthy Cases.working Sample.db Cases.bob_session
                  (Returned Cases.picture))))
  = JStr "avatars/user-bob/1762938000000-my_face.webp"
  ∧ ProfileUpdate.updates_of
      (follow_up Sample.bob
         (snd (POST Sample.healthy Cases.working Sample.db Cases.bob_session
                 (Returned Cases.picture))))
    = inr {| set_full_name := None; set_username := None;
             set_avatar_path :=
               Some "avatars/user-bob/1762938000000-my_face.webp" |}.
Proof.
  assert (prop "path"
            (body (snd (POST Sample.healthy Cases.working Sample.db
                          Cases.bob_session (Returned Cases.picture))))
          = JStr "avatars/user-bob/1762938000000-my_face.webp") as Hpath
    by (vm_compute; reflexivity).
  split; [exact Hpath|].
  refine (proj1
            (uploaded_path_is_accepted Sample.healthy Cases.working Sample.db
               Cases.bob_session (Returned Cases.picture) Sample.bob _
               _ _ Hpath _ _ _)).
  - vm_compute. reflexivity.
  - vm_compute. reflexivity.
  - reflexivity.
  - intros c Hc. apply list_elem_of_In in Hc. vm_compute in Hc.
    repeat (destruct Hc as [<-|Hc]; [split; [reflexivity|vm_compute; lia]|]).
    destruct Hc.
  - vm_compute. lia.
Defined.

End Uploads.
